(** * AudioDecoderCpu: a shallow embedding of
      dali/operators/decoder/audio/audio_decoder_op.cc

    The operator decodes a batch of encoded audio buffers.  [SetupImpl]
    validates the input, opens every sample and derives the output shapes;
    [RunImpl] dispatches on the sample types and [DecodeBatch] submits one
    unit of work per sample to the thread pool.

    Conventions of the embedding:
    - C++ exceptions are an explicit outcome, a [DALIException] or an
      exception of the standard library; the state reached when the
      exception is thrown is kept, as member writes before a throw persist;
    - of the allocations of the file, the two [resize] calls on the scratch
      buffers can fail: their size comes from the metadata of the sample;
      the vectors resized to the batch size or to the number of workers, and
      the decoders, are taken to be delivered;
    - sampling rates ([float] in the source) are exact rationals [Q]; every
      finite float is one, NaN and the infinities are outside the model;
    - [int64_t] values are [Z], signed products are wrapped to 64 bits and
      the theorems that read them as plain products assume they fit;
    - vectors are lists read with [!!!] and written with [<[i:=x]>];
      indexing a vector out of range is undefined in the source, the
      theorems that read a slot assume the index is in range. *)

From Stdlib Require Import ZArith QArith Qround Lia Strings.Byte.
From stdpp Require Import base list strings.

Local Open Scope Z_scope.

(** ** Data model *)

(** The type identifiers the file names, and the rest of the enumeration. *)
Inductive DALIDataType :=
| DALI_UINT8
| DALI_INT16
| DALI_INT32
| DALI_FLOAT
| DALI_OTHER_TYPE (id : nat).

Definition DALIDataType_eqb (a b : DALIDataType) : bool :=
  match a, b with
  | DALI_UINT8, DALI_UINT8 => true
  | DALI_INT16, DALI_INT16 => true
  | DALI_INT32, DALI_INT32 => true
  | DALI_FLOAT, DALI_FLOAT => true
  | DALI_OTHER_TYPE n, DALI_OTHER_TYPE m => Nat.eqb n m
  | _, _ => false
  end.

(** [sizeof(T)] for the element types of the [TYPE_SWITCH] lists. *)
Definition sizeof (t : DALIDataType) : Z :=
  match t with
  | DALI_UINT8 => 1
  | DALI_INT16 => 2
  | DALI_INT32 => 4
  | DALI_FLOAT => 4
  | DALI_OTHER_TYPE _ => 0
  end.

(** The type list [(int16_t, int32_t, float)] of both [TYPE_SWITCH]es. *)
Definition type_switch_supported (t : DALIDataType) : bool :=
  match t with
  | DALI_INT16 | DALI_INT32 | DALI_FLOAT => true
  | _ => false
  end.

(** [AudioMetadata], as the file reads it: [meta.length], [meta.sample_rate]
    and [meta.channels]. *)
Record AudioMetadata := mkMeta {
  length_ : Z;
  sample_rate : Q;
  channels : Z
}.

Definition default_meta : AudioMetadata := mkMeta 0 0%Q 0.

#[global] Instance AudioMetadata_inhabited : Inhabited AudioMetadata :=
  populate default_meta.
#[global] Instance Q_inhabited : Inhabited Q := populate 0%Q.
#[global] Instance string_inhabited' : Inhabited string := populate EmptyString.

(** [TensorShape<>]: the extents, outermost first. *)
Abbreviation TensorShape := (list Z) (only parsing).

(** [TensorListShape<>(n, dim)]: [n] samples of [dim] dimensions each. *)
Record TensorListShape := mkTLS {
  sample_dim : nat;
  tensor_shapes : list TensorShape
}.

Definition new_TensorListShape (n : nat) (dim : nat) : TensorListShape :=
  mkTLS dim (replicate n (replicate dim 0)).

Definition num_samples (s : TensorListShape) : nat := length (tensor_shapes s).

Definition set_tensor_shape (i : nat) (sh : TensorShape) (s : TensorListShape)
  : TensorListShape :=
  mkTLS (sample_dim s) (<[i := sh]> (tensor_shapes s)).

Definition num_elements (sh : TensorShape) : Z := fold_right Z.mul 1 sh.

Record OutputDesc := mkDesc {
  desc_shape : TensorListShape;
  desc_type : DALIDataType
}.

(** One sample of the input batch: its shape, its raw memory and the source
    label [GetSourceInfo()] returns. *)
Record InputSample := mkInput {
  in_shape : TensorShape;
  raw_data : list byte;
  source_info : string
}.

Record TensorList := mkTL {
  tl_type : DALIDataType;
  tl_samples : list InputSample
}.

#[global] Instance InputSample_inhabited : Inhabited InputSample :=
  populate (mkInput [] [] EmptyString).

(** The part of the workspace the operator reads: input 0, the per-sample
    values of the [sample_rate] argument as [GetPerSampleArgument] resolves
    them, and the size of the thread pool. *)
Record Workspace := mkWs {
  ws_input : TensorList;
  ws_sample_rate : list Q;
  ws_tp_size : nat
}.

(** A [GenericAudioDecoder<T>]: its sample type and the span it was opened
    on. *)
Record GenericAudioDecoder := mkDecoder {
  dec_type : DALIDataType;
  dec_span : list byte
}.

(** The exception [DALI_ENFORCE] and [DALI_FAIL] throw, with the message
    [what()] returns. *)
Record DALIException := mkExn { what : string }.

(** What a [throw] carries: a [DALIException], the one type the [catch]
    clause of a work item names, or an exception of the standard library,
    given by its type ([std::length_error] and [std::bad_alloc] are the two
    [vector::resize] throws). *)
Inductive exception :=
| ExDALI (e : DALIException)
| ExStd (type_name : string).

Coercion ExDALI : DALIException >-> exception.

Inductive outcome (A : Type) :=
| Returned (a : A)
| Thrown (e : exception).
Arguments Returned {A} a.
Arguments Thrown {A} e.

(** The members of [AudioDecoderCpu] the file uses. *)
Record AudioDecoderCpu := mkOp {
  output_type_ : DALIDataType;
  downmix_ : bool;
  use_resampling_ : bool;
  target_sample_rates_ : list Q;
  decoders_ : list (option GenericAudioDecoder);
  sample_meta_ : list AudioMetadata;
  files_names_ : list string;
  decode_type_ : DALIDataType;
  scratch_decoder_ : list Z;
  scratch_resampler_ : list Z
}.

Definition set_target_sample_rates (v : list Q) (o : AudioDecoderCpu) :=
  mkOp (output_type_ o) (downmix_ o) (use_resampling_ o) v (decoders_ o)
       (sample_meta_ o) (files_names_ o) (decode_type_ o)
       (scratch_decoder_ o) (scratch_resampler_ o).
Definition set_decoders (v : list (option GenericAudioDecoder)) (o : AudioDecoderCpu) :=
  mkOp (output_type_ o) (downmix_ o) (use_resampling_ o)
       (target_sample_rates_ o) v (sample_meta_ o) (files_names_ o)
       (decode_type_ o) (scratch_decoder_ o) (scratch_resampler_ o).
Definition set_sample_meta (v : list AudioMetadata) (o : AudioDecoderCpu) :=
  mkOp (output_type_ o) (downmix_ o) (use_resampling_ o)
       (target_sample_rates_ o) (decoders_ o) v (files_names_ o)
       (decode_type_ o) (scratch_decoder_ o) (scratch_resampler_ o).
Definition set_files_names (v : list string) (o : AudioDecoderCpu) :=
  mkOp (output_type_ o) (downmix_ o) (use_resampling_ o)
       (target_sample_rates_ o) (decoders_ o) (sample_meta_ o) v
       (decode_type_ o) (scratch_decoder_ o) (scratch_resampler_ o).
Definition set_decode_type (v : DALIDataType) (o : AudioDecoderCpu) :=
  mkOp (output_type_ o) (downmix_ o) (use_resampling_ o)
       (target_sample_rates_ o) (decoders_ o) (sample_meta_ o)
       (files_names_ o) v (scratch_decoder_ o) (scratch_resampler_ o).
Definition set_scratch_decoder (v : list Z) (o : AudioDecoderCpu) :=
  mkOp (output_type_ o) (downmix_ o) (use_resampling_ o)
       (target_sample_rates_ o) (decoders_ o) (sample_meta_ o)
       (files_names_ o) (decode_type_ o) v (scratch_resampler_ o).
Definition set_scratch_resampler (v : list Z) (o : AudioDecoderCpu) :=
  mkOp (output_type_ o) (downmix_ o) (use_resampling_ o)
       (target_sample_rates_ o) (decoders_ o) (sample_meta_ o)
       (files_names_ o) (decode_type_ o) (scratch_decoder_ o) v.

(** What the operator does to its collaborators, in program order.  The log
    is instrumentation: no definition reads it. *)
Inductive Event :=
| EvOpen (sample : nat)
| EvDecodeAudio (sample thread : nat)
| EvRateWrite (sample : nat) (rate : Q).

(** The operator together with the two outputs of the workspace: the decoded
    samples (output 0) and the sampling rates (output 1, one element per
    sample). *)
Record World := mkWorld {
  self : AudioDecoderCpu;
  decoded_output : list (list Q);
  sample_rate_output : list Q;
  events : list Event
}.

Definition with_self (f : AudioDecoderCpu -> AudioDecoderCpu) (w : World) :=
  mkWorld (f (self w)) (decoded_output w) (sample_rate_output w) (events w).
Definition with_decoded (f : list (list Q) -> list (list Q)) (w : World) :=
  mkWorld (self w) (f (decoded_output w)) (sample_rate_output w) (events w).
Definition with_rates (f : list Q -> list Q) (w : World) :=
  mkWorld (self w) (decoded_output w) (f (sample_rate_output w)) (events w).
Definition log_event (e : Event) (w : World) :=
  mkWorld (self w) (decoded_output w) (sample_rate_output w) (events w ++ [e]).

(** ** State and exceptions *)

Definition M (A : Type) : Type := World -> World * outcome A.

Definition ret {A} (a : A) : M A := fun w => (w, Returned a).

Definition bind {A B} (c : M A) (k : A -> M B) : M B :=
  fun w =>
    match c w with
    | (w', Returned a) => k a w'
    | (w', Thrown e) => (w', Thrown e)
    end.

Definition throw {A} (e : exception) : M A := fun w => (w, Thrown e).

(** [try { c } catch (...) { h }]: the handler takes every exception. *)
Definition try_catch {A} (c : M A) (h : exception -> M A) : M A :=
  fun w =>
    match c w with
    | (w', Returned a) => (w', Returned a)
    | (w', Thrown e) => h e w'
    end.

(** [try { c } catch (const DALIException &e) { h }]: an exception of
    another type passes through. *)
Definition catch_DALIException {A} (c : M A) (h : DALIException -> M A) : M A :=
  fun w =>
    match c w with
    | (w', Returned a) => (w', Returned a)
    | (w', Thrown (ExDALI e)) => h e w'
    | (w', Thrown other) => (w', Thrown other)
    end.

Definition gets {A} (f : World -> A) : M A := fun w => (w, Returned (f w)).
Definition modify (f : World -> World) : M unit := fun w => (f w, Returned tt).

Declare Scope op_scope.
Delimit Scope op_scope with op.
Notation "x <- c1 ;; c2" := (bind c1 (fun x => c2))
  (at level 100, c1 at next level, right associativity) : op_scope.
Notation "c1 ;; c2" := (bind c1 (fun _ => c2))
  (at level 100, right associativity) : op_scope.
Local Open Scope op_scope.

(** [for (int i = 0; i < n; i++) body(i)], over the indices in order. *)
Fixpoint for_each (is_ : list nat) (body : nat -> M unit) : M unit :=
  match is_ with
  | [] => ret tt
  | i :: rest => body i ;; for_each rest body
  end.

Definition for_range (n : nat) (body : nat -> M unit) : M unit :=
  for_each (seq 0 n) body.

(** The same loop when the body updates local variables of type [S]. *)
Fixpoint for_each_acc {S} (is_ : list nat) (acc : S) (body : nat -> S -> M S)
  : M S :=
  match is_ with
  | [] => ret acc
  | i :: rest => acc' <- body i acc ;; for_each_acc rest acc' body
  end.

(** [DALI_ENFORCE(cond, msg)] and [DALI_FAIL(msg)]; the file and line the
    macros add to the message are left out. *)
Definition DALI_ENFORCE (cond : bool) (msg : string) : M unit :=
  if cond then ret tt else throw (mkExn msg).

Definition DALI_FAIL {A} (msg : string) : M A := throw (mkExn msg).

(** 64-bit signed wrap-around of a mathematical integer. *)
Definition wrap64 (z : Z) : Z := (z + 2 ^ 63) mod 2 ^ 64 - 2 ^ 63.

Definition in_int64 (z : Z) : Prop := - 2 ^ 63 <= z < 2 ^ 63.

Definition mul_int64 (a b : Z) : Z := wrap64 (a * b).

(** Conversion to [size_t], the argument type of [vector::resize]. *)
Definition to_size_t (z : Z) : Z := z mod 2 ^ 64.

(** [std::vector<T>::max_size()], as libstdc++ has it: [PTRDIFF_MAX]
    divided by the size of an element. *)
Definition PTRDIFF_MAX : Z := 2 ^ 63 - 1.

Definition vector_max_size (elem_size : Z) : Z := PTRDIFF_MAX / elem_size.

(** ** Output shapes

    [OutputLength] (audio_decoder_op.h) and [DecodedAudioShape]
    (audio_decoder_impl.h) are called by [SetupImpl] but defined outside the
    file. *)

(** Modelled from the spec: the [round] of the output-length formula, to the
    nearest integer with halves away from zero. *)
Definition round_half_away (q : Q) : Z :=
  if Qle_bool 0 q then Qfloor (q + (1 # 2)) else - Qfloor (- q + (1 # 2)).

(** Modelled from the spec: whether a target rate asks for resampling.  The
    rate 0 and the sentinel [SetupImpl] passes when the operator does not
    resample (-1) both mean no resampling. *)
Definition resampling_requested (target_rate : Q) : bool :=
  negb (Qle_bool target_rate 0).

(** Modelled from the spec: the resampled length
    [round(native_length * target_rate / native_rate)]. *)
Definition resampled_length (in_length : Z) (in_rate out_rate : Q) : Z :=
  round_half_away (inject_Z in_length * out_rate / in_rate).

(** Modelled from the spec: [DecodedAudioShape], missing from src/.  The
    output length is the resampled length when resampling is requested and
    the native length otherwise; the shape is [[output_length]] when downmix
    is requested and [[output_length; channels]] otherwise. *)
Definition DecodedAudioShape (meta : AudioMetadata) (target_sample_rate : Q)
    (downmix : bool) : TensorShape :=
  let len :=
    if resampling_requested target_sample_rate
    then resampled_length (length_ meta) (sample_rate meta) target_sample_rate
    else length_ meta in
  if downmix then [len] else [len; channels meta].

(** Modelled from the spec: [OutputLength], missing from src/; the same
    output-length rule, reading the target rate of sample [sample_idx]. *)
Definition OutputLength (o : AudioDecoderCpu) (in_length : Z) (in_rate : Q)
    (sample_idx : nat) : Z :=
  if use_resampling_ o
     && resampling_requested (target_sample_rates_ o !!! sample_idx)
  then resampled_length in_length in_rate (target_sample_rates_ o !!! sample_idx)
  else in_length.

(** ** DecodeSample: transform requirements and scratch sizes *)

(** The arguments [DecodeSample] hands to [DecodeAudio]. *)
Record DecodeAudioArgs := mkArgs {
  da_output_type : DALIDataType;
  da_decoder_type : DALIDataType;
  da_decoder : option GenericAudioDecoder;
  da_meta : AudioMetadata;
  da_decode_scratch_sz : Z;
  da_resample_scratch_sz : Z;
  da_target_sr : Q;
  da_downmix : bool;
  da_path : string
}.

Section DecodeSampleLocals.
Variables (OutputType DecoderOutputType : DALIDataType).
Variable o : AudioDecoderCpu.
Variable sample_idx : nat.

Definition meta_of : AudioMetadata := sample_meta_ o !!! sample_idx.

Definition target_sr : Q :=
  if use_resampling_ o then target_sample_rates_ o !!! sample_idx
  else sample_rate meta_of.

Definition should_resample : bool :=
  negb (Qeq_bool target_sr (sample_rate meta_of)).

Definition should_downmix : bool :=
  (1 <? channels meta_of) && downmix_ o.

(** [!std::is_same<OutputType, DecoderOutputType>::value] *)
Definition should_convert : bool :=
  negb (DALIDataType_eqb OutputType DecoderOutputType).

Definition decode_scratch_sz : Z :=
  if should_resample || should_downmix || should_convert
  then mul_int64 (length_ meta_of) (channels meta_of)
  else 0.

Definition out_channels : Z :=
  if should_downmix then 1 else channels meta_of.

Definition resample_scratch_sz : Z :=
  if should_resample then mul_int64 (length_ meta_of) out_channels else 0.

Definition DecodeSample_args : DecodeAudioArgs :=
  mkArgs OutputType DecoderOutputType
         (default None (decoders_ o !! sample_idx))
         meta_of decode_scratch_sz resample_scratch_sz
         target_sr (downmix_ o)
         (files_names_ o !!! sample_idx).
End DecodeSampleLocals.

(** ** DecodeAudio, from the spec

    [DecodeAudio] (audio_decoder_impl.h) is called by [DecodeSample] and
    defined outside the file.  The theorems on [DecodeBatch] hold for any
    function in its place; what is said of the path of the decoded data is
    said of the pipeline of the spec, [DecodeAudio_stages]. *)

(** Modelled from the spec: the destination [DecodeAudio] (missing from
    src/) gives the decoded frames, the sample's output region or the
    worker's decode scratch buffer with the number of elements it was sized
    to. *)
Inductive DecodeTarget :=
| IntoOutputRegion
| IntoDecodeScratch (elements : Z).

(** Modelled from the spec: the first requirement [DecodeAudio] determines,
    [needs_resample = target_rate != native_rate]. *)
Definition needs_resample (a : DecodeAudioArgs) : bool :=
  negb (Qeq_bool (da_target_sr a) (sample_rate (da_meta a))).

(** Modelled from the spec: the second requirement,
    [needs_downmix = channels > 1 AND downmix requested]. *)
Definition needs_downmix (a : DecodeAudioArgs) : bool :=
  (1 <? channels (da_meta a)) && da_downmix a.

(** Modelled from the spec: the third requirement, [needs_convert = native
    decode representation != requested output representation]. *)
Definition needs_convert (a : DecodeAudioArgs) : bool :=
  negb (DALIDataType_eqb (da_decoder_type a) (da_output_type a)).

(** Modelled from the spec: step 2 of Execute in [DecodeAudio].  If none of
    the three requirements holds the sample is decoded directly into its
    output region, otherwise into the decode scratch buffer [DecodeAudio]
    was handed. *)
Definition decode_target (a : DecodeAudioArgs) : DecodeTarget :=
  if needs_resample a || needs_downmix a || needs_convert a
  then IntoDecodeScratch (da_decode_scratch_sz a)
  else IntoOutputRegion.

Section DecodeAudioStages.

(** The stages of the pipeline (spec, 4.2 to 4.4) are parameters:
    [Decode(bytes, metadata, outputBuffer)] of the sample decoder, which
    writes the PCM frames of an opened decoder to the destination it is
    given; [Mix(buffer, frames, channels)] of the downmixer;
    [Resample(buffer, frames, channels, native_rate, target_rate)] of the
    resampler; and the conversion from the decode representation to the
    output representation. *)
Variable Decode :
  option GenericAudioDecoder -> AudioMetadata -> DecodeTarget -> outcome (list Q).
Variable Mix : list Q -> Z -> Z -> list Q.
Variable Resample : list Q -> Z -> Z -> Q -> Q -> outcome (list Q).
Variable Convert : DALIDataType -> DALIDataType -> list Q -> list Q.

(** Modelled from the spec: steps 3 to 5 of Execute in [DecodeAudio], on
    the frames in the decode scratch.  They are mixed down to one channel if
    [needs_downmix], resampled if [needs_resample], and the final
    intermediate buffer is converted to the output representation and
    written to the sample's output region. *)
Definition post_process (a : DecodeAudioArgs) (frames : list Q)
  : outcome (list Q) :=
  let meta := da_meta a in
  let mixed :=
    if needs_downmix a then Mix frames (length_ meta) (channels meta)
    else frames in
  let output_channels := if needs_downmix a then 1 else channels meta in
  match (if needs_resample a
         then Resample mixed (length_ meta) output_channels
                       (sample_rate meta) (da_target_sr a)
         else Returned mixed) with
  | Returned buffer =>
      Returned (Convert (da_decoder_type a) (da_output_type a) buffer)
  | Thrown e => Thrown e
  end.

(** Modelled from the spec: [DecodeAudio] (audio_decoder_impl.h, missing
    from src/), steps 1 to 5 of Execute.  The result is the content of the
    sample's output region. *)
Definition DecodeAudio_stages (a : DecodeAudioArgs) : outcome (list Q) :=
  match Decode (da_decoder a) (da_meta a) (decode_target a) with
  | Returned frames =>
      if needs_resample a || needs_downmix a || needs_convert a
      then post_process a frames
      else Returned frames
  | Thrown e => Thrown e
  end.

End DecodeAudioStages.

(** ** The operator *)

Section Operator.

(** The collaborators defined outside the file: [AudioDecoderBase::Open] of a
    [GenericAudioDecoder<T>] on a span of bytes, [DecodeAudio], the text
    [make_string] prints for a type identifier, and the allocator of the
    scratch vectors: whether it delivers a block of that many bytes. *)
Variable Open : DALIDataType -> list byte -> outcome AudioMetadata.
Variable allocates : Z -> bool.
Variable DecodeAudio : DecodeAudioArgs -> outcome (list Q).
Variable type_to_string : DALIDataType -> string.

Definition lift_outcome {A} (r : outcome A) : M A :=
  match r with
  | Returned a => ret a
  | Thrown e => throw e
  end.

(** [decoders_[i]->Open({raw_mutable_data(), num_elements()})].  A null
    decoder cannot occur here: the [TYPE_SWITCH] before has either filled
    every slot or thrown. *)
Definition open_decoder (i : nat) (span : list byte) : M AudioMetadata :=
  o <- gets self ;;
  match default None (decoders_ o !! i) with
  | Some d =>
      modify (log_event (EvOpen i)) ;;
      modify (with_self
        (set_decoders (<[i := Some (mkDecoder (dec_type d) span)]> (decoders_ o)))) ;;
      lift_outcome (Open (dec_type d) span)
  | None => throw (mkExn "null decoder")
  end.

(** The body of the loop that opens the samples (lines 79 to 89); the two
    shapes are the locals [shape_data] and [shape_rate].  [out_length] is
    computed and not used, as in the source. *)
Definition setup_sample (input : TensorList) (i : nat)
    (shapes : TensorListShape * TensorListShape)
  : M (TensorListShape * TensorListShape) :=
  let '(shape_data, shape_rate) := shapes in
  let sample := tl_samples input !!! i in
  meta <- open_decoder i
            (take (Z.to_nat (num_elements (in_shape sample))) (raw_data sample)) ;;
  modify (with_self (fun o =>
    set_sample_meta (<[i := meta]> (sample_meta_ o)) o)) ;;
  o <- gets self ;;
  let out_length := OutputLength o (length_ meta) (sample_rate meta) i in
  let data_sample_shape :=
    DecodedAudioShape meta
      (if use_resampling_ o then target_sample_rates_ o !!! i else (-1)%Q)
      (downmix_ o) in
  let shape_data := set_tensor_shape i data_sample_shape shape_data in
  let shape_rate := set_tensor_shape i [1] shape_rate in
  modify (with_self (fun o =>
    set_files_names (<[i := source_info sample]> (files_names_ o)) o)) ;;
  ret (shape_data, shape_rate).

(** The body of the [TYPE_SWITCH] on [decode_type_] (lines 66 to 69). *)
Definition create_decoders (decode_type : DALIDataType) (batch_size : nat)
  : M unit :=
  if type_switch_supported decode_type
  then for_range batch_size (fun i =>
         modify (with_self (fun o =>
           set_decoders (<[i := Some (mkDecoder decode_type [])]> (decoders_ o)) o)))
  else DALI_FAIL ("Unsupported output type: " +:+ type_to_string decode_type).

(** The two [DALI_ENFORCE]s on the input (lines 57 to 60). *)
Definition validate_input (input : TensorList) : M unit :=
  for_range (length (tl_samples input)) (fun i =>
    DALI_ENFORCE (length (in_shape (tl_samples input !!! i)) =? 1)%nat
                 "Raw input must be 1D encoded byte data") ;;
  DALI_ENFORCE (DALIDataType_eqb (tl_type input) DALI_UINT8)
               "Raw files must be stored as uint8 data.".

Definition SetupImpl (ws : Workspace) : M (list OutputDesc) :=
  (* GetPerSampleArgument<float>(target_sample_rates_, "sample_rate", ws) *)
  modify (with_self (set_target_sample_rates (ws_sample_rate ws))) ;;
  let input := ws_input ws in
  let batch_size := length (tl_samples input) in
  validate_input input ;;
  modify (with_self (fun o => set_decoders (resize batch_size None (decoders_ o)) o)) ;;
  modify (with_self (fun o =>
    set_sample_meta (resize batch_size default_meta (sample_meta_ o)) o)) ;;
  modify (with_self (fun o =>
    set_files_names (resize batch_size EmptyString (files_names_ o)) o)) ;;
  modify (with_self (fun o =>
    set_decode_type
      (if use_resampling_ o && negb (downmix_ o) then DALI_FLOAT
       else output_type_ o) o)) ;;
  decode_type <- gets (fun w => decode_type_ (self w)) ;;
  create_decoders decode_type batch_size ;;
  downmix <- gets (fun w => downmix_ (self w)) ;;
  let shape_rate := new_TensorListShape batch_size 1 in
  let shape_data := new_TensorListShape batch_size (if downmix then 1 else 2) in
  shapes <- for_each_acc (seq 0 batch_size) (shape_data, shape_rate)
              (setup_sample input) ;;
  o <- gets self ;;
  ret [ mkDesc (fst shapes) (output_type_ o); mkDesc (snd shapes) DALI_FLOAT ].

(** [std::vector<T>::resize(count)] on a scratch vector: it throws
    [std::length_error] when [count] exceeds [max_size()] and
    [std::bad_alloc] when the allocator does not deliver the storage; a
    resize to no element asks for none.  The model keeps the sizes of the
    scratch vectors, not their capacities, and the allocator answers by the
    size of the request alone. *)
Definition resize_outcome (elem_size count : Z) : outcome unit :=
  if vector_max_size elem_size <? count then Thrown (ExStd "std::length_error")
  else if (count =? 0) || allocates (count * elem_size) then Returned tt
  else Thrown (ExStd "std::bad_alloc").

(** The decode scratch of a worker is a vector of bytes, resized to a number
    of bytes (line 117); its resample scratch is a vector of [float], resized
    to a number of elements (line 120). *)
Definition DecodeSample (OutputType DecoderOutputType : DALIDataType)
    (thread_idx sample_idx : nat) : M unit :=
  o <- gets self ;;
  let a := DecodeSample_args OutputType DecoderOutputType o sample_idx in
  lift_outcome
    (resize_outcome (sizeof DALI_UINT8)
       (to_size_t (da_decode_scratch_sz a * sizeof DecoderOutputType))) ;;
  modify (with_self (fun o =>
    set_scratch_decoder
      (<[thread_idx :=
           to_size_t (da_decode_scratch_sz a * sizeof DecoderOutputType)]>
         (scratch_decoder_ o)) o)) ;;
  lift_outcome
    (resize_outcome (sizeof DALI_FLOAT)
       (to_size_t (da_resample_scratch_sz a))) ;;
  modify (with_self (fun o =>
    set_scratch_resampler
      (<[thread_idx := to_size_t (da_resample_scratch_sz a)]>
         (scratch_resampler_ o)) o)) ;;
  modify (log_event (EvDecodeAudio sample_idx thread_idx)) ;;
  pcm <- lift_outcome (DecodeAudio a) ;;
  modify (with_decoded (<[sample_idx := pcm]>)).

(** The value the work item stores in [sample_rate_output[i].data[0]]. *)
Definition reported_rate (o : AudioDecoderCpu) (i : nat) : Q :=
  if use_resampling_ o then target_sample_rates_ o !!! i
  else sample_rate (sample_meta_ o !!! i).

(** The body of the lambda [DecodeBatch] gives to [AddWork] for sample [i];
    its [catch] clause names [const DALIException &]. *)
Definition decode_unit (OutputType DecoderOutputType : DALIDataType)
    (i thread_id : nat) : M unit :=
  catch_DALIException
    (DecodeSample OutputType DecoderOutputType thread_id i ;;
     o <- gets self ;;
     modify (with_rates (<[i := reported_rate o i]>)) ;;
     modify (log_event (EvRateWrite i (reported_rate o i))))
    (fun e =>
       o <- gets self ;;
       DALI_FAIL ("Error decoding file " +:+ files_names_ o !!! i
                  +:+ ". Error: " +:+ what e)).

(** ** The thread pool *)

(** Modelled from the spec: the worker pool ([ThreadPool] is not under
    src/).  Each sample's pipeline is one independent unit of work with an
    estimated cost; the pool runs every queued unit on some worker, does not
    cancel units after a failure, and the join re-raises the first failure
    observed, whatever the type of the exception the unit left with.  Units
    of one worker run one after the other and units of different workers
    touch disjoint state, so a run of the pool is a sequence of (queue
    position, worker) pairs: the schedule. *)
Record WorkItem := mkWork {
  work : nat -> M unit;
  priority : Z
}.

Definition Schedule := list (nat * nat).

Definition valid_schedule (n_units tp_size : nat) (sched : Schedule) : Prop :=
  sched.*1 ≡ₚ seq 0 n_units /\ Forall (fun kt => (kt.2 < tp_size)%nat) sched.

Fixpoint run_scheduled (queue : list WorkItem) (sched : Schedule)
  : M (list exception) :=
  match sched with
  | [] => ret []
  | (k, thread_id) :: rest =>
      errs1 <- match queue !! k with
               | Some item =>
                   try_catch (work item thread_id ;; ret [])
                             (fun e => ret [e])
               | None => ret []
               end ;;
      errs2 <- run_scheduled queue rest ;;
      ret (errs1 ++ errs2)
  end.

Definition rethrow_first (errs : list exception) : M unit :=
  match errs with
  | [] => ret tt
  | e :: _ => throw e
  end.

Definition RunAll (queue : list WorkItem) (sched : Schedule) : M unit :=
  errs <- run_scheduled queue sched ;;
  rethrow_first errs.

(** The queue [DecodeBatch] builds with [AddWork]: one unit per sample, in
    index order, with priority [length * channels]. *)
Definition decode_queue (OutputType DecoderOutputType : DALIDataType)
    (o : AudioDecoderCpu) (batch_size : nat) : list WorkItem :=
  map (fun i =>
         mkWork (decode_unit OutputType DecoderOutputType i)
                (mul_int64 (length_ (sample_meta_ o !!! i))
                           (channels (sample_meta_ o !!! i))))
      (seq 0 batch_size).

Definition DecodeBatch (OutputType DecoderOutputType : DALIDataType)
    (ws : Workspace) (sched : Schedule) : M unit :=
  batch_size <- gets (fun w => length (decoded_output w)) ;;
  modify (with_self (fun o =>
    set_scratch_decoder (resize (ws_tp_size ws) 0 (scratch_decoder_ o)) o)) ;;
  modify (with_self (fun o =>
    set_scratch_resampler (resize (ws_tp_size ws) 0 (scratch_resampler_ o)) o)) ;;
  o <- gets self ;;
  RunAll (decode_queue OutputType DecoderOutputType o batch_size) sched.

Definition RunImpl (ws : Workspace) (sched : Schedule) : M unit :=
  o <- gets self ;;
  if type_switch_supported (output_type_ o) then
    if type_switch_supported (decode_type_ o) then
      DecodeBatch (output_type_ o) (decode_type_ o) ws sched
    else DALI_FAIL ("Unsupported decoder output type: "
                    +:+ type_to_string (decode_type_ o))
  else DALI_FAIL ("Unsupported output type: "
                  +:+ type_to_string (output_type_ o)).

End Operator.

(** * Vocabulary of the properties *)

(** ** Input validation *)

Definition sample_is_1d (s : InputSample) : bool :=
  (length (in_shape s) =? 1)%nat.

Definition input_is_uint8 (input : TensorList) : bool :=
  DALIDataType_eqb (tl_type input) DALI_UINT8.

(** Every sample is a flat byte sequence and the element type is uint8. *)
Definition input_valid (input : TensorList) : bool :=
  forallb sample_is_1d (tl_samples input) && input_is_uint8 input.

(** The error the two [DALI_ENFORCE]s raise on an invalid input: the shape
    check comes first. *)
Definition validation_error (input : TensorList) : DALIException :=
  if forallb sample_is_1d (tl_samples input)
  then mkExn "Raw files must be stored as uint8 data."
  else mkExn "Raw input must be 1D encoded byte data".

(** ** What [SetupImpl] plans *)

(** The members the loops of [SetupImpl] leave alone once they are set. *)
Definition setup_config (w : World)
  : DALIDataType * bool * bool * list Q * DALIDataType :=
  (output_type_ (self w), downmix_ (self w), use_resampling_ (self w),
   target_sample_rates_ (self w), decode_type_ (self w)).

(** The target rate [SetupImpl] passes to [DecodedAudioShape] for a sample. *)
Definition shape_target_rate (o : AudioDecoderCpu) (i : nat) : Q :=
  if use_resampling_ o then target_sample_rates_ o !!! i else (-1)%Q.

(** The vectors and the two local shapes all have [n] entries, and every
    decoder is a [GenericAudioDecoder<decode_type_>]. *)
Definition setup_sized (n : nat) (w : World)
    (shapes : TensorListShape * TensorListShape) : Prop :=
  length (sample_meta_ (self w)) = n /\
  length (files_names_ (self w)) = n /\
  length (decoders_ (self w)) = n /\
  length (tensor_shapes shapes.1) = n /\
  length (tensor_shapes shapes.2) = n /\
  forall j, (j < n)%nat ->
    exists span, decoders_ (self w) !! j
                 = Some (Some (mkDecoder (decode_type_ (self w)) span)).

(** Sample [j] has been opened, its two shapes are set and its source label
    is recorded. *)
Definition sample_planned
    (Open : DALIDataType -> list byte -> outcome AudioMetadata)
    (input : TensorList) (w : World)
    (shapes : TensorListShape * TensorListShape) (j : nat) : Prop :=
  files_names_ (self w) !! j = Some (source_info (tl_samples input !!! j)) /\
  tensor_shapes shapes.1 !! j
    = Some (DecodedAudioShape (sample_meta_ (self w) !!! j)
                              (shape_target_rate (self w) j)
                              (downmix_ (self w))) /\
  tensor_shapes shapes.2 !! j = Some [1] /\
  exists span,
    decoders_ (self w) !! j
      = Some (Some (mkDecoder (decode_type_ (self w)) span)) /\
    Open (decode_type_ (self w)) span = Returned (sample_meta_ (self w) !!! j).

(** The shape [SetupImpl] plans for sample [i] of output 0, and its first
    extent, the output length. *)
Definition planned_shape (descs : list OutputDesc) (i : nat) : option TensorShape :=
  match descs !! 0%nat with
  | Some d => tensor_shapes (desc_shape d) !! i
  | None => None
  end.

Definition planned_output_length (descs : list OutputDesc) (i : nat) : option Z :=
  match planned_shape descs i with
  | Some sh => head sh
  | None => None
  end.

(** Resampling is requested for sample [i]: the operator resamples and the
    sample's target rate is an actual rate. *)
Definition resampling_requested_for (o : AudioDecoderCpu) (i : nat) : bool :=
  use_resampling_ o && resampling_requested (target_sample_rates_ o !!! i).

(** The output length the spec gives sample [i], from the metadata and the
    target rates the operator holds. *)
Definition expected_output_length (o : AudioDecoderCpu) (i : nat) : Z :=
  let meta := sample_meta_ o !!! i in
  if resampling_requested_for o i
  then round_half_away (inject_Z (length_ meta)
                        * (target_sample_rates_ o !!! i) / sample_rate meta)
  else length_ meta.

(** Line 65: the type the decoders of the batch produce. *)
Definition selected_decode_type (o : AudioDecoderCpu) : DALIDataType :=
  if use_resampling_ o && negb (downmix_ o) then DALI_FLOAT else output_type_ o.

(** Sample [i] needs some post-processing: resampling, downmix, or a
    conversion from the decode representation to the output type. *)
Definition needs_post_processing (o : AudioDecoderCpu) (i : nat) : bool :=
  should_resample o i || should_downmix o i
  || should_convert (output_type_ o) (decode_type_ o).

(** C4 as the spec words it: the representation [SetupImpl] selects is
    determined, sample by sample, by the requested output type and by
    whether the sample needs any post-processing. *)
Definition decode_type_follows_needs
    (Open : DALIDataType -> list byte -> outcome AudioMetadata)
    (type_to_string : DALIDataType -> string) : Prop :=
  exists f : DALIDataType -> bool -> DALIDataType,
  forall ws w w' descs i,
    SetupImpl Open type_to_string ws w = (w', Returned descs) ->
    (i < length (tl_samples (ws_input ws)))%nat ->
    decode_type_ (self w')
    = f (output_type_ (self w')) (needs_post_processing (self w') i).

(** ** What a unit of work does *)

(** The members [DecodeBatch] and its units only read: the plan. *)
Definition plan_of (o : AudioDecoderCpu) :=
  (output_type_ o, downmix_ o, use_resampling_ o, target_sample_rates_ o,
   decoders_ o, sample_meta_ o, files_names_ o).

(** The state in which [DecodeSample] calls [DecodeAudio]: both scratch
    buffers of the worker are resized and nothing else has changed. *)
Definition scratch_ready (OutputType DecoderOutputType : DALIDataType)
    (thread_idx sample_idx : nat) (w : World) : World :=
  let a := DecodeSample_args OutputType DecoderOutputType (self w) sample_idx in
  log_event (EvDecodeAudio sample_idx thread_idx)
    (with_self (fun o =>
       set_scratch_resampler
         (<[thread_idx := to_size_t (da_resample_scratch_sz a)]>
            (scratch_resampler_ o))
         (set_scratch_decoder
            (<[thread_idx :=
                 to_size_t (da_decode_scratch_sz a * sizeof DecoderOutputType)]>
               (scratch_decoder_ o)) o)) w).

(** The state between the two [resize] calls of [DecodeSample]. *)
Definition decode_scratch_resized (OutputType DecoderOutputType : DALIDataType)
    (thread_idx sample_idx : nat) (w : World) : World :=
  let a := DecodeSample_args OutputType DecoderOutputType (self w) sample_idx in
  with_self (fun o =>
    set_scratch_decoder
      (<[thread_idx :=
           to_size_t (da_decode_scratch_sz a * sizeof DecoderOutputType)]>
         (scratch_decoder_ o)) o) w.

(** The message of the [catch] clause of a work item. *)
Definition wrapped_error (o : AudioDecoderCpu) (i : nat) (cause : DALIException)
  : DALIException :=
  mkExn ("Error decoding file " +:+ files_names_ o !!! i
         +:+ ". Error: " +:+ what cause).

(** The exception a work item leaves with when its pipeline throws [cause]:
    the [catch] clause rewrites a [DALIException], an exception of another
    type passes through. *)
Definition unit_error (o : AudioDecoderCpu) (i : nat) (cause : exception)
  : exception :=
  match cause with
  | ExDALI e => wrapped_error o i e
  | other => other
  end.

(** C5 as the spec words it, for one sample: the resample scratch buffer has
    [output_length * output_channels] elements. *)
Definition resample_scratch_output_sized (OutputType DecoderOutputType : DALIDataType)
    (o : AudioDecoderCpu) (i : nat) : Prop :=
  should_resample o i = true ->
  da_resample_scratch_sz (DecodeSample_args OutputType DecoderOutputType o i)
  = expected_output_length o i * out_channels o i.

Section Units.

Variable allocates : Z -> bool.
Variable DecodeAudio : DecodeAudioArgs -> outcome (list Q).
Variables OutputType DecoderOutputType : DALIDataType.

(** Whether the two [resize] calls of [DecodeSample] deliver the scratch
    buffers of sample [i]. *)
Definition scratch_outcome (o : AudioDecoderCpu) (i : nat) : outcome unit :=
  let a := DecodeSample_args OutputType DecoderOutputType o i in
  match resize_outcome allocates (sizeof DALI_UINT8)
          (to_size_t (da_decode_scratch_sz a * sizeof DecoderOutputType)) with
  | Returned _ =>
      resize_outcome allocates (sizeof DALI_FLOAT)
        (to_size_t (da_resample_scratch_sz a))
  | Thrown e => Thrown e
  end.

(** Whether the decode pipeline of sample [i] succeeds: the scratch buffers
    are delivered and [DecodeAudio] returns. *)
Definition unit_outcome (o : AudioDecoderCpu) (i : nat) : outcome (list Q) :=
  match scratch_outcome o i with
  | Returned _ => DecodeAudio (DecodeSample_args OutputType DecoderOutputType o i)
  | Thrown e => Thrown e
  end.

(** The state in which [DecodeSample] calls [DecodeAudio], or in which the
    [resize] that fails leaves it. *)
Definition scratch_stage (thread_idx sample_idx : nat) (w : World) : World :=
  let a := DecodeSample_args OutputType DecoderOutputType (self w) sample_idx in
  match resize_outcome allocates (sizeof DALI_UINT8)
          (to_size_t (da_decode_scratch_sz a * sizeof DecoderOutputType)) with
  | Returned _ =>
      match resize_outcome allocates (sizeof DALI_FLOAT)
              (to_size_t (da_resample_scratch_sz a)) with
      | Returned _ =>
          scratch_ready OutputType DecoderOutputType thread_idx sample_idx w
      | Thrown _ =>
          decode_scratch_resized OutputType DecoderOutputType
            thread_idx sample_idx w
      end
  | Thrown _ => w
  end.

(** The contribution of one scheduled unit to the errors the pool collects,
    to the log and to the sampling-rate output; [o] is the operator at the
    start of the batch and [n] the batch size. *)
Definition unit_errors (o : AudioDecoderCpu) (n : nat) (kt : nat * nat)
  : list exception :=
  if (kt.1 <? n)%nat then
    match unit_outcome o kt.1 with
    | Returned _ => []
    | Thrown e => [unit_error o kt.1 e]
    end
  else [].

Definition unit_events (o : AudioDecoderCpu) (n : nat) (kt : nat * nat)
  : list Event :=
  if (kt.1 <? n)%nat then
    match scratch_outcome o kt.1 with
    | Returned _ => [EvDecodeAudio kt.1 kt.2]
    | Thrown _ => []
    end ++
    match unit_outcome o kt.1 with
    | Returned _ => [EvRateWrite kt.1 (reported_rate o kt.1)]
    | Thrown _ => []
    end
  else [].

Definition unit_rates (o : AudioDecoderCpu) (n : nat) (rates : list Q)
    (kt : nat * nat) : list Q :=
  if (kt.1 <? n)%nat then
    match unit_outcome o kt.1 with
    | Returned _ => <[kt.1 := reported_rate o kt.1]> rates
    | Thrown _ => rates
    end
  else rates.

End Units.

(** C3 as the spec words it, for a batch: the slot of every sample that is
    decoded holds the sample's target rate if resampling is requested for
    the sample, and its native rate if no resampling is requested for it. *)
Definition rates_reported_as_requested (allocates : Z -> bool)
    (DecodeAudio : DecodeAudioArgs -> outcome (list Q))
    (OutputType DecoderOutputType : DALIDataType)
    (ws : Workspace) (sched : Schedule) (w : World) : Prop :=
  forall i pcm,
    (i < length (decoded_output w))%nat ->
    unit_outcome allocates DecodeAudio OutputType DecoderOutputType (self w) i
    = Returned pcm ->
    exists v,
      sample_rate_output
        (DecodeBatch allocates DecodeAudio OutputType DecoderOutputType
                     ws sched w).1 !! i = Some v /\
      (resampling_requested_for (self w) i = true ->
       v = target_sample_rates_ (self w) !!! i) /\
      (resampling_requested_for (self w) i = false ->
       (v == sample_rate (sample_meta_ (self w) !!! i))%Q).

(** C8 as the spec words it, for the unit of sample [i] on a worker: when
    the pipeline of the sample fails, the unit leaves with an error that
    carries the source label of the sample and a cause. *)
Definition failure_is_wrapped (allocates : Z -> bool)
    (DecodeAudio : DecodeAudioArgs -> outcome (list Q))
    (OutputType DecoderOutputType : DALIDataType)
    (w : World) (i thread_id : nat) : Prop :=
  forall cause,
    unit_outcome allocates DecodeAudio OutputType DecoderOutputType (self w) i
    = Thrown cause ->
    exists cause_text,
      (decode_unit allocates DecodeAudio OutputType DecoderOutputType
                   i thread_id w).2
      = Thrown (mkExn ("Error decoding file " +:+ files_names_ (self w) !!! i
                       +:+ ". Error: " +:+ cause_text)).

(** * A worked batch

    Two samples: [a.wav], mono, decodes; [b.wav], two channels, has a
    truncated payload.  The operator resamples to 8000 Hz and 16000 Hz and
    does not downmix. *)

Definition open_ex (t : DALIDataType) (span : list byte) : outcome AudioMetadata :=
  match span with
  | [] => Thrown (mkExn "unrecognized header")
  | b :: _ => Returned (mkMeta 1000 (16000 # 1) (Z.of_N (Byte.to_N b)))
  end.

Definition decode_ex (a : DecodeAudioArgs) : outcome (list Q) :=
  match da_decoder a with
  | Some (mkDecoder _ (_ :: _ :: _)) => Returned []
  | _ => Thrown (mkExn "deficient length")
  end.

(** An allocator that delivers blocks of up to 4 GiB. *)
Definition alloc_ex (bytes : Z) : bool := bytes <=? 2 ^ 32.

(** Stages for [DecodeAudio_stages]: the decoder yields one value per byte
    [b] of the span, [b + 1/2]; the downmixer keeps the first [frames]
    values, the
    resampler keeps every value and the conversion to an integer type
    truncates. *)
Definition decode_stage_ex (d : option GenericAudioDecoder) (meta : AudioMetadata)
    (target : DecodeTarget) : outcome (list Q) :=
  match d with
  | Some dec =>
      Returned (map (fun b => Qmake (2 * Z.of_N (Byte.to_N b) + 1) 2) (dec_span dec))
  | None => Thrown (mkExn "no decoder")
  end.

Definition mix_ex (buffer : list Q) (frames channels : Z) : list Q :=
  take (Z.to_nat frames) buffer.

Definition resample_ex (buffer : list Q) (frames channels : Z)
    (native_rate target_rate : Q) : outcome (list Q) :=
  Returned buffer.

Definition convert_ex (from to : DALIDataType) (buffer : list Q) : list Q :=
  match to with
  | DALI_FLOAT => buffer
  | _ => map (fun q => inject_Z (Qfloor q)) buffer
  end.

Definition type_name_ex (t : DALIDataType) : string :=
  match t with
  | DALI_UINT8 => "uint8"
  | DALI_INT16 => "int16"
  | DALI_INT32 => "int32"
  | DALI_FLOAT => "float"
  | DALI_OTHER_TYPE _ => "other"
  end.

Definition input_ex : TensorList :=
  mkTL DALI_UINT8 [ mkInput [2] [x01; x10] "a.wav"; mkInput [1] [x02] "b.wav" ].

Definition ws_ex : Workspace := mkWs input_ex [8000 # 1; 16000 # 1]%Q 2.

Definition op_ex : AudioDecoderCpu :=
  mkOp DALI_FLOAT false true [] [] [] [] DALI_UINT8 [] [].

Definition w_ex : World := mkWorld op_ex [] [] [].

Definition planned_ex : World := (SetupImpl open_ex type_name_ex ws_ex w_ex).1.

Definition descs_ex : list OutputDesc :=
  match (SetupImpl open_ex type_name_ex ws_ex w_ex).2 with
  | Returned descs => descs
  | Thrown _ => []
  end.

(** The world [RunImpl] starts in: the planned operator and the two outputs
    allocated from the descriptions. *)
Definition run_ex : World :=
  mkWorld (self planned_ex) [[]; []] [0; 0]%Q (events planned_ex).

Definition sched_ex : Schedule := [(1, 0); (0, 1)]%nat.

(** The world of a unit of work: as [run_ex], with the two scratch slots of
    the two workers in place. *)
Definition worker_ex : World :=
  with_self (fun o => set_scratch_resampler [0; 0] (set_scratch_decoder [0; 0] o))
            run_ex.

(** The worked batch with the target rate 0 for both samples.  The rate
    output holds the native rate of the samples before the run. *)
Definition ws_zero_rate : Workspace := mkWs input_ex [0; 0]%Q 2.

Definition planned_zero_rate : World :=
  (SetupImpl open_ex type_name_ex ws_zero_rate w_ex).1.

Definition run_zero_rate : World :=
  mkWorld (self planned_zero_rate) [[]; []] [16000 # 1; 16000 # 1]%Q
          (events planned_zero_rate).

(** A batch of one sample whose header announces 2^62 frames. *)
Definition open_huge (t : DALIDataType) (span : list byte) : outcome AudioMetadata :=
  match span with
  | [] => Thrown (mkExn "unrecognized header")
  | _ :: _ => Returned (mkMeta (2 ^ 62) (16000 # 1) 1)
  end.

Definition ws_huge : Workspace :=
  mkWs (mkTL DALI_UINT8 [ mkInput [2] [x01; x10] "huge.wav" ]) [8000 # 1]%Q 1.

Definition planned_huge : World :=
  (SetupImpl open_huge type_name_ex ws_huge w_ex).1.

Definition run_huge : World :=
  mkWorld (self planned_huge) [[]] [0]%Q (events planned_huge).

Definition sched_huge : Schedule := [(0, 0)]%nat.

(** The worked batch with a two-dimensional second sample. *)
Definition ws_bad_shape : Workspace :=
  mkWs (mkTL DALI_UINT8 [ mkInput [2] [x01; x10] "a.wav";
                          mkInput [1; 1] [x02] "b.wav" ])
       [8000 # 1; 16000 # 1]%Q 2.

(** Two operators with 16-bit output: one resamples without downmix, the
    other downmixes without resampling. *)
Definition w_resample_int16 : World :=
  mkWorld (mkOp DALI_INT16 false true [] [] [] [] DALI_UINT8 [] []) [] [] [].

Definition w_downmix_int16 : World :=
  mkWorld (mkOp DALI_INT16 true false [] [] [] [] DALI_UINT8 [] []) [] [] [].

(** * Vocabulary of the further properties *)

(** The span of bytes [SetupImpl] opens a sample on: the first
    [num_elements()] bytes of its raw memory. *)
Definition sample_span (s : InputSample) : list byte :=
  take (Z.to_nat (num_elements (in_shape s))) (raw_data s).

(** The world in which [SetupImpl] reaches the [TYPE_SWITCH] (lines 53 to
    65): the target rates are read, the three vectors are resized to the
    batch size and [decode_type_] is chosen. *)
Definition setup_prepared (ws : Workspace) (w : World) : World :=
  let n := length (tl_samples (ws_input ws)) in
  with_self (fun o => set_decode_type (selected_decode_type o) o)
    (with_self (fun o =>
       set_files_names (resize n EmptyString (files_names_ o)) o)
       (with_self (fun o =>
          set_sample_meta (resize n default_meta (sample_meta_ o)) o)
          (with_self (fun o => set_decoders (resize n None (decoders_ o)) o)
             (with_self (set_target_sample_rates (ws_sample_rate ws)) w)))).

(** The world after [decoders_[i]->Open(span)] was called on decoder [d]. *)
Definition open_logged (i : nat) (d : GenericAudioDecoder) (span : list byte)
    (w : World) : World :=
  with_self (fun o =>
    set_decoders (<[i := Some (mkDecoder (dec_type d) span)]> (decoders_ o)) o)
    (log_event (EvOpen i) w).

(** The world after the metadata and the source label of sample [i] were
    stored. *)
Definition sample_recorded (i : nat) (meta : AudioMetadata) (label : string)
    (w : World) : World :=
  with_self (fun o =>
    set_files_names (<[i := label]> (files_names_ o))
      (set_sample_meta (<[i := meta]> (sample_meta_ o)) o)) w.

(** Sample [j] is opened on its own span by a decoder of the batch's decode
    type, and the metadata stored for it is what [Open] returned. *)
Definition sample_opened
    (Open : DALIDataType -> list byte -> outcome AudioMetadata)
    (input : TensorList) (w : World) (j : nat) : Prop :=
  let span := sample_span (tl_samples input !!! j) in
  decoders_ (self w) !! j
    = Some (Some (mkDecoder (decode_type_ (self w)) span)) /\
  sample_meta_ (self w) !! j = Some (sample_meta_ (self w) !!! j) /\
  files_names_ (self w) !! j = Some (source_info (tl_samples input !!! j)) /\
  Open (decode_type_ (self w)) span = Returned (sample_meta_ (self w) !!! j).

(** Sample [i] can be opened by a decoder of type [dt]. *)
Definition opens
    (Open : DALIDataType -> list byte -> outcome AudioMetadata)
    (dt : DALIDataType) (input : TensorList) (i : nat) : Prop :=
  exists meta, Open dt (sample_span (tl_samples input !!! i)) = Returned meta.

(** What neither loop of [SetupImpl] touches: the configuration, the scratch
    vectors and the outputs of the workspace. *)
Definition setup_untouched (w : World) :=
  (setup_config w, scratch_decoder_ (self w), scratch_resampler_ (self w),
   decoded_output w, sample_rate_output w).

(** The world in which [SetupImpl] starts opening the samples: every slot of
    [decoders_] holds a fresh [GenericAudioDecoder<decode_type_>]. *)
Definition setup_decoders_created (ws : Workspace) (w : World) : World :=
  let n := length (tl_samples (ws_input ws)) in
  with_self (fun o =>
    set_decoders
      (replicate n (Some (mkDecoder (selected_decode_type (self w)) []))) o)
    (setup_prepared ws w).

(** The two local shapes of [SetupImpl] before the loop fills them. *)
Definition initial_shapes (ws : Workspace) (w : World)
  : TensorListShape * TensorListShape :=
  let n := length (tl_samples (ws_input ws)) in
  (new_TensorListShape n (if downmix_ (self w) then 1 else 2)%nat,
   new_TensorListShape n 1).

(** The world in which [DecodeBatch] submits its work: the two scratch
    vectors have one slot per worker of the pool. *)
Definition scratch_resized (ws : Workspace) (w : World) : World :=
  with_self (fun o =>
    set_scratch_resampler (resize (ws_tp_size ws) 0 (scratch_resampler_ o))
      (set_scratch_decoder (resize (ws_tp_size ws) 0 (scratch_decoder_ o)) o)) w.

(** What [DecodeBatch] keeps besides the plan: the decode type and the sizes
    of the scratch vectors and of the two outputs. *)
Definition batch_sizes (w : World) :=
  (decode_type_ (self w),
   length (scratch_decoder_ (self w)), length (scratch_resampler_ (self w)),
   length (decoded_output w), length (sample_rate_output w)).

Section UnitSteps.

Variable allocates : Z -> bool.
Variable DecodeAudio : DecodeAudioArgs -> outcome (list Q).
Variables OutputType DecoderOutputType : DALIDataType.

(** The world after the pool ran one scheduled unit: queue position [kt.1]
    on worker [kt.2]; positions outside the queue hold no unit. *)
Definition unit_step (n : nat) (w : World) (kt : nat * nat) : World :=
  if (kt.1 <? n)%nat
  then (decode_unit allocates DecodeAudio OutputType DecoderOutputType
          kt.1 kt.2 w).1
  else w.

(** The sampling-rate output after the batch, from the one before: slot
    [j] holds the reported rate of sample [j] if the sample's pipeline
    succeeds, and what it held otherwise. *)
Definition batch_rates (o : AudioDecoderCpu) (n : nat) (rates : list Q) : list Q :=
  imap (fun j r =>
          if (j <? n)%nat then
            match unit_outcome allocates DecodeAudio OutputType
                    DecoderOutputType o j with
            | Returned _ => reported_rate o j
            | Thrown _ => r
            end
          else r) rates.

End UnitSteps.

(** * Further batches *)

(** The descriptions a run of [SetupImpl] returned, none if it threw. *)
Definition returned_descs (r : World * outcome (list OutputDesc))
  : list OutputDesc :=
  match r.2 with
  | Returned descs => descs
  | Thrown _ => []
  end.

(** The worked batch with an empty sample in the middle, which [open_ex]
    cannot open. *)
Definition ws_unreadable : Workspace :=
  mkWs (mkTL DALI_UINT8 [ mkInput [2] [x01; x10] "a.wav";
                          mkInput [0] [] "c.wav";
                          mkInput [1] [x02] "b.wav" ])
       [8000 # 1; 16000 # 1; 16000 # 1]%Q 2.

Definition ws_empty : Workspace := mkWs (mkTL DALI_UINT8 []) [] 2.

(** Operators that are to output bytes: one that does not resample, one that
    resamples without downmix. *)
Definition w_uint8 : World :=
  mkWorld (mkOp DALI_UINT8 false false [] [] [] [] DALI_UINT8 [] []) [] [] [].

Definition w_uint8_resampled : World :=
  mkWorld (mkOp DALI_UINT8 false true [] [] [] [] DALI_UINT8 [] []) [] [] [].

(** The operator of the worked batch as an earlier batch of three samples
    left it. *)
Definition w_stale : World :=
  mkWorld (mkOp DALI_FLOAT false true [44100 # 1]%Q
                [None; Some (mkDecoder DALI_INT16 [x00]); None]
                [mkMeta 7 (1 # 1) 9; mkMeta 8 (2 # 1) 3; mkMeta 9 (3 # 1) 4]
                ["x.wav"; "y.wav"; "z.wav"] DALI_INT16 [5] [6])
          [[1 # 1]%Q] [3 # 1]%Q [EvOpen 7].

(** The plans of the byte-output operator that resamples and of the int16
    operator that downmixes, on the worked batch, and the worlds [RunImpl]
    starts in. *)
Definition planned_uint8 : World :=
  (SetupImpl open_ex type_name_ex ws_ex w_uint8_resampled).1.

Definition run_uint8 : World :=
  mkWorld (self planned_uint8) [[]; []] [0; 0]%Q (events planned_uint8).

Definition planned_downmix : World :=
  (SetupImpl open_ex type_name_ex ws_ex w_downmix_int16).1.

(** A schedule that runs the whole worked batch on worker 0. *)
Definition sched_one_worker : Schedule := [(0, 0); (1, 0)]%nat.

(** * Properties *)

(** ** Generic facts about the loops and the data types *)

Lemma DALIDataType_eqb_eq (a b : DALIDataType) :
  DALIDataType_eqb a b = true <-> a = b.
Proof.
  destruct a, b; simpl; split; intros H; try congruence; try discriminate.
  - apply Nat.eqb_eq in H. congruence.
  - inversion H. apply Nat.eqb_refl.
Qed.

Lemma DALIDataType_eqb_sym (a b : DALIDataType) :
  DALIDataType_eqb a b = DALIDataType_eqb b a.
Proof.
  destruct a, b; simpl; try reflexivity. apply Nat.eqb_sym.
Qed.

Lemma wrap64_in_range (z : Z) : in_int64 z -> wrap64 z = z.
Proof.
  unfold in_int64, wrap64. intros Hz.
  rewrite Z.mod_small; lia.
Qed.

Lemma to_size_t_in_range (z : Z) : 0 <= z < 2 ^ 64 -> to_size_t z = z.
Proof. intros Hz. unfold to_size_t. by apply Z.mod_small. Qed.

Lemma for_each_enforce (c : nat -> bool) (msg : string) (l : list nat) (w : World) :
  for_each l (fun i => DALI_ENFORCE (c i) msg) w
  = (w, if forallb c l then Returned tt else Thrown (mkExn msg)).
Proof.
  induction l as [|i l IH]; simpl; [reflexivity|].
  unfold bind, DALI_ENFORCE at 1.
  destruct (c i); simpl; [apply IH | reflexivity].
Qed.

Lemma forallb_seq_lookup_total {A} `{Inhabited A} (f : A -> bool) (l : list A) :
  forallb (fun i => f (l !!! i)) (seq 0 (length l)) = forallb f l.
Proof.
  apply eq_true_iff_eq.
  rewrite !forallb_forall. split.
  - intros Hseq x Hx. apply list_elem_of_In, list_elem_of_lookup in Hx.
    destruct Hx as [i Hi].
    specialize (Hseq i). rewrite (list_lookup_total_correct _ _ _ Hi) in Hseq.
    apply Hseq, in_seq. apply lookup_lt_Some in Hi. lia.
  - intros Hl i Hi. apply in_seq in Hi. apply Hl.
    apply list_elem_of_In, list_elem_of_lookup_total_2. lia.
Qed.

(** ** Input validation *)

Lemma validate_input_spec (input : TensorList) (w : World) :
  validate_input input w
  = (w, if input_valid input then Returned tt
        else Thrown (validation_error input)).
Proof.
  unfold validate_input, for_range, bind, input_valid, validation_error.
  pose proof (for_each_enforce
                (fun i => sample_is_1d (tl_samples input !!! i))
                "Raw input must be 1D encoded byte data"
                (seq 0 (length (tl_samples input))) w) as Hloop.
  rewrite (forallb_seq_lookup_total sample_is_1d) in Hloop.
  unfold sample_is_1d at 1 in Hloop. rewrite Hloop. clear Hloop.
  destruct (forallb sample_is_1d (tl_samples input)); simpl; [|reflexivity].
  unfold DALI_ENFORCE, input_is_uint8.
  destruct (DALIDataType_eqb (tl_type input) DALI_UINT8); reflexivity.
Qed.

Section SetupFacts.

Variable Open : DALIDataType -> list byte -> outcome AudioMetadata.
Variable type_to_string : DALIDataType -> string.

(** C7. A batch with a sample that is not one-dimensional, or whose element
    type is not uint8, makes [SetupImpl] throw the matching validation error
    (the shape error when both are wrong).  The state it leaves differs from
    the initial one in the target rates only: no decoder was created, no
    sample was opened, no event was logged. *)
Theorem SetupImpl_rejects_invalid_input (ws : Workspace) (w : World) :
  input_valid (ws_input ws) = false ->
  SetupImpl Open type_to_string ws w
  = (with_self (set_target_sample_rates (ws_sample_rate ws)) w,
     Thrown (validation_error (ws_input ws))).
Proof.
  intros Hbad. unfold SetupImpl.
  unfold bind at 1. unfold modify at 1.
  unfold bind at 1. rewrite validate_input_spec, Hbad. reflexivity.
Qed.

(** ** The loops of [SetupImpl] *)

Lemma setup_sample_spec (input : TensorList) (n i : nat)
    (shapes shapes' : TensorListShape * TensorListShape) (w w' : World) :
  (i < n)%nat ->
  setup_sized n w shapes ->
  setup_sample Open input i shapes w = (w', Returned shapes') ->
  setup_config w' = setup_config w /\
  setup_sized n w' shapes' /\
  sample_dim shapes'.1 = sample_dim shapes.1 /\
  sample_dim shapes'.2 = sample_dim shapes.2 /\
  sample_planned Open input w' shapes' i /\
  (forall j, j <> i -> sample_planned Open input w shapes j ->
             sample_planned Open input w' shapes' j).
Proof.
  intros Hi (Hm & Hf & Hd & Hs1 & Hs2 & Hdec) Hrun.
  destruct shapes as [sd sr]. destruct w as [o out0 out1 ev].
  destruct (Hdec i Hi) as [span0 Hdi].
  unfold setup_sample, open_decoder, bind, gets, modify in Hrun.
  cbn [self] in *. rewrite Hdi in Hrun. cbn in Hrun.
  destruct (Open _ _) as [meta|e] eqn:HOpen; cbn in Hrun; [|discriminate].
  inversion Hrun; subst w' shapes'; clear Hrun.
  destruct o as [ot dm ur tr decs metas names dt sdec sres]. cbn in *.
  split; [reflexivity|].
  split.
  { unfold setup_sized; cbn. rewrite !length_insert.
    repeat split; try assumption.
    intros j Hj. destruct (decide (j = i)) as [->|Hne].
    - rewrite list_lookup_insert_eq by lia. eauto.
    - rewrite list_lookup_insert_ne by done. auto. }
  split; [reflexivity|]. split; [reflexivity|].
  split.
  { unfold sample_planned; cbn.
    rewrite list_lookup_total_insert_eq by lia.
    split; [by rewrite list_lookup_insert_eq by lia|].
    split; [by rewrite list_lookup_insert_eq by lia|].
    split; [by rewrite list_lookup_insert_eq by lia|].
    eexists. split; [apply list_lookup_insert_eq; lia|]. exact HOpen. }
  intros j Hne (H0 & H1 & H2 & sp & H3 & H4). cbn in H0, H1, H2, H3, H4.
  unfold sample_planned; cbn.
  rewrite list_lookup_total_insert_ne by done.
  split; [by rewrite list_lookup_insert_ne by done|].
  split; [by rewrite list_lookup_insert_ne by done|].
  split; [by rewrite list_lookup_insert_ne by done|].
  exists sp. split; [by rewrite list_lookup_insert_ne by done|]. exact H4.
Qed.

Lemma setup_loop_spec (input : TensorList) (n : nat) (is_ : list nat) :
  forall (shapes shapes' : TensorListShape * TensorListShape) (w w' : World),
  Forall (fun i => (i < n)%nat) is_ ->
  setup_sized n w shapes ->
  for_each_acc is_ shapes (setup_sample Open input) w = (w', Returned shapes') ->
  setup_config w' = setup_config w /\
  setup_sized n w' shapes' /\
  sample_dim shapes'.1 = sample_dim shapes.1 /\
  sample_dim shapes'.2 = sample_dim shapes.2 /\
  (forall j, j ∈ is_ \/ sample_planned Open input w shapes j ->
             sample_planned Open input w' shapes' j).
Proof.
  induction is_ as [|i rest IH]; intros shapes shapes' w w' Hin Hsz Hrun.
  - cbn in Hrun. inversion Hrun; subst. split_and!; try done.
    intros j [Hj|Hj]; [by apply elem_of_nil in Hj | exact Hj].
  - cbn in Hrun. unfold bind in Hrun.
    destruct (setup_sample Open input i shapes w) as [w1 [shapes1|e]] eqn:Hbody;
      [|discriminate].
    apply Forall_cons in Hin as [Hi Hin].
    destruct (setup_sample_spec _ _ _ _ _ _ _ Hi Hsz Hbody)
      as (Hc1 & Hsz1 & Hd1 & Hd2 & Hpi & Hpj).
    destruct (IH _ _ _ _ Hin Hsz1 Hrun) as (Hc & Hsz' & Hd1' & Hd2' & Hp).
    split; [congruence|]. split; [exact Hsz'|].
    split; [congruence|]. split; [congruence|].
    intros j Hj. apply Hp.
    destruct (decide (j = i)) as [->|Hne]; [by right|].
    destruct Hj as [Hj|Hj].
    + apply elem_of_cons in Hj as [Hj|Hj]; [done | by left].
    + right. by apply Hpj.
Qed.

Lemma create_loop_spec (dt : DALIDataType) (n : nat) (is_ : list nat) :
  forall (w : World),
  length (decoders_ (self w)) = n ->
  Forall (fun i => (i < n)%nat) is_ ->
  exists w',
    for_each is_ (fun i =>
      modify (with_self (fun o =>
        set_decoders (<[i := Some (mkDecoder dt [])]> (decoders_ o)) o))) w
    = (w', Returned tt) /\
    length (decoders_ (self w')) = n /\
    output_type_ (self w') = output_type_ (self w) /\
    downmix_ (self w') = downmix_ (self w) /\
    use_resampling_ (self w') = use_resampling_ (self w) /\
    target_sample_rates_ (self w') = target_sample_rates_ (self w) /\
    decode_type_ (self w') = decode_type_ (self w) /\
    sample_meta_ (self w') = sample_meta_ (self w) /\
    files_names_ (self w') = files_names_ (self w) /\
    events w' = events w /\
    (forall j, (j ∈ is_ \/ decoders_ (self w) !! j = Some (Some (mkDecoder dt []))) ->
               decoders_ (self w') !! j = Some (Some (mkDecoder dt []))).
Proof.
  induction is_ as [|i rest IH]; intros w Hlen Hin.
  - exists w. cbn. split_and!; try done.
    intros j [Hj|Hj]; [by apply elem_of_nil in Hj | exact Hj].
  - apply Forall_cons in Hin as [Hi Hin].
    cbn [for_each]. unfold bind at 1. unfold modify at 1.
    set (w1 := with_self _ w).
    destruct (IH w1)
      as (w' & Hrun & Hlen' & H1 & H2 & H3 & H4 & H5 & H6 & H7 & H8 & Hdec).
    { subst w1; cbn. by rewrite length_insert. }
    { exact Hin. }
    exists w'. split; [exact Hrun|].
    subst w1; cbn in *.
    split_and!; try assumption.
    intros j Hj. apply Hdec.
    destruct (decide (j = i)) as [->|Hne].
    + right. apply list_lookup_insert_eq. lia.
    + destruct Hj as [Hj|Hj].
      * apply elem_of_cons in Hj as [Hj|Hj]; [done | by left].
      * right. by rewrite list_lookup_insert_ne.
Qed.

Lemma Forall_seq_lt (n : nat) : Forall (fun i => (i < n)%nat) (seq 0 n).
Proof. apply Forall_forall. intros i Hi. apply elem_of_seq in Hi. lia. Qed.

(** What a successful [SetupImpl] establishes. *)
Lemma SetupImpl_returns (ws : Workspace) (w w' : World) (descs : list OutputDesc) :
  SetupImpl Open type_to_string ws w = (w', Returned descs) ->
  let n := length (tl_samples (ws_input ws)) in
  exists shape_data shape_rate,
    descs = [ mkDesc shape_data (output_type_ (self w));
              mkDesc shape_rate DALI_FLOAT ] /\
    output_type_ (self w') = output_type_ (self w) /\
    downmix_ (self w') = downmix_ (self w) /\
    use_resampling_ (self w') = use_resampling_ (self w) /\
    target_sample_rates_ (self w') = ws_sample_rate ws /\
    decode_type_ (self w')
      = (if use_resampling_ (self w) && negb (downmix_ (self w))
         then DALI_FLOAT else output_type_ (self w)) /\
    type_switch_supported (decode_type_ (self w')) = true /\
    sample_dim shape_data = (if downmix_ (self w) then 1 else 2)%nat /\
    sample_dim shape_rate = 1%nat /\
    setup_sized n w' (shape_data, shape_rate) /\
    (forall j, (j < n)%nat ->
       sample_planned Open (ws_input ws) w' (shape_data, shape_rate) j).
Proof.
  intros Hrun n. unfold SetupImpl in Hrun. fold n in Hrun.
  unfold bind at 1 in Hrun; unfold modify at 1 in Hrun; cbv beta iota zeta in Hrun.
  unfold bind at 1 in Hrun. rewrite validate_input_spec in Hrun.
  destruct (input_valid (ws_input ws)); [|discriminate].
  do 4 (unfold bind at 1 in Hrun; unfold modify at 1 in Hrun;
        cbv beta iota zeta in Hrun).
  unfold bind at 1 in Hrun; unfold gets at 1 in Hrun; cbv beta iota zeta in Hrun.
  unfold bind at 1 in Hrun.
  match type of Hrun with context [create_decoders _ ?dt _ ?w0] =>
    set (decode_type := dt) in *; set (w5 := w0) in *
  end.
  assert (Hw5 : length (decoders_ (self w5)) = n /\
                length (sample_meta_ (self w5)) = n /\
                length (files_names_ (self w5)) = n /\
                output_type_ (self w5) = output_type_ (self w) /\
                downmix_ (self w5) = downmix_ (self w) /\
                use_resampling_ (self w5) = use_resampling_ (self w) /\
                target_sample_rates_ (self w5) = ws_sample_rate ws /\
                decode_type_ (self w5) = decode_type /\
                decode_type = (if use_resampling_ (self w) && negb (downmix_ (self w))
                               then DALI_FLOAT else output_type_ (self w))).
  { subst w5 decode_type. destruct w as [[] ? ? ?]; cbn.
    rewrite !length_resize. by split_and!. }
  destruct Hw5 as (Hd5 & Hm5 & Hf5 & Hot5 & Hdm5 & Hur5 & Htr5 & Hdt5 & Hdt).
  clearbody w5 decode_type.
  unfold create_decoders in Hrun.
  destruct (type_switch_supported decode_type) eqn:Hsup; [|discriminate].
  destruct (create_loop_spec decode_type n (seq 0 n) w5 Hd5 (Forall_seq_lt n))
    as (w6 & Hcreate & Hd6 & Hot6 & Hdm6 & Hur6 & Htr6 & Hdt6 & Hm6 & Hf6 & _ & Hdec6).
  unfold for_range in Hrun. rewrite Hcreate in Hrun.
  unfold bind at 1 in Hrun; unfold gets at 1 in Hrun; cbv beta iota zeta in Hrun.
  unfold bind at 1 in Hrun.
  match type of Hrun with context [for_each_acc _ ?acc _ _] =>
    set (shapes0 := acc) in *
  end.
  destruct (for_each_acc (seq 0 n) shapes0 (setup_sample Open (ws_input ws)) w6)
    as [w7 [[sd sr]|e]] eqn:Hloop; [|discriminate].
  assert (Hsz6 : setup_sized n w6 shapes0).
  { unfold setup_sized, shapes0; cbn. rewrite !length_replicate.
    split_and!; try done; [congruence|congruence|].
    intros j Hj. exists []. rewrite Hdt6, Hdt5. apply Hdec6. left.
    apply elem_of_seq. lia. }
  destruct (setup_loop_spec _ _ _ _ _ _ _ (Forall_seq_lt n) Hsz6 Hloop)
    as (Hcfg & Hsz7 & Hdim1 & Hdim2 & Hplanned).
  unfold setup_config in Hcfg. inversion Hcfg as [[Hot7 Hdm7 Hur7 Htr7 Hdt7]].
  unfold bind, gets, ret in Hrun. cbn in Hrun. inversion Hrun; subst w' descs.
  exists sd, sr. cbn in Hdim1, Hdim2.
  do 7 (split; [congruence|]).
  split; [by rewrite Hdim1, Hdm6, Hdm5|].
  split; [exact Hdim2|]. split; [exact Hsz7|].
  intros j Hj. apply Hplanned. left. apply elem_of_seq. lia.
Qed.

Lemma DecodedAudioShape_length (o : AudioDecoderCpu) (i : nat) :
  head (DecodedAudioShape (sample_meta_ o !!! i) (shape_target_rate o i) (downmix_ o))
  = Some (expected_output_length o i).
Proof.
  unfold DecodedAudioShape, shape_target_rate, expected_output_length,
    resampling_requested_for, resampled_length.
  destruct (use_resampling_ o); cbn [andb].
  - destruct (resampling_requested _), (downmix_ o); reflexivity.
  - change (resampling_requested (-1)) with false.
    destruct (downmix_ o); reflexivity.
Qed.

Lemma DecodedAudioShape_shape (o : AudioDecoderCpu) (i : nat) :
  DecodedAudioShape (sample_meta_ o !!! i) (shape_target_rate o i) (downmix_ o)
  = if downmix_ o then [expected_output_length o i]
    else [expected_output_length o i; channels (sample_meta_ o !!! i)].
Proof.
  pose proof (DecodedAudioShape_length o i) as Hhead.
  unfold DecodedAudioShape in *.
  destruct (downmix_ o); cbn in Hhead; inversion Hhead as [Hlen];
    rewrite !Hlen; reflexivity.
Qed.

(** C1. After a successful [SetupImpl], the output length planned for every
    sample of the batch is [round(native_length * target_rate / native_rate)]
    when resampling is requested for the sample and the native length
    otherwise; the local [out_length] of the loop has the same value. *)
Theorem SetupImpl_plans_output_length (ws : Workspace) (w w' : World)
    (descs : list OutputDesc) (i : nat) :
  SetupImpl Open type_to_string ws w = (w', Returned descs) ->
  (i < length (tl_samples (ws_input ws)))%nat ->
  let o := self w' in
  let meta := sample_meta_ o !!! i in
  let target_rate := target_sample_rates_ o !!! i in
  let output_length :=
    if resampling_requested_for o i
    then round_half_away (inject_Z (length_ meta) * target_rate / sample_rate meta)
    else length_ meta in
  planned_output_length descs i = Some output_length /\
  OutputLength o (length_ meta) (sample_rate meta) i = output_length.
Proof.
  intros Hrun Hi o meta target_rate output_length.
  destruct (SetupImpl_returns _ _ _ _ Hrun)
    as (sd & sr & -> & _ & _ & _ & _ & _ & _ & _ & _ & _ & Hplanned).
  destruct (Hplanned i Hi) as (_ & Hshape & _).
  split.
  - unfold planned_output_length, planned_shape. cbn in *.
    rewrite Hshape. apply DecodedAudioShape_length.
  - reflexivity.
Qed.

(** C2. After a successful [SetupImpl], the shape planned for every sample of
    the decoded output is [[output_length]] when downmix is requested and
    [[output_length; channels]] with the sample's native channel count
    otherwise; the output has one dimension in the first case and two in the
    second. *)
Theorem SetupImpl_plans_output_shape (ws : Workspace) (w w' : World)
    (descs : list OutputDesc) (i : nat) :
  SetupImpl Open type_to_string ws w = (w', Returned descs) ->
  (i < length (tl_samples (ws_input ws)))%nat ->
  let o := self w' in
  exists d0 output_length,
    descs !! 0%nat = Some d0 /\
    planned_output_length descs i = Some output_length /\
    output_length = expected_output_length o i /\
    downmix_ o = downmix_ (self w) /\
    sample_dim (desc_shape d0) = (if downmix_ o then 1 else 2)%nat /\
    planned_shape descs i
      = Some (if downmix_ o then [output_length]
              else [output_length; channels (sample_meta_ o !!! i)]).
Proof.
  intros Hrun Hi o.
  destruct (SetupImpl_returns _ _ _ _ Hrun)
    as (sd & sr & -> & _ & Hdm & _ & _ & _ & _ & Hdim & _ & _ & Hplanned).
  destruct (Hplanned i Hi) as (_ & Hshape & _). cbn in Hshape.
  exists (mkDesc sd (output_type_ (self w))), (expected_output_length o i).
  unfold planned_output_length, planned_shape. cbn.
  rewrite Hshape. subst o.
  split; [reflexivity|]. split; [apply DecodedAudioShape_length|].
  split; [reflexivity|]. split; [exact Hdm|].
  split; [by rewrite Hdim, Hdm|].
  f_equal. apply DecodedAudioShape_shape.
Qed.

(** C4, as the code has it. [SetupImpl] selects the decode representation
    once for the batch: float when the operator resamples and downmix is
    off, the requested output type otherwise.  A successful [SetupImpl] has
    found it among int16, int32 and float and has given every sample of the
    batch a decoder of that one type. *)
Theorem SetupImpl_selects_decode_type (ws : Workspace) (w w' : World)
    (descs : list OutputDesc) :
  SetupImpl Open type_to_string ws w = (w', Returned descs) ->
  decode_type_ (self w') = selected_decode_type (self w) /\
  type_switch_supported (decode_type_ (self w')) = true /\
  forall i, (i < length (tl_samples (ws_input ws)))%nat ->
    exists span, decoders_ (self w') !! i
                 = Some (Some (mkDecoder (decode_type_ (self w')) span)).
Proof.
  intros Hrun.
  destruct (SetupImpl_returns _ _ _ _ Hrun)
    as (sd & sr & _ & _ & _ & _ & _ & Hdt & Hsup & _ & _ & Hsz & _).
  split; [exact Hdt|]. split; [exact Hsup|].
  intros i Hi. destruct Hsz as (_ & _ & _ & _ & _ & Hdec). by apply Hdec.
Qed.

(** C9. After a successful [SetupImpl] there are exactly two output
    descriptions, each with as many samples as the input batch; the second
    one, the sampling rates, has type float and gives every sample the shape
    [{1}]. *)
Theorem SetupImpl_output_counts (ws : Workspace) (w w' : World)
    (descs : list OutputDesc) :
  SetupImpl Open type_to_string ws w = (w', Returned descs) ->
  let n := length (tl_samples (ws_input ws)) in
  exists d0 d1,
    descs = [d0; d1] /\
    num_samples (desc_shape d0) = n /\
    num_samples (desc_shape d1) = n /\
    desc_type d1 = DALI_FLOAT /\
    sample_dim (desc_shape d1) = 1%nat /\
    forall i, (i < n)%nat -> tensor_shapes (desc_shape d1) !! i = Some [1].
Proof.
  intros Hrun n.
  destruct (SetupImpl_returns _ _ _ _ Hrun)
    as (sd & sr & -> & _ & _ & _ & _ & _ & _ & _ & Hdim & Hsz & Hplanned).
  destruct Hsz as (_ & _ & _ & Hn0 & Hn1 & _). cbn in Hn0, Hn1.
  eexists _, _. split; [reflexivity|]. cbn. unfold num_samples.
  split; [exact Hn0|]. split; [exact Hn1|]. split; [reflexivity|].
  split; [exact Hdim|].
  intros i Hi. by destruct (Hplanned i Hi) as (_ & _ & Hrate & _).
Qed.

(** The file name a work item puts in its error message is the source label
    of the sample: [SetupImpl] copied it from the input. *)
Lemma SetupImpl_records_source_info (ws : Workspace) (w w' : World)
    (descs : list OutputDesc) (i : nat) :
  SetupImpl Open type_to_string ws w = (w', Returned descs) ->
  (i < length (tl_samples (ws_input ws)))%nat ->
  files_names_ (self w') !!! i = source_info (tl_samples (ws_input ws) !!! i).
Proof.
  intros Hrun Hi.
  destruct (SetupImpl_returns _ _ _ _ Hrun)
    as (sd & sr & _ & _ & _ & _ & _ & _ & _ & _ & _ & _ & Hplanned).
  destruct (Hplanned i Hi) as (Hlabel & _).
  by apply list_lookup_total_correct.
Qed.

End SetupFacts.

(** ** DecodeSample *)

Lemma DecodeSample_args_plan (OutputType DecoderOutputType : DALIDataType)
    (o o' : AudioDecoderCpu) (i : nat) :
  plan_of o = plan_of o' ->
  DecodeSample_args OutputType DecoderOutputType o i
  = DecodeSample_args OutputType DecoderOutputType o' i.
Proof.
  destruct o, o'. unfold plan_of; cbn. intros Heq.
  inversion Heq; subst. reflexivity.
Qed.

(** The transform requirements [DecodeAudio] derives from its arguments are
    the ones [DecodeSample] sized the scratch buffers with. *)
Lemma needs_agree (OutputType DecoderOutputType : DALIDataType)
    (o : AudioDecoderCpu) (i : nat) :
  let a := DecodeSample_args OutputType DecoderOutputType o i in
  needs_resample a = should_resample o i /\
  needs_downmix a = should_downmix o i /\
  needs_convert a = should_convert OutputType DecoderOutputType.
Proof.
  cbn. unfold needs_resample, needs_downmix, needs_convert, should_convert; cbn.
  split; [reflexivity|]. split; [reflexivity|].
  by rewrite DALIDataType_eqb_sym.
Qed.

Lemma reported_rate_plan (o o' : AudioDecoderCpu) (i : nat) :
  plan_of o = plan_of o' -> reported_rate o i = reported_rate o' i.
Proof.
  destruct o, o'. unfold plan_of; cbn. intros Heq.
  inversion Heq; subst. reflexivity.
Qed.

Lemma wrapped_error_plan (o o' : AudioDecoderCpu) (i : nat) (e : DALIException) :
  plan_of o = plan_of o' -> wrapped_error o i e = wrapped_error o' i e.
Proof.
  destruct o, o'. unfold plan_of; cbn. intros Heq.
  inversion Heq; subst. reflexivity.
Qed.

Lemma unit_error_plan (o o' : AudioDecoderCpu) (i : nat) (e : exception) :
  plan_of o = plan_of o' -> unit_error o i e = unit_error o' i e.
Proof.
  intros Heq. destruct e as [e|name]; [|reflexivity].
  cbn. by rewrite (wrapped_error_plan o o' i e Heq).
Qed.

(** A [resize] that returns was asked for no more than [max_size()]. *)
Lemma resize_outcome_fits (allocates : Z -> bool) (elem_size count : Z) :
  resize_outcome allocates elem_size count = Returned tt ->
  count <= vector_max_size elem_size.
Proof.
  unfold resize_outcome.
  destruct (Z.ltb_spec (vector_max_size elem_size) count); [discriminate | lia].
Qed.

Section DecodeSampleFacts.

Variable allocates : Z -> bool.
Variables OutputType DecoderOutputType : DALIDataType.

Local Abbreviation ready := (scratch_ready OutputType DecoderOutputType).
Local Abbreviation stage := (scratch_stage allocates OutputType DecoderOutputType).
Local Abbreviation scratch_of :=
  (scratch_outcome allocates OutputType DecoderOutputType).

Lemma scratch_outcome_plan (o o' : AudioDecoderCpu) (i : nat) :
  plan_of o = plan_of o' -> scratch_of o i = scratch_of o' i.
Proof.
  intros Heq. unfold scratch_outcome.
  by rewrite (DecodeSample_args_plan _ _ o o' i Heq).
Qed.

Lemma scratch_outcome_unit (o : AudioDecoderCpu) (i : nat) (u : unit) :
  scratch_of o i = Returned u -> scratch_of o i = Returned tt.
Proof. by destruct u. Qed.

Lemma stage_ready (t i : nat) (w : World) :
  scratch_of (self w) i = Returned tt -> stage t i w = ready t i w.
Proof.
  unfold scratch_outcome, scratch_stage.
  destruct (resize_outcome allocates (sizeof DALI_UINT8) _) as [[]|e1];
    [|discriminate].
  by intros ->.
Qed.

Lemma stage_keeps (t i : nat) (w : World) :
  plan_of (self (stage t i w)) = plan_of (self w) /\
  batch_sizes (stage t i w) = batch_sizes w /\
  decoded_output (stage t i w) = decoded_output w /\
  sample_rate_output (stage t i w) = sample_rate_output w.
Proof.
  unfold scratch_stage.
  destruct (resize_outcome allocates (sizeof DALI_UINT8) _) as [[]|e1]; [|done].
  destruct (resize_outcome allocates (sizeof DALI_FLOAT) _) as [[]|e2];
    destruct w as [[] ? ? ?];
    unfold batch_sizes, scratch_ready, decode_scratch_resized;
    cbn [self with_self log_event set_scratch_decoder set_scratch_resampler
         scratch_decoder_ scratch_resampler_ decode_type_ decoded_output
         sample_rate_output plan_of output_type_ downmix_ use_resampling_
         target_sample_rates_ decoders_ sample_meta_ files_names_];
    rewrite ?length_insert; done.
Qed.

Lemma stage_events (t i : nat) (w : World) :
  events (stage t i w)
  = events w ++ match scratch_of (self w) i with
                | Returned _ => [EvDecodeAudio i t]
                | Thrown _ => []
                end.
Proof.
  unfold scratch_stage, scratch_outcome.
  destruct (resize_outcome allocates (sizeof DALI_UINT8) _) as [[]|e1];
    [|by rewrite app_nil_r].
  destruct (resize_outcome allocates (sizeof DALI_FLOAT) _) as [[]|e2];
    destruct w as [[] ? ? ?]; cbn [events]; [reflexivity|].
  unfold decode_scratch_resized; cbn [events with_self]. by rewrite app_nil_r.
Qed.

(** [DecodeSample] on worker [t] leaves the scratch of the other workers
    alone. *)
Lemma stage_other_worker (t t' i : nat) (w : World) :
  t' <> t ->
  scratch_decoder_ (self (stage t i w)) !! t' = scratch_decoder_ (self w) !! t' /\
  scratch_resampler_ (self (stage t i w)) !! t'
  = scratch_resampler_ (self w) !! t'.
Proof.
  intros Hne. unfold scratch_stage.
  destruct (resize_outcome allocates (sizeof DALI_UINT8) _) as [[]|e1]; [|done].
  destruct (resize_outcome allocates (sizeof DALI_FLOAT) _) as [[]|e2];
    destruct w as [[] ? ? ?];
    unfold scratch_ready, decode_scratch_resized;
    cbn [self with_self log_event set_scratch_decoder set_scratch_resampler
         scratch_decoder_ scratch_resampler_];
    split; try reflexivity; by apply list_lookup_insert_ne.
Qed.

Section AnyDecodeAudio.

Variable DecodeAudio : DecodeAudioArgs -> outcome (list Q).

Local Abbreviation outcome_of :=
  (unit_outcome allocates DecodeAudio OutputType DecoderOutputType).

Lemma unit_outcome_plan (o o' : AudioDecoderCpu) (i : nat) :
  plan_of o = plan_of o' -> outcome_of o i = outcome_of o' i.
Proof.
  intros Heq. unfold unit_outcome.
  by rewrite (scratch_outcome_plan o o' i Heq),
             (DecodeSample_args_plan _ _ o o' i Heq).
Qed.

(** A pipeline that succeeds was given its scratch buffers. *)
Lemma unit_outcome_scratch (o : AudioDecoderCpu) (i : nat) (pcm : list Q) :
  outcome_of o i = Returned pcm -> scratch_of o i = Returned tt.
Proof.
  unfold unit_outcome. by destruct (scratch_of o i) as [[]|e].
Qed.

Lemma DecodeSample_run (thread_idx sample_idx : nat) (w : World) :
  DecodeSample allocates DecodeAudio OutputType DecoderOutputType
               thread_idx sample_idx w
  = match outcome_of (self w) sample_idx with
    | Returned pcm =>
        (with_decoded (<[sample_idx := pcm]>) (stage thread_idx sample_idx w),
         Returned tt)
    | Thrown e => (stage thread_idx sample_idx w, Thrown e)
    end.
Proof.
  unfold DecodeSample, unit_outcome, scratch_outcome, scratch_stage,
    scratch_ready, decode_scratch_resized.
  unfold bind at 1; unfold gets at 1; cbv beta iota zeta.
  unfold bind at 1.
  destruct (resize_outcome allocates (sizeof DALI_UINT8) _) as [[]|e1];
    [|reflexivity].
  unfold lift_outcome at 1, ret at 1. unfold bind at 1, modify at 1.
  unfold bind at 1.
  destruct (resize_outcome allocates (sizeof DALI_FLOAT) _) as [[]|e2];
    [|by destruct w as [[] ? ? ?]].
  unfold lift_outcome at 1, ret at 1.
  do 2 (unfold bind at 1; unfold modify at 1).
  unfold bind.
  destruct (DecodeAudio _); destruct w as [[] ? ? ?]; reflexivity.
Qed.

(** C5, as the code has it. For a sample that needs resampling, when the two
    [resize] calls deliver the scratch buffers, the resample scratch buffer
    [DecodeSample] hands to [DecodeAudio] has
    [native_length * output_channels] elements, with [output_channels] 1 if
    the sample is downmixed and the native channel count otherwise; the
    worker's resample scratch is resized to that size, which is within what
    a vector of [float] holds, and [DecodeAudio] is called.  The product is
    assumed non-negative and within [int64_t]. *)
Theorem DecodeSample_resample_scratch_size (w : World) (thread_idx sample_idx : nat) :
  let o := self w in
  let meta := sample_meta_ o !!! sample_idx in
  let output_channels := if should_downmix o sample_idx then 1 else channels meta in
  let w' := (DecodeSample allocates DecodeAudio OutputType DecoderOutputType
               thread_idx sample_idx w).1 in
  should_resample o sample_idx = true ->
  0 <= length_ meta * output_channels < 2 ^ 63 ->
  (thread_idx < length (scratch_resampler_ o))%nat ->
  scratch_of o sample_idx = Returned tt ->
  da_resample_scratch_sz (DecodeSample_args OutputType DecoderOutputType o sample_idx)
    = length_ meta * output_channels /\
  scratch_resampler_ (self w') !! thread_idx
    = Some (length_ meta * output_channels) /\
  length_ meta * output_channels <= vector_max_size (sizeof DALI_FLOAT) /\
  EvDecodeAudio sample_idx thread_idx ∈ events w'.
Proof.
  intros o meta output_channels w' Hres Hfit Hthread Hscratch.
  assert (Hsz : da_resample_scratch_sz
                  (DecodeSample_args OutputType DecoderOutputType o sample_idx)
                = length_ meta * output_channels).
  { cbn. unfold resample_scratch_sz. rewrite Hres.
    unfold mul_int64, out_channels. apply wrap64_in_range.
    unfold in_int64. lia. }
  split; [exact Hsz|].
  assert (Hstage : stage thread_idx sample_idx w = ready thread_idx sample_idx w)
    by (by apply stage_ready).
  assert (Hw' : self w' = self (ready thread_idx sample_idx w) /\
                events w' = events (ready thread_idx sample_idx w)).
  { subst w'. rewrite DecodeSample_run, Hstage.
    by destruct (outcome_of (self w) sample_idx). }
  destruct Hw' as [Hself Hev]. rewrite Hself, Hev.
  split; [|split].
  - unfold scratch_ready. fold o. rewrite Hsz.
    rewrite (to_size_t_in_range (length_ meta * output_channels)) by lia.
    destruct w as [[] ? ? ?]; cbn in *.
    by apply list_lookup_insert_eq.
  - unfold scratch_outcome in Hscratch. fold o in Hscratch.
    destruct (resize_outcome allocates (sizeof DALI_UINT8) _) as [[]|e1];
      [|discriminate].
    apply resize_outcome_fits in Hscratch. rewrite Hsz in Hscratch.
    by rewrite (to_size_t_in_range (length_ meta * output_channels)) in Hscratch
      by lia.
  - unfold scratch_ready, log_event; cbn [events].
    apply elem_of_app. right. by left.
Qed.

End AnyDecodeAudio.

Section StagedDecodeAudio.

Variable Decode :
  option GenericAudioDecoder -> AudioMetadata -> DecodeTarget -> outcome (list Q).
Variable Mix : list Q -> Z -> Z -> list Q.
Variable Resample : list Q -> Z -> Z -> Q -> Q -> outcome (list Q).
Variable Convert : DALIDataType -> DALIDataType -> list Q -> list Q.


End StagedDecodeAudio.

End DecodeSampleFacts.

(** ** DecodeBatch *)

Section BatchFacts.

Variable allocates : Z -> bool.
Variable DecodeAudio : DecodeAudioArgs -> outcome (list Q).
Variables OutputType DecoderOutputType : DALIDataType.

Local Abbreviation scratch_of :=
  (scratch_outcome allocates OutputType DecoderOutputType).
Local Abbreviation stage := (scratch_stage allocates OutputType DecoderOutputType).
Local Abbreviation outcome_of :=
  (unit_outcome allocates DecodeAudio OutputType DecoderOutputType).
Local Abbreviation errors_of :=
  (unit_errors allocates DecodeAudio OutputType DecoderOutputType).
Local Abbreviation events_of :=
  (unit_events allocates DecodeAudio OutputType DecoderOutputType).
Local Abbreviation rates_of :=
  (unit_rates allocates DecodeAudio OutputType DecoderOutputType).

Lemma decode_unit_run (t i : nat) (w : World) :
  decode_unit allocates DecodeAudio OutputType DecoderOutputType i t w
  = match outcome_of (self w) i with
    | Returned pcm =>
        (log_event (EvRateWrite i (reported_rate (self w) i))
           (with_rates (<[i := reported_rate (self w) i]>)
              (with_decoded (<[i := pcm]>) (stage t i w))),
         Returned tt)
    | Thrown e => (stage t i w, Thrown (unit_error (self w) i e))
    end.
Proof.
  unfold decode_unit, catch_DALIException. unfold bind at 1.
  rewrite DecodeSample_run.
  destruct (stage_keeps allocates OutputType DecoderOutputType t i w)
    as (Hplan & _).
  destruct (outcome_of (self w) i) as [pcm|[e|name]].
  - unfold bind, gets, modify. cbn [self with_decoded].
    by rewrite (reported_rate_plan _ _ i Hplan).
  - unfold bind, gets, DALI_FAIL, throw. cbn [unit_error].
    fold (wrapped_error (self (stage t i w)) i e).
    by rewrite (wrapped_error_plan _ _ i e Hplan).
  - reflexivity.
Qed.

(** What one unit of the queue does to the world, in terms of the operator
    [o] the batch started with. *)
Lemma decode_unit_effect (o : AudioDecoderCpu) (n k t : nat) (w : World) :
  plan_of (self w) = plan_of o ->
  (k < n)%nat ->
  exists w1,
    decode_unit allocates DecodeAudio OutputType DecoderOutputType k t w
    = (w1, match outcome_of o k with
           | Returned _ => Returned tt
           | Thrown e => Thrown (unit_error o k e)
           end) /\
    plan_of (self w1) = plan_of o /\
    events w1 = events w ++ events_of o n (k, t) /\
    sample_rate_output w1 = rates_of o n (sample_rate_output w) (k, t).
Proof.
  intros Hplan Hk. apply Nat.ltb_lt in Hk.
  rewrite decode_unit_run.
  unfold unit_events, unit_rates. cbn [fst snd]. rewrite Hk.
  rewrite (unit_outcome_plan allocates _ _ DecodeAudio _ _ k Hplan).
  rewrite (reported_rate_plan _ _ k Hplan).
  destruct (stage_keeps allocates OutputType DecoderOutputType t k w)
    as (Hp & _ & _ & Hrates).
  pose proof (stage_events allocates OutputType DecoderOutputType t k w) as Hev.
  rewrite (scratch_outcome_plan allocates _ _ _ _ k Hplan) in Hev.
  destruct (outcome_of o k) as [pcm|e].
  - eexists. split; [reflexivity|].
    cbn [self events sample_rate_output log_event with_rates with_decoded].
    split; [congruence|]. split; [|by rewrite Hrates].
    rewrite Hev. by rewrite <- app_assoc.
  - eexists. split; [by rewrite (unit_error_plan _ _ k e Hplan)|].
    split; [congruence|]. split; [|exact Hrates].
    rewrite Hev. by rewrite app_nil_r.
Qed.

Lemma decode_queue_lookup (o : AudioDecoderCpu) (n k : nat) :
  decode_queue allocates DecodeAudio OutputType DecoderOutputType o n !! k
  = if (k <? n)%nat
    then Some (mkWork (decode_unit allocates DecodeAudio OutputType
                                   DecoderOutputType k)
                      (mul_int64 (length_ (sample_meta_ o !!! k))
                                 (channels (sample_meta_ o !!! k))))
    else None.
Proof.
  unfold decode_queue.
  change (map ?f ?l) with (f <$> l). rewrite list_lookup_fmap.
  destruct (Nat.ltb_spec k n) as [Hlt|Hge].
  - by rewrite lookup_seq_lt.
  - by rewrite lookup_seq_ge.
Qed.

Lemma run_scheduled_spec (o qo : AudioDecoderCpu) (n : nat) (sched : Schedule) :
  forall w : World,
  plan_of (self w) = plan_of o ->
  exists w',
    run_scheduled (decode_queue allocates DecodeAudio OutputType
                                DecoderOutputType qo n)
                  sched w
    = (w', Returned (flat_map (errors_of o n) sched)) /\
    plan_of (self w') = plan_of o /\
    events w' = events w ++ flat_map (events_of o n) sched /\
    sample_rate_output w' = foldl (rates_of o n) (sample_rate_output w) sched.
Proof.
  induction sched as [|[k t] rest IH]; intros w Hplan.
  - exists w. cbn. rewrite app_nil_r. done.
  - cbn [run_scheduled flat_map foldl]. unfold bind at 1.
    rewrite decode_queue_lookup.
    destruct (Nat.ltb_spec k n) as [Hk|Hk].
    + destruct (decode_unit_effect o n k t w Hplan Hk)
        as (w1 & Hunit & Hplan1 & Hev1 & Hrates1).
      unfold try_catch, bind at 1. cbn [work]. rewrite Hunit.
      destruct (IH w1 Hplan1) as (w' & Hrun & Hplan' & Hev & Hrates).
      exists w'.
      assert (Herrs : errors_of o n (k, t)
                      = match outcome_of o k with
                        | Returned _ => []
                        | Thrown e => [unit_error o k e]
                        end).
      { unfold unit_errors. cbn [fst].
        by rewrite (proj2 (Nat.ltb_lt k n) Hk). }
      rewrite Herrs, Hev, Hrates, Hev1, Hrates1, <- app_assoc.
      destruct (outcome_of o k) as [pcm|e];
        unfold ret at 1; unfold bind; rewrite Hrun; unfold ret; done.
    + unfold ret at 1.
      destruct (IH w Hplan) as (w' & Hrun & Hplan' & Hev & Hrates).
      exists w'. unfold bind. rewrite Hrun. unfold ret.
      unfold unit_errors, unit_events, unit_rates. cbn [fst snd].
      rewrite (proj2 (Nat.ltb_ge k n) Hk). done.
Qed.

(** [DecodeBatch] as a whole: the scratch vectors get one slot per worker,
    every scheduled unit runs, and the join throws the first error collected. *)
Lemma DecodeBatch_run (ws : Workspace) (sched : Schedule) (w : World) :
  let o := self w in
  let n := length (decoded_output w) in
  exists w',
    DecodeBatch allocates DecodeAudio OutputType DecoderOutputType ws sched w
    = (w', match flat_map (errors_of o n) sched with
           | [] => Returned tt
           | e :: _ => Thrown e
           end) /\
    plan_of (self w') = plan_of o /\
    events w' = events w ++ flat_map (events_of o n) sched /\
    sample_rate_output w' = foldl (rates_of o n) (sample_rate_output w) sched.
Proof.
  intros o n. unfold DecodeBatch.
  unfold bind at 1; unfold gets at 1; cbv beta iota zeta.
  do 2 (unfold bind at 1; unfold modify at 1; cbv beta iota zeta).
  unfold bind at 1; unfold gets at 1; cbv beta iota zeta.
  match goal with |- context [RunAll _ _ ?w0] => set (w1 := w0) end.
  destruct (run_scheduled_spec o (self w1) n sched w1)
    as (w' & Hrun & Hplan & Hev & Hrates).
  { subst w1 o. destruct w as [[] ? ? ?]. reflexivity. }
  exists w'. unfold RunAll, bind. fold n. rewrite Hrun.
  split.
  - unfold rethrow_first. destruct (flat_map _ _); reflexivity.
  - split; [exact Hplan|]. split.
    + rewrite Hev. subst w1. by destruct w as [[] ? ? ?].
    + rewrite Hrates. subst w1. by destruct w as [[] ? ? ?].
Qed.

Lemma valid_schedule_runs (n tp_size : nat) (sched : Schedule) (i : nat) :
  valid_schedule n tp_size sched -> (i < n)%nat -> exists t, (i, t) ∈ sched.
Proof.
  intros [Hperm _] Hi.
  assert (Hin : i ∈ sched.*1).
  { rewrite Hperm. apply elem_of_seq. lia. }
  apply list_elem_of_fmap in Hin as ([k t] & -> & Hkt). by exists t.
Qed.

Lemma rates_after_success (o : AudioDecoderCpu) (n i : nat) (pcm : list Q)
    (sched : Schedule) :
  (i < n)%nat ->
  outcome_of o i = Returned pcm ->
  forall rates : list Q,
  (i < length rates)%nat ->
  (exists t, (i, t) ∈ sched) \/ rates !! i = Some (reported_rate o i) ->
  foldl (rates_of o n) rates sched !! i = Some (reported_rate o i).
Proof.
  intros Hi Hok. induction sched as [|[k t] rest IH]; intros rates Hlen Hcase.
  - destruct Hcase as [[t Ht]|Hdone]; [by apply elem_of_nil in Ht | exact Hdone].
  - cbn [foldl]. apply IH.
    + unfold unit_rates; cbn [fst]. destruct (k <? n)%nat; [|exact Hlen].
      destruct (outcome_of o k); [by rewrite length_insert | exact Hlen].
    + destruct (decide (k = i)) as [->|Hne].
      * right. unfold unit_rates; cbn [fst].
        apply Nat.ltb_lt in Hi. rewrite Hi, Hok.
        by apply list_lookup_insert_eq.
      * destruct Hcase as [[t' Ht']|Hdone].
        -- left. exists t'. apply elem_of_cons in Ht' as [Heq|Hin]; [|exact Hin].
           congruence.
        -- right. unfold unit_rates; cbn [fst]. destruct (k <? n)%nat; [|exact Hdone].
           destruct (outcome_of o k); [|exact Hdone].
           by rewrite list_lookup_insert_ne.
Qed.

Lemma rates_after_failure (o : AudioDecoderCpu) (n i : nat) (cause : exception)
    (sched : Schedule) :
  outcome_of o i = Thrown cause ->
  forall rates : list Q,
  foldl (rates_of o n) rates sched !! i = rates !! i.
Proof.
  intros Hfail. induction sched as [|[k t] rest IH]; intros rates; [reflexivity|].
  cbn [foldl]. rewrite IH. unfold unit_rates; cbn [fst].
  destruct (k <? n)%nat; [|reflexivity].
  destruct (outcome_of o k) eqn:Hk; [|reflexivity].
  apply list_lookup_insert_ne. intros ->. congruence.
Qed.

(** A sampling rate is written only for a sample whose pipeline succeeded. *)
Lemma rate_write_after_success (o : AudioDecoderCpu) (n j : nat) (v : Q)
    (sched : Schedule) :
  EvRateWrite j v ∈ flat_map (events_of o n) sched ->
  (j < n)%nat /\ v = reported_rate o j /\
  exists pcm, outcome_of o j = Returned pcm.
Proof.
  intros Hin. apply list_elem_of_In, in_flat_map in Hin as ([k t] & _ & Hin).
  unfold unit_events in Hin; cbn [fst snd] in Hin.
  destruct (Nat.ltb_spec k n) as [Hlt|Hge]; [|destruct Hin].
  apply in_app_or in Hin as [Hin|Hin].
  { destruct (scratch_of o k); [|destruct Hin].
    destruct Hin as [Hin|[]]. discriminate. }
  destruct (outcome_of o k) as [pcm|e] eqn:Hk; [|destruct Hin].
  destruct Hin as [Hin|[]]. inversion Hin; subst. eauto.
Qed.

Lemma rate_write_logged (o : AudioDecoderCpu) (n i t : nat) (pcm : list Q)
    (sched : Schedule) :
  (i < n)%nat -> (i, t) ∈ sched -> outcome_of o i = Returned pcm ->
  EvRateWrite i (reported_rate o i) ∈ flat_map (events_of o n) sched.
Proof.
  intros Hi Hin Hok. apply list_elem_of_In, in_flat_map.
  exists (i, t). split; [by apply list_elem_of_In|].
  unfold unit_events; cbn [fst snd]. apply Nat.ltb_lt in Hi. rewrite Hi, Hok.
  apply in_or_app. right. by left.
Qed.

Lemma collected_error_of_failure (o : AudioDecoderCpu) (n i t : nat)
    (cause : exception) (sched : Schedule) :
  (i < n)%nat -> (i, t) ∈ sched -> outcome_of o i = Thrown cause ->
  unit_error o i cause ∈ flat_map (errors_of o n) sched.
Proof.
  intros Hi Hin Hfail. apply list_elem_of_In, in_flat_map.
  exists (i, t). split; [by apply list_elem_of_In|].
  unfold unit_errors; cbn [fst]. apply Nat.ltb_lt in Hi. rewrite Hi, Hfail.
  by left.
Qed.

Lemma collected_error_inv (o : AudioDecoderCpu) (n : nat) (e : exception)
    (sched : Schedule) :
  e ∈ flat_map (errors_of o n) sched ->
  exists j cause, (j < n)%nat /\ outcome_of o j = Thrown cause /\
                  e = unit_error o j cause.
Proof.
  intros Hin. apply list_elem_of_In, in_flat_map in Hin as ([k t] & _ & Hin).
  unfold unit_errors in Hin; cbn [fst] in Hin.
  destruct (Nat.ltb_spec k n) as [Hlt|Hge]; [|destruct Hin].
  destruct (outcome_of o k) as [pcm|cause] eqn:Hk; [destruct Hin|].
  destruct Hin as [Hin|[]]. subst e. eauto.
Qed.

Lemma should_resample_uses_target (o : AudioDecoderCpu) (i : nat) :
  should_resample o i = true -> use_resampling_ o = true.
Proof.
  unfold should_resample, target_sr. destruct (use_resampling_ o); [done|].
  intros Hne. apply negb_true_iff in Hne.
  pose proof (Qeq_refl (sample_rate (meta_of o i))) as Hrefl.
  apply Qeq_bool_iff in Hrefl. congruence.
Qed.

(** C3, as the code has it. For a sample of the batch whose decode pipeline
    succeeds, the slot of the sampling-rate output holds, after
    [DecodeBatch], the rate the work item wrote: the sample's target rate
    whenever the operator resamples, be that rate 0 or the native rate, and
    the sample's native rate when the operator does not resample.  So the
    slot holds the target rate of a sample that is resampled, and a rate
    equal to the native one of a sample that is not. *)
Theorem DecodeBatch_reports_rate (ws : Workspace) (sched : Schedule) (w : World)
    (i : nat) (pcm : list Q) :
  let o := self w in
  let native_rate := sample_rate (sample_meta_ o !!! i) in
  let w' := (DecodeBatch allocates DecodeAudio OutputType DecoderOutputType
               ws sched w).1 in
  valid_schedule (length (decoded_output w)) (ws_tp_size ws) sched ->
  (i < length (decoded_output w))%nat ->
  (i < length (sample_rate_output w))%nat ->
  outcome_of o i = Returned pcm ->
  exists v,
    sample_rate_output w' !! i = Some v /\
    EvRateWrite i v ∈ events w' /\
    (use_resampling_ o = true -> v = target_sample_rates_ o !!! i) /\
    (use_resampling_ o = false -> v = native_rate) /\
    (should_resample o i = true -> v = target_sample_rates_ o !!! i) /\
    (should_resample o i = false -> (v == native_rate)%Q).
Proof.
  intros o native_rate w' Hsched Hi Hslot Hok.
  destruct (DecodeBatch_run ws sched w) as (w1 & Hrun & _ & Hev & Hrates).
  subst w'. rewrite Hrun. cbn [fst]. fold o in Hev, Hrates.
  destruct (valid_schedule_runs _ _ _ i Hsched Hi) as [t Ht].
  exists (reported_rate o i). split.
  { rewrite Hrates. eapply rates_after_success; eauto. }
  split.
  { rewrite Hev. apply elem_of_app. right. eapply rate_write_logged; eauto. }
  unfold reported_rate. split_and!.
  - by intros ->.
  - by intros ->.
  - intros Hres. by rewrite (should_resample_uses_target o i Hres).
  - unfold should_resample, target_sr, meta_of. intros Hsame.
    apply negb_false_iff, Qeq_bool_iff in Hsame. exact Hsame.
Qed.

(** C8, as the code has it. When the decode pipeline of a sample of the
    batch throws a [DALIException], its work item catches it and throws one
    whose message carries the sample's file name and the cause; an exception
    of another type, as a [resize] of the scratch buffers throws, leaves the
    work item as it is, without the file name.  Either way the pool collects
    the error of the unit, and [DecodeBatch] throws at the join the error of
    the unit of a failed sample.  The call never returns normally. *)
Theorem DecodeBatch_fails_with_wrapped_error (ws : Workspace) (sched : Schedule)
    (w : World) (i : nat) (cause : exception) :
  let o := self w in
  let n := length (decoded_output w) in
  valid_schedule n (ws_tp_size ws) sched ->
  (i < n)%nat ->
  outcome_of o i = Thrown cause ->
  (forall t w1, plan_of (self w1) = plan_of o ->
     (decode_unit allocates DecodeAudio OutputType DecoderOutputType i t w1).2
     = Thrown (unit_error o i cause)) /\
  unit_error o i cause
  = match cause with
    | ExDALI e => ExDALI (mkExn ("Error decoding file " +:+ files_names_ o !!! i
                                 +:+ ". Error: " +:+ what e))
    | ExStd type_name => ExStd type_name
    end /\
  unit_error o i cause ∈ flat_map (errors_of o n) sched /\
  exists w' j cause_j,
    DecodeBatch allocates DecodeAudio OutputType DecoderOutputType ws sched w
    = (w', Thrown (unit_error o j cause_j)) /\
    (j < n)%nat /\ outcome_of o j = Thrown cause_j.
Proof.
  intros o n Hsched Hi Hfail.
  destruct (valid_schedule_runs _ _ _ i Hsched Hi) as [t Ht].
  pose proof (collected_error_of_failure o n i t cause sched Hi Ht Hfail) as Hin.
  split; [|split; [by destruct cause|split; [exact Hin|]]].
  - intros t1 w1 Hplan. rewrite decode_unit_run.
    rewrite (unit_outcome_plan allocates _ _ DecodeAudio _ _ i Hplan).
    fold o. rewrite Hfail. cbn [snd].
    by rewrite (unit_error_plan _ _ i cause Hplan).
  - destruct (DecodeBatch_run ws sched w) as (w' & Hrun & _).
    fold o n in Hrun.
    destruct (flat_map (errors_of o n) sched) as [|e errs] eqn:Herrs.
    { by apply elem_of_nil in Hin. }
    destruct (collected_error_inv o n e sched) as (j & cause_j & Hj & Hfj & ->).
    { rewrite Herrs. by left. }
    exists w', j, cause_j. by split.
Qed.

(** C10. When the decode pipeline of sample [i] throws, [DecodeBatch] never
    writes the sample's slot of the sampling-rate output: the slot keeps its
    content and no write to it is logged.  Every write that is logged
    belongs to a sample whose [DecodeSample] returned. *)
Theorem DecodeBatch_failed_unit_writes_no_rate (ws : Workspace) (sched : Schedule)
    (w : World) (i : nat) (cause : exception) :
  let o := self w in
  let w' := (DecodeBatch allocates DecodeAudio OutputType DecoderOutputType
               ws sched w).1 in
  outcome_of o i = Thrown cause ->
  sample_rate_output w' !! i = sample_rate_output w !! i /\
  exists new_events,
    events w' = events w ++ new_events /\
    (forall v, EvRateWrite i v ∉ new_events) /\
    (forall j v, EvRateWrite j v ∈ new_events ->
                 exists pcm, outcome_of o j = Returned pcm).
Proof.
  intros o w' Hfail.
  destruct (DecodeBatch_run ws sched w) as (w1 & Hrun & _ & Hev & Hrates).
  subst w'. rewrite Hrun. cbn [fst]. fold o in Hev, Hrates.
  split.
  { rewrite Hrates. eapply rates_after_failure; eauto. }
  eexists. split; [exact Hev|]. split.
  - intros v Hin. apply rate_write_after_success in Hin as (_ & _ & pcm & Hok).
    congruence.
  - intros j v Hin. by apply rate_write_after_success in Hin as (_ & _ & Hok).
Qed.

End BatchFacts.

(** * The worked batch, checked *)

Lemma setup_ex_returns :
  SetupImpl open_ex type_name_ex ws_ex w_ex = (planned_ex, Returned descs_ex).
Proof. vm_compute. reflexivity. Qed.

(** The plan of the worked batch: [a.wav] is halved in length, [b.wav]
    keeps its length and its two channels. *)
Example setup_ex_plan :
  planned_shape descs_ex 0 = Some [500; 1] /\
  planned_shape descs_ex 1 = Some [1000; 2] /\
  sample_meta_ (self planned_ex)
  = [mkMeta 1000 (16000 # 1) 1; mkMeta 1000 (16000 # 1) 2] /\
  files_names_ (self planned_ex) = ["a.wav"; "b.wav"] /\
  events planned_ex = [EvOpen 0; EvOpen 1].
Proof. by vm_compute. Qed.

(** The same batch stored as 16-bit data is refused for its type. *)
Example setup_ex_not_bytes :
  SetupImpl open_ex type_name_ex
            (mkWs (mkTL DALI_INT16 (tl_samples input_ex)) [8000 # 1; 16000 # 1]%Q 2)
            w_ex
  = (with_self (set_target_sample_rates [8000 # 1; 16000 # 1]%Q) w_ex,
     Thrown (mkExn "Raw files must be stored as uint8 data.")).
Proof. by vm_compute. Qed.

Lemma sched_ex_valid : valid_schedule 2 2 sched_ex.
Proof.
  split.
  - cbn. apply perm_swap.
  - repeat constructor; cbn; lia.
Qed.

Lemma SetupImpl_rejects_invalid_input_witness :
  input_valid (ws_input ws_bad_shape) = false /\
  SetupImpl open_ex type_name_ex ws_bad_shape w_ex
  = (with_self (set_target_sample_rates [8000 # 1; 16000 # 1]%Q) w_ex,
     Thrown (mkExn "Raw input must be 1D encoded byte data")).
Proof.
  split; [reflexivity|].
  exact (SetupImpl_rejects_invalid_input open_ex type_name_ex ws_bad_shape w_ex
           eq_refl).
Defined.

Lemma SetupImpl_plans_output_length_witness :
  SetupImpl open_ex type_name_ex ws_ex w_ex = (planned_ex, Returned descs_ex) /\
  (0 < length (tl_samples (ws_input ws_ex)))%nat /\
  planned_output_length descs_ex 0 = Some 500 /\
  OutputLength (self planned_ex) 1000 (16000 # 1) 0 = 500.
Proof.
  split; [exact setup_ex_returns|]. split; [cbn; lia|].
  destruct (SetupImpl_plans_output_length open_ex type_name_ex ws_ex w_ex
              planned_ex descs_ex 0 setup_ex_returns ltac:(cbn; lia))
    as [Hlen Hout].
  split.
  - rewrite Hlen. vm_compute. reflexivity.
  - vm_compute. reflexivity.
Defined.

Lemma SetupImpl_plans_output_shape_witness :
  SetupImpl open_ex type_name_ex ws_ex w_ex = (planned_ex, Returned descs_ex) /\
  (1 < length (tl_samples (ws_input ws_ex)))%nat /\
  planned_shape descs_ex 1 = Some [1000; 2].
Proof.
  split; [exact setup_ex_returns|]. split; [cbn; lia|].
  destruct (SetupImpl_plans_output_shape open_ex type_name_ex ws_ex w_ex
              planned_ex descs_ex 1 setup_ex_returns ltac:(cbn; lia))
    as (d0 & len & _ & _ & Hlen & _ & _ & Hshape).
  rewrite Hshape, Hlen. reflexivity.
Defined.

Lemma SetupImpl_selects_decode_type_witness :
  SetupImpl open_ex type_name_ex ws_ex w_ex = (planned_ex, Returned descs_ex) /\
  decode_type_ (self planned_ex) = DALI_FLOAT.
Proof.
  split; [exact setup_ex_returns|].
  exact (proj1 (SetupImpl_selects_decode_type open_ex type_name_ex ws_ex w_ex
                  planned_ex descs_ex setup_ex_returns)).
Defined.

Lemma SetupImpl_output_counts_witness :
  SetupImpl open_ex type_name_ex ws_ex w_ex = (planned_ex, Returned descs_ex) /\
  exists d0 d1,
    descs_ex = [d0; d1] /\
    num_samples (desc_shape d0) = 2%nat /\
    num_samples (desc_shape d1) = 2%nat /\
    desc_type d1 = DALI_FLOAT /\
    sample_dim (desc_shape d1) = 1%nat /\
    forall i, (i < 2)%nat -> tensor_shapes (desc_shape d1) !! i = Some [1].
Proof.
  split; [exact setup_ex_returns|].
  exact (SetupImpl_output_counts open_ex type_name_ex ws_ex w_ex
           planned_ex descs_ex setup_ex_returns).
Defined.

(** ** The decode representation and the needs of a sample *)

(** C4, counterexample. Sample 0 under the resampling operator and sample 1
    under the downmixing one both need post-processing and both are to be
    output as int16, yet the first is decoded as float and the second as
    int16. *)
Lemma decode_type_not_function_of_needs :
  ~ decode_type_follows_needs open_ex type_name_ex.
Proof.
  intros [f Hf].
  destruct (SetupImpl open_ex type_name_ex ws_ex w_resample_int16)
    as [wa ra] eqn:Ha.
  destruct (SetupImpl open_ex type_name_ex ws_ex w_downmix_int16)
    as [wb rb] eqn:Hb.
  pose proof Ha as Ha'. pose proof Hb as Hb'.
  vm_compute in Ha', Hb'.
  injection Ha' as Hwa Hra. injection Hb' as Hwb Hrb.
  rewrite <- Hra in Ha. rewrite <- Hrb in Hb.
  pose proof (Hf _ _ _ _ 0%nat Ha ltac:(cbn; lia)) as Hfa.
  pose proof (Hf _ _ _ _ 1%nat Hb ltac:(cbn; lia)) as Hfb.
  rewrite <- Hwa in Hfa. rewrite <- Hwb in Hfb.
  vm_compute in Hfa, Hfb. congruence.
Qed.

(** ** The scratch buffers of the worked batch *)

(** C5, counterexample. [a.wav] has 1000 mono frames at 16000 Hz and is
    resampled to 8000 Hz: the output length is 500 (the quotient is exact,
    whatever the rounding), the resample scratch buffer has 1000 elements. *)
Lemma resample_scratch_not_output_sized :
  ~ resample_scratch_output_sized DALI_FLOAT DALI_FLOAT (self planned_ex) 0.
Proof.
  unfold resample_scratch_output_sized. intros Hclaim.
  assert (Hres : should_resample (self planned_ex) 0 = true)
    by (vm_compute; reflexivity).
  specialize (Hclaim Hres). vm_compute in Hclaim. discriminate.
Qed.

Lemma worker_ex_resamples : should_resample (self worker_ex) 0 = true.
Proof. vm_compute. reflexivity. Qed.

Lemma DecodeSample_resample_scratch_size_witness :
  should_resample (self worker_ex) 0 = true /\
  0 <= 1000 * 1 < 2 ^ 63 /\
  (0 < length (scratch_resampler_ (self worker_ex)))%nat /\
  scratch_outcome alloc_ex DALI_FLOAT DALI_FLOAT (self worker_ex) 0
  = Returned tt /\
  da_resample_scratch_sz
    (DecodeSample_args DALI_FLOAT DALI_FLOAT (self worker_ex) 0) = 1000 /\
  scratch_resampler_
    (self (DecodeSample alloc_ex decode_ex DALI_FLOAT DALI_FLOAT 0 0
             worker_ex).1) !! 0%nat
  = Some 1000.
Proof.
  assert (Hscratch : scratch_outcome alloc_ex DALI_FLOAT DALI_FLOAT
                       (self worker_ex) 0 = Returned tt)
    by (vm_compute; reflexivity).
  split; [exact worker_ex_resamples|].
  split; [by vm_compute|].
  split; [vm_compute; lia|].
  split; [exact Hscratch|].
  destruct (DecodeSample_resample_scratch_size alloc_ex DALI_FLOAT DALI_FLOAT
              decode_ex worker_ex 0 0 worker_ex_resamples
              ltac:(by vm_compute) ltac:(vm_compute; lia) Hscratch)
    as (Hsz & Hslot & _).
  split.
  - rewrite Hsz. vm_compute. reflexivity.
  - rewrite Hslot. vm_compute. reflexivity.
Defined.

(** A header that announces 2^62 frames makes the [resize] of the resample
    scratch throw: the byte count of the decode scratch wraps to 0, the
    resample scratch is asked for 2^62 elements, and [DecodeSample] leaves
    before it calls [DecodeAudio]. *)
Example huge_sample_scratch :
  da_resample_scratch_sz
    (DecodeSample_args DALI_FLOAT DALI_FLOAT (self run_huge) 0) = 2 ^ 62 /\
  scratch_outcome alloc_ex DALI_FLOAT DALI_FLOAT (self run_huge) 0
  = Thrown (ExStd "std::length_error") /\
  DecodeSample alloc_ex decode_ex DALI_FLOAT DALI_FLOAT 0 0
    (scratch_resized ws_huge run_huge)
  = (decode_scratch_resized DALI_FLOAT DALI_FLOAT 0 0
       (scratch_resized ws_huge run_huge),
     Thrown (ExStd "std::length_error")).
Proof. by vm_compute. Qed.


(** ** Running the worked batch *)

Lemma run_ex_first_decodes :
  unit_outcome alloc_ex decode_ex DALI_FLOAT DALI_FLOAT (self run_ex) 0
  = Returned [].
Proof. vm_compute. reflexivity. Qed.

Lemma run_ex_second_fails :
  unit_outcome alloc_ex decode_ex DALI_FLOAT DALI_FLOAT (self run_ex) 1
  = Thrown (mkExn "deficient length").
Proof. vm_compute. reflexivity. Qed.

Lemma run_ex_sizes :
  length (decoded_output run_ex) = 2%nat /\
  length (sample_rate_output run_ex) = 2%nat /\
  ws_tp_size ws_ex = 2%nat.
Proof. by vm_compute. Qed.

Lemma run_ex_schedule :
  valid_schedule (length (decoded_output run_ex)) (ws_tp_size ws_ex) sched_ex.
Proof.
  destruct run_ex_sizes as (-> & _ & ->). exact sched_ex_valid.
Qed.

(** The whole of [RunImpl] on the worked batch: [a.wav] is decoded and its
    rate reported, [b.wav] fails and the call throws. *)
Example RunImpl_ex :
  let r := RunImpl alloc_ex decode_ex type_name_ex ws_ex sched_ex run_ex in
  r.2 = Thrown (mkExn "Error decoding file b.wav. Error: deficient length") /\
  sample_rate_output r.1 = [8000 # 1; 0]%Q /\
  skipn 2 (events r.1)
  = [EvDecodeAudio 1 0; EvDecodeAudio 0 1; EvRateWrite 0 (8000 # 1)].
Proof. by vm_compute. Qed.

(** The batch whose header announces 2^62 frames: the unit fails in the
    [resize] of its resample scratch, [DecodeAudio] is not called and the
    call throws the [std::length_error] as it is. *)
Example RunImpl_huge :
  let r := RunImpl alloc_ex decode_ex type_name_ex ws_huge sched_huge run_huge in
  r.2 = Thrown (ExStd "std::length_error") /\
  sample_rate_output r.1 = [0]%Q /\
  skipn 1 (events r.1) = [].
Proof. by vm_compute. Qed.

(** C3, counterexample. The operator resamples and both target rates are 0,
    so no resampling is requested for [a.wav], whose native rate is
    16000 Hz; the sample is decoded and the rate written for it is 0. *)
Lemma zero_target_rate_is_reported :
  ~ rates_reported_as_requested alloc_ex decode_ex DALI_FLOAT DALI_FLOAT
      ws_zero_rate sched_ex run_zero_rate.
Proof.
  intros Hclaim.
  destruct (Hclaim 0%nat [] ltac:(vm_compute; lia) ltac:(vm_compute; reflexivity))
    as (v & Hslot & _ & Hnative).
  assert (Hwritten :
            sample_rate_output
              (DecodeBatch alloc_ex decode_ex DALI_FLOAT DALI_FLOAT
                           ws_zero_rate sched_ex run_zero_rate).1 !! 0%nat
            = Some 0%Q) by (vm_compute; reflexivity).
  rewrite Hwritten in Hslot. injection Hslot as <-.
  specialize (Hnative ltac:(vm_compute; reflexivity)).
  assert (Hrate : sample_rate (sample_meta_ (self run_zero_rate) !!! 0%nat)
                  = (16000 # 1)%Q) by (vm_compute; reflexivity).
  rewrite Hrate in Hnative. apply Qeq_bool_iff in Hnative. discriminate.
Qed.

Lemma DecodeBatch_reports_rate_witness :
  valid_schedule (length (decoded_output run_ex)) (ws_tp_size ws_ex) sched_ex /\
  (0 < length (decoded_output run_ex))%nat /\
  (0 < length (sample_rate_output run_ex))%nat /\
  unit_outcome alloc_ex decode_ex DALI_FLOAT DALI_FLOAT (self run_ex) 0
  = Returned [] /\
  sample_rate_output
    (DecodeBatch alloc_ex decode_ex DALI_FLOAT DALI_FLOAT ws_ex sched_ex
                 run_ex).1 !! 0%nat
  = Some (8000 # 1).
Proof.
  assert (H0 : (0 < length (decoded_output run_ex))%nat) by (vm_compute; lia).
  assert (H1 : (0 < length (sample_rate_output run_ex))%nat) by (vm_compute; lia).
  split; [exact run_ex_schedule|]. split; [exact H0|]. split; [exact H1|].
  split; [exact run_ex_first_decodes|].
  destruct (DecodeBatch_reports_rate alloc_ex decode_ex DALI_FLOAT DALI_FLOAT
              ws_ex sched_ex run_ex 0 [] run_ex_schedule H0 H1
              run_ex_first_decodes)
    as (v & Hslot & _ & Hres & _).
  rewrite Hslot. f_equal. rewrite Hres; by vm_compute.
Defined.

(** C8, counterexample. The one sample of the batch announces 2^62 frames;
    its pipeline fails with the [std::length_error] of the [resize], which
    the [catch] clause does not take, and the unit leaves with that
    exception: no file name, no message of the operator.  [RunImpl_huge]
    shows the call failing with it. *)
Lemma scratch_failure_is_not_wrapped :
  ~ failure_is_wrapped alloc_ex decode_ex DALI_FLOAT DALI_FLOAT
      (scratch_resized ws_huge run_huge) 0 0.
Proof.
  intros Hclaim.
  destruct (Hclaim (ExStd "std::length_error") ltac:(vm_compute; reflexivity))
    as (cause_text & Hrun).
  assert (Hthrown :
            (decode_unit alloc_ex decode_ex DALI_FLOAT DALI_FLOAT 0 0
                         (scratch_resized ws_huge run_huge)).2
            = Thrown (ExStd "std::length_error")) by (vm_compute; reflexivity).
  rewrite Hthrown in Hrun. discriminate.
Qed.

Lemma DecodeBatch_fails_with_wrapped_error_witness :
  valid_schedule (length (decoded_output run_ex)) (ws_tp_size ws_ex) sched_ex /\
  (1 < length (decoded_output run_ex))%nat /\
  unit_outcome alloc_ex decode_ex DALI_FLOAT DALI_FLOAT (self run_ex) 1
  = Thrown (mkExn "deficient length") /\
  (DecodeBatch alloc_ex decode_ex DALI_FLOAT DALI_FLOAT ws_ex sched_ex run_ex).2
  = Thrown (mkExn "Error decoding file b.wav. Error: deficient length").
Proof.
  assert (H1 : (1 < length (decoded_output run_ex))%nat) by (vm_compute; lia).
  split; [exact run_ex_schedule|]. split; [exact H1|].
  split; [exact run_ex_second_fails|].
  destruct (DecodeBatch_fails_with_wrapped_error alloc_ex decode_ex
              DALI_FLOAT DALI_FLOAT ws_ex sched_ex run_ex 1
              (mkExn "deficient length")
              run_ex_schedule H1 run_ex_second_fails)
    as (_ & _ & _ & w' & j & cause_j & Hrun & Hj & Hfail).
  rewrite Hrun. cbn [snd].
  assert (Hj1 : j = 1%nat).
  { destruct j as [|[|j]]; [|reflexivity|].
    - rewrite run_ex_first_decodes in Hfail. discriminate.
    - destruct run_ex_sizes as (Hn & _). rewrite Hn in Hj. lia. }
  subst j. rewrite run_ex_second_fails in Hfail. injection Hfail as <-.
  by vm_compute.
Defined.

Lemma DecodeBatch_failed_unit_writes_no_rate_witness :
  unit_outcome alloc_ex decode_ex DALI_FLOAT DALI_FLOAT (self run_ex) 1
  = Thrown (mkExn "deficient length") /\
  sample_rate_output
    (DecodeBatch alloc_ex decode_ex DALI_FLOAT DALI_FLOAT ws_ex sched_ex
                 run_ex).1 !! 1%nat
  = Some 0%Q.
Proof.
  split; [exact run_ex_second_fails|].
  destruct (DecodeBatch_failed_unit_writes_no_rate alloc_ex decode_ex
              DALI_FLOAT DALI_FLOAT ws_ex sched_ex run_ex 1
              (mkExn "deficient length") run_ex_second_fails)
    as (Hslot & _).
  rewrite Hslot. by vm_compute.
Defined.

(** * Further properties *)

(** ** One step of the loop that opens the samples *)

Lemma for_each_acc_app {S} (l1 l2 : list nat) (acc : S) (body : nat -> S -> M S)
    (w : World) :
  for_each_acc (l1 ++ l2) acc body w
  = match for_each_acc l1 acc body w with
    | (w1, Returned acc1) => for_each_acc l2 acc1 body w1
    | (w1, Thrown e) => (w1, Thrown e)
    end.
Proof.
  revert acc w. induction l1 as [|i l1 IH]; intros acc w; [reflexivity|].
  cbn [app for_each_acc]. unfold bind.
  destruct (body i acc w) as [w1 [acc1|e]]; [apply IH | reflexivity].
Qed.

Lemma lookup_foldl_insert {A} (v : A) (is_ : list nat) :
  forall (l : list A) (j : nat),
  foldl (fun ds i => <[i := v]> ds) l is_ !! j
  = if decide (j ∈ is_ /\ (j < length l)%nat) then Some v else l !! j.
Proof.
  induction is_ as [|i rest IH]; intros l j; cbn [foldl].
  - case_decide as Hj; [|reflexivity]. destruct Hj as [Hj _].
    by apply elem_of_nil in Hj.
  - rewrite IH, length_insert.
    destruct (decide (j ∈ rest /\ (j < length l)%nat)) as [[Hj Hlt]|Hn].
    + rewrite decide_True; [reflexivity|]. split; [by right | exact Hlt].
    + destruct (decide (j = i)) as [->|Hne].
      * destruct (decide (i < length l)%nat) as [Hlt|Hge].
        -- rewrite list_lookup_insert_eq by done.
           rewrite decide_True; [reflexivity|]. split; [by left | exact Hlt].
        -- rewrite list_insert_ge by lia.
           rewrite decide_False; [reflexivity|]. intros [_ ?]. lia.
      * rewrite list_lookup_insert_ne by done.
        rewrite decide_False; [reflexivity|].
        intros [Hj Hlt]. apply elem_of_cons in Hj as [?|Hj]; [done|].
        by apply Hn.
Qed.

Lemma foldl_insert_seq {A} (v : A) (l : list A) :
  foldl (fun ds i => <[i := v]> ds) l (seq 0 (length l))
  = replicate (length l) v.
Proof.
  apply list_eq. intros j. rewrite lookup_foldl_insert.
  destruct (decide (j < length l)%nat) as [Hlt|Hge].
  - rewrite decide_True by (split; [apply elem_of_seq; lia | done]).
    symmetry. by apply lookup_replicate_2.
  - rewrite decide_False by (intros [_ ?]; lia).
    rewrite lookup_ge_None_2 by lia.
    symmetry. apply lookup_ge_None_2. rewrite length_replicate. lia.
Qed.

Lemma create_loop_exact (dt : DALIDataType) (is_ : list nat) :
  forall w : World,
  for_each is_ (fun i =>
    modify (with_self (fun o =>
      set_decoders (<[i := Some (mkDecoder dt [])]> (decoders_ o)) o))) w
  = (with_self (fun o =>
       set_decoders
         (foldl (fun ds i => <[i := Some (mkDecoder dt [])]> ds)
                (decoders_ o) is_) o) w,
     Returned tt).
Proof.
  induction is_ as [|i rest IH]; intros w.
  - destruct w as [[] ? ? ?]. reflexivity.
  - cbn [for_each foldl]. unfold bind at 1. unfold modify at 1.
    rewrite IH. destruct w as [[] ? ? ?]. reflexivity.
Qed.

Lemma planned_shape_plan (o o' : AudioDecoderCpu) (j : nat) :
  plan_of o = plan_of o' ->
  DecodedAudioShape (sample_meta_ o !!! j) (shape_target_rate o j) (downmix_ o)
  = DecodedAudioShape (sample_meta_ o' !!! j) (shape_target_rate o' j) (downmix_ o').
Proof.
  destruct o, o'. unfold plan_of; cbn. intros Heq.
  inversion Heq; subst. reflexivity.
Qed.

Lemma opened_metadata_unique
    (Open : DALIDataType -> list byte -> outcome AudioMetadata)
    (dt : DALIDataType) (samples : list InputSample) :
  forall metas metas' : list AudioMetadata,
  Forall2 (fun s meta => Open dt (sample_span s) = Returned meta) samples metas ->
  Forall2 (fun s meta => Open dt (sample_span s) = Returned meta) samples metas' ->
  metas = metas'.
Proof.
  induction samples as [|s samples IH]; intros metas metas' H1 H2.
  - apply Forall2_nil_inv_l in H1, H2. congruence.
  - apply Forall2_cons_inv_l in H1 as (m & ms & Hm & Hms & ->).
    apply Forall2_cons_inv_l in H2 as (m' & ms' & Hm' & Hms' & ->).
    f_equal; [congruence | by apply IH].
Qed.

Section SetupRuns.

Variable Open : DALIDataType -> list byte -> outcome AudioMetadata.
Variable type_to_string : DALIDataType -> string.

Lemma setup_sample_run (input : TensorList) (i : nat)
    (shapes : TensorListShape * TensorListShape) (w : World)
    (d : GenericAudioDecoder) :
  decoders_ (self w) !! i = Some (Some d) ->
  let sample := tl_samples input !!! i in
  setup_sample Open input i shapes w
  = match Open (dec_type d) (sample_span sample) with
    | Returned meta =>
        (sample_recorded i meta (source_info sample)
           (open_logged i d (sample_span sample) w),
         Returned
           (set_tensor_shape i
              (DecodedAudioShape meta (shape_target_rate (self w) i)
                                 (downmix_ (self w))) shapes.1,
            set_tensor_shape i [1] shapes.2))
    | Thrown e => (open_logged i d (sample_span sample) w, Thrown e)
    end.
Proof.
  intros Hd sample. destruct shapes as [sd sr]. destruct w as [o out0 out1 ev].
  unfold setup_sample, open_decoder, bind, gets, modify. cbn [self] in *.
  rewrite Hd. cbn. fold sample. unfold sample_span.
  destruct (Open _ _) as [meta|e]; cbn; destruct o; reflexivity.
Qed.

Lemma setup_sample_opened (input : TensorList) (n i : nat)
    (shapes : TensorListShape * TensorListShape) (w : World)
    (d : GenericAudioDecoder) (meta : AudioMetadata) :
  (i < n)%nat ->
  setup_sized n w shapes ->
  decoders_ (self w) !! i = Some (Some d) ->
  dec_type d = decode_type_ (self w) ->
  Open (dec_type d) (sample_span (tl_samples input !!! i)) = Returned meta ->
  let w1 := sample_recorded i meta (source_info (tl_samples input !!! i))
              (open_logged i d (sample_span (tl_samples input !!! i)) w) in
  setup_untouched w1 = setup_untouched w /\
  events w1 = events w ++ [EvOpen i] /\
  sample_opened Open input w1 i /\
  (forall j, j <> i -> sample_opened Open input w j -> sample_opened Open input w1 j).
Proof.
  intros Hi (Hm & Hf & Hd & _) Hdi Hdt HOpen w1.
  destruct w as [[ot dm ur tr decs metas names dt sdec sres] out0 out1 ev].
  cbn in *. subst dt.
  split; [reflexivity|]. split; [reflexivity|].
  unfold sample_opened; cbn. split.
  - rewrite list_lookup_total_insert_eq by lia.
    split; [apply list_lookup_insert_eq; lia|].
    split; [apply list_lookup_insert_eq; lia|].
    split; [apply list_lookup_insert_eq; lia|]. exact HOpen.
  - intros j Hne (H1 & H2 & H3 & H4).
    rewrite list_lookup_total_insert_ne by done.
    split; [by rewrite list_lookup_insert_ne|].
    split; [by rewrite list_lookup_insert_ne|].
    split; [by rewrite list_lookup_insert_ne|]. exact H4.
Qed.

(** The loop that opens the samples, whatever its outcome: it returns when
    every sample can be opened, and otherwise stops at the first one that
    cannot, with the exception of [Open]. *)
Lemma setup_loop_run (input : TensorList) (n : nat) (is_ : list nat) :
  forall (shapes : TensorListShape * TensorListShape) (w : World),
  Forall (fun i => (i < n)%nat) is_ ->
  setup_sized n w shapes ->
  match for_each_acc is_ shapes (setup_sample Open input) w with
  | (w', Returned shapes') =>
      (forall i, i ∈ is_ -> opens Open (decode_type_ (self w)) input i) /\
      setup_untouched w' = setup_untouched w /\
      events w' = events w ++ (EvOpen <$> is_) /\
      (forall j, j ∈ is_ \/ sample_opened Open input w j ->
                 sample_opened Open input w' j)
  | (w', Thrown e) =>
      exists done k rest,
        is_ = done ++ k :: rest /\
        (forall i, i ∈ done -> opens Open (decode_type_ (self w)) input i) /\
        Open (decode_type_ (self w)) (sample_span (tl_samples input !!! k))
        = Thrown e /\
        setup_untouched w' = setup_untouched w /\
        events w' = events w ++ (EvOpen <$> (done ++ [k]))
  end.
Proof.
  induction is_ as [|i rest IH]; intros shapes w Hin Hsz.
  - cbn. split; [by intros i Hi; apply elem_of_nil in Hi|].
    split; [reflexivity|]. split; [by rewrite app_nil_r|].
    intros j [Hj|Hj]; [by apply elem_of_nil in Hj | exact Hj].
  - apply Forall_cons in Hin as [Hi Hin].
    pose proof Hsz as (_ & _ & _ & _ & _ & Hdec).
    destruct (Hdec i Hi) as [span0 Hdi].
    cbn [for_each_acc]. unfold bind.
    pose proof (setup_sample_run input i shapes w _ Hdi) as Hbody.
    cbn [dec_type] in Hbody. cbv zeta in Hbody.
    destruct (Open (decode_type_ (self w)) (sample_span (tl_samples input !!! i)))
      as [meta|e] eqn:HOpen; rewrite Hbody.
    + destruct (setup_sample_spec Open input n i shapes _ w _ Hi Hsz Hbody)
        as (Hcfg & Hsz1 & _).
      destruct (setup_sample_opened input n i shapes w _ meta Hi Hsz Hdi
                  eq_refl HOpen) as (Hun1 & Hev1 & Hopi & Hopj).
      match goal with |- context [for_each_acc rest ?s1 _ ?w0] =>
        set (shapes1 := s1) in *; set (w1 := w0) in *
      end.
      assert (Hdt1 : decode_type_ (self w1) = decode_type_ (self w)).
      { unfold setup_config in Hcfg. by inversion Hcfg. }
      specialize (IH shapes1 w1 Hin Hsz1). rewrite Hdt1 in IH.
      destruct (for_each_acc rest shapes1 (setup_sample Open input) w1)
        as [w' [shapes'|e]].
      * destruct IH as (Hopens & Hun & Hev & Hopened).
        split.
        { intros j Hj. apply elem_of_cons in Hj as [->|Hj]; [by exists meta|auto]. }
        split; [congruence|].
        split; [by rewrite Hev, Hev1, <- app_assoc|].
        intros j Hj. apply Hopened.
        destruct (decide (j = i)) as [->|Hne]; [by right|].
        destruct Hj as [Hj|Hj].
        -- apply elem_of_cons in Hj as [Hj|Hj]; [done | by left].
        -- right. by apply Hopj.
      * destruct IH as (done & k & rest' & -> & Hopens & Hfail & Hun & Hev).
        exists (i :: done), k, rest'. split; [reflexivity|].
        split.
        { intros j Hj. apply elem_of_cons in Hj as [->|Hj]; [by exists meta|auto]. }
        split; [exact Hfail|]. split; [congruence|].
        rewrite Hev, Hev1, <- app_assoc. reflexivity.
    + exists [], i, rest. split; [reflexivity|].
      split; [by intros j Hj; apply elem_of_nil in Hj|].
      split; [exact HOpen|].
      destruct w as [[] ? ? ?]. split; reflexivity.
Qed.

(** [SetupImpl] in one piece: validation, the choice of the decode type, the
    creation of the decoders, and the loop that opens the samples. *)
Lemma SetupImpl_unfold (ws : Workspace) (w : World) :
  let input := ws_input ws in
  let dt := selected_decode_type (self w) in
  SetupImpl Open type_to_string ws w
  = if input_valid input then
      if type_switch_supported dt then
        match for_each_acc (seq 0 (length (tl_samples input)))
                (initial_shapes ws w) (setup_sample Open input)
                (setup_decoders_created ws w) with
        | (w', Returned shapes) =>
            (w', Returned [ mkDesc shapes.1 (output_type_ (self w'));
                            mkDesc shapes.2 DALI_FLOAT ])
        | (w', Thrown e) => (w', Thrown e)
        end
      else (setup_prepared ws w,
            Thrown (mkExn ("Unsupported output type: " +:+ type_to_string dt)))
    else (with_self (set_target_sample_rates (ws_sample_rate ws)) w,
          Thrown (validation_error input)).
Proof.
  intros input dt. unfold SetupImpl. fold input.
  unfold bind at 1; unfold modify at 1; cbv beta iota zeta.
  unfold bind at 1. rewrite validate_input_spec.
  destruct (input_valid input); [|reflexivity].
  do 4 (unfold bind at 1; unfold modify at 1; cbv beta iota zeta).
  unfold bind at 1; unfold gets at 1; cbv beta iota zeta.
  unfold bind at 1.
  change (with_self _ (with_self _ (with_self _ (with_self _ (with_self _ w)))))
    with (setup_prepared ws w).
  assert (Hdt : decode_type_ (self (setup_prepared ws w)) = dt)
    by (destruct w as [[] ? ? ?]; reflexivity).
  rewrite Hdt. unfold create_decoders.
  destruct (type_switch_supported dt); [|reflexivity].
  unfold for_range. rewrite create_loop_exact.
  assert (Hlen : length (decoders_ (self (setup_prepared ws w)))
                 = length (tl_samples input)).
  { destruct w as [[] ? ? ?]; cbn. by rewrite length_resize. }
  assert (Hcreated :
    with_self (fun o =>
      set_decoders
        (foldl (fun ds i => <[i := Some (mkDecoder dt [])]> ds)
               (decoders_ o) (seq 0 (length (tl_samples input)))) o)
      (setup_prepared ws w)
    = setup_decoders_created ws w).
  { unfold setup_decoders_created. fold input dt.
    remember (setup_prepared ws w) as p eqn:Hp. clear Hp Hdt.
    destruct p as [[] ? ? ?]; cbn in *.
    rewrite <- Hlen. unfold with_self; cbn. by rewrite foldl_insert_seq. }
  rewrite Hcreated.
  unfold bind at 1; unfold gets at 1; cbv beta iota zeta.
  assert (Hdm : downmix_ (self (setup_decoders_created ws w)) = downmix_ (self w))
    by (destruct w as [[] ? ? ?]; reflexivity).
  rewrite Hdm. fold (initial_shapes ws w).
  unfold bind at 1.
  destruct (for_each_acc _ _ _ _) as [w' [shapes|e]]; reflexivity.
Qed.

Lemma setup_decoders_created_spec (ws : Workspace) (w : World) :
  let w6 := setup_decoders_created ws w in
  setup_sized (length (tl_samples (ws_input ws))) w6 (initial_shapes ws w) /\
  decode_type_ (self w6) = selected_decode_type (self w) /\
  output_type_ (self w6) = output_type_ (self w) /\
  downmix_ (self w6) = downmix_ (self w) /\
  use_resampling_ (self w6) = use_resampling_ (self w) /\
  target_sample_rates_ (self w6) = ws_sample_rate ws /\
  scratch_decoder_ (self w6) = scratch_decoder_ (self w) /\
  scratch_resampler_ (self w6) = scratch_resampler_ (self w) /\
  decoded_output w6 = decoded_output w /\
  sample_rate_output w6 = sample_rate_output w /\
  events w6 = events w.
Proof.
  destruct w as [[] ? ? ?]; cbn. split_and!; try reflexivity.
  unfold setup_sized; cbn. rewrite !length_resize, !length_replicate.
  split_and!; try reflexivity.
  intros j Hj. exists []. by apply lookup_replicate_2.
Qed.

Lemma seq_split_first (n k : nat) (done rest : list nat) :
  seq 0 n = done ++ k :: rest -> done = seq 0 k /\ (k < n)%nat.
Proof.
  intros Hsplit.
  assert (Hk : seq 0 n !! length done = Some k)
    by (rewrite Hsplit; by apply list_lookup_middle).
  apply lookup_seq in Hk as [Hk Hlt]. cbn in Hk. split; [|lia].
  assert (Htake : take k (seq 0 n) = done)
    by (rewrite Hsplit, Hk; by rewrite take_app_length).
  rewrite take_seq in Htake. rewrite <- Htake. f_equal. lia.
Qed.

Lemma SetupImpl_returns_exactly_when (ws : Workspace) (w : World) :
  (exists w' descs,
     SetupImpl Open type_to_string ws w = (w', Returned descs))
  <-> input_valid (ws_input ws) = true /\
      type_switch_supported (selected_decode_type (self w)) = true /\
      forall i, (i < length (tl_samples (ws_input ws)))%nat ->
                opens Open (selected_decode_type (self w)) (ws_input ws) i.
Proof.
  rewrite SetupImpl_unfold.
  destruct (setup_decoders_created_spec ws w) as (Hsz & Hdt & _).
  pose proof (setup_loop_run (ws_input ws) _ _ _ _
                (Forall_seq_lt _) Hsz) as Hloop.
  rewrite Hdt in Hloop.
  destruct (input_valid (ws_input ws));
    [|split; [intros (? & ? & ?); discriminate | intros (? & _); discriminate]].
  destruct (type_switch_supported (selected_decode_type (self w)));
    [|split; [intros (? & ? & ?); discriminate | intros (_ & ? & _); discriminate]].
  destruct (for_each_acc _ _ _ _) as [w' [shapes|e]].
  - destruct Hloop as (Hopens & _). split; [|by eauto].
    intros _. split; [done|]. split; [done|].
    intros i Hi. apply Hopens, elem_of_seq. lia.
  - destruct Hloop as (done & k & rest & Hsplit & _ & Hfail & _).
    split; [intros (? & ? & ?); discriminate|].
    intros (_ & _ & Hopens). apply seq_split_first in Hsplit as [_ Hk].
    destruct (Hopens k Hk) as [meta Hmeta]. congruence.
Qed.

(** X1. [SetupImpl] returns exactly when the input is valid, the decode type
    is one of the three supported ones and every sample of the batch can be
    opened by a decoder of that type. *)
Theorem SetupImpl_returns_iff (ws : Workspace) (w : World) :
  (exists w' descs,
     SetupImpl Open type_to_string ws w = (w', Returned descs))
  <-> input_valid (ws_input ws) = true /\
      type_switch_supported (selected_decode_type (self w)) = true /\
      forall i, (i < length (tl_samples (ws_input ws)))%nat ->
                opens Open (selected_decode_type (self w)) (ws_input ws) i.
Proof. exact (SetupImpl_returns_exactly_when ws w). Qed.

(** X2. When the input is valid and the decode type supported but a sample
    cannot be opened, [SetupImpl] throws the exception of the first failing
    [Open] as it is: the samples before it were opened, in order, the
    samples after it were not, and neither the scratch vectors nor the
    outputs were touched. *)
Theorem SetupImpl_stops_at_first_open_failure (ws : Workspace) (w : World)
    (k : nat) (e : exception) :
  let input := ws_input ws in
  let dt := selected_decode_type (self w) in
  input_valid input = true ->
  type_switch_supported dt = true ->
  (k < length (tl_samples input))%nat ->
  (forall i, (i < k)%nat -> opens Open dt input i) ->
  Open dt (sample_span (tl_samples input !!! k)) = Thrown e ->
  exists w',
    SetupImpl Open type_to_string ws w = (w', Thrown e) /\
    events w' = events w ++ (EvOpen <$> seq 0 (S k)) /\
    decoded_output w' = decoded_output w /\
    sample_rate_output w' = sample_rate_output w /\
    scratch_decoder_ (self w') = scratch_decoder_ (self w) /\
    scratch_resampler_ (self w') = scratch_resampler_ (self w).
Proof.
  intros input dt Hvalid Hsup Hk Hbefore Hfail. subst input dt.
  rewrite SetupImpl_unfold. rewrite Hvalid, Hsup.
  destruct (setup_decoders_created_spec ws w)
    as (Hsz & Hdt & _ & _ & _ & _ & Hsd & Hsr & Hout0 & Hout1 & Hev).
  pose proof (setup_loop_run (ws_input ws) _ _ _ _ (Forall_seq_lt _) Hsz)
    as Hloop.
  rewrite Hdt in Hloop.
  destruct (for_each_acc _ _ _ _) as [w' [shapes|e']].
  - destruct Hloop as (Hopens & _).
    destruct (Hopens k) as [meta Hmeta]; [apply elem_of_seq; lia | congruence].
  - destruct Hloop as (done & k' & rest & Hsplit & Hopens & Hfail' & Hun & Hev').
    apply seq_split_first in Hsplit as [-> Hk'].
    assert (k' = k) as ->.
    { destruct (Nat.lt_trichotomy k' k) as [Hlt|[Heq|Hgt]]; [|exact Heq|].
      - destruct (Hbefore k' Hlt) as [meta Hmeta]. congruence.
      - destruct (Hopens k) as [meta Hmeta]; [apply elem_of_seq; lia | congruence]. }
    assert (e' = e) as -> by congruence.
    exists w'. split; [reflexivity|].
    unfold setup_untouched in Hun. injection Hun as _ Hsd' Hsr' Ho0 Ho1.
    split.
    { rewrite Hev', Hev. replace (S k) with (k + 1)%nat by lia.
      rewrite seq_app. reflexivity. }
    split_and!; congruence.
Qed.

(** X3. When the input is valid but the decode type is not int16, int32 or
    float, [SetupImpl] throws "Unsupported output type" after it has resized
    its vectors: no decoder is created, no sample is opened. *)
Theorem SetupImpl_unsupported_decode_type (ws : Workspace) (w : World) :
  let dt := selected_decode_type (self w) in
  let n := length (tl_samples (ws_input ws)) in
  input_valid (ws_input ws) = true ->
  type_switch_supported dt = false ->
  exists w',
    SetupImpl Open type_to_string ws w
    = (w', Thrown (mkExn ("Unsupported output type: " +:+ type_to_string dt))) /\
    decoders_ (self w') = resize n None (decoders_ (self w)) /\
    sample_meta_ (self w') = resize n default_meta (sample_meta_ (self w)) /\
    files_names_ (self w') = resize n EmptyString (files_names_ (self w)) /\
    decode_type_ (self w') = dt /\
    events w' = events w.
Proof.
  intros dt n Hvalid Hsup. subst dt n.
  rewrite SetupImpl_unfold. rewrite Hvalid, Hsup.
  exists (setup_prepared ws w). destruct w as [[] ? ? ?]. by split_and!.
Qed.

(** The state a successful [SetupImpl] leaves, in full. *)
Lemma SetupImpl_success_state (ws : Workspace) (w w' : World)
    (descs : list OutputDesc) :
  SetupImpl Open type_to_string ws w = (w', Returned descs) ->
  let samples := tl_samples (ws_input ws) in
  let dt := selected_decode_type (self w) in
  setup_untouched w' = setup_untouched (setup_decoders_created ws w) /\
  events w' = events w ++ (EvOpen <$> seq 0 (length samples)) /\
  decoders_ (self w')
    = (fun s => Some (mkDecoder dt (sample_span s))) <$> samples /\
  files_names_ (self w') = source_info <$> samples /\
  Forall2 (fun s meta => Open dt (sample_span s) = Returned meta)
          samples (sample_meta_ (self w')).
Proof.
  intros Hrun samples dt. subst samples dt.
  rewrite SetupImpl_unfold in Hrun.
  destruct (input_valid (ws_input ws)); [|discriminate].
  destruct (type_switch_supported (selected_decode_type (self w)));
    [|discriminate].
  destruct (setup_decoders_created_spec ws w)
    as (Hsz & Hdt & _ & _ & _ & _ & _ & _ & _ & _ & Hev).
  pose proof (setup_loop_run (ws_input ws) _ _ _ _ (Forall_seq_lt _) Hsz)
    as Hloop.
  destruct (for_each_acc _ _ _ _) as [w7 [shapes|e]] eqn:Hloop_eq;
    [|discriminate].
  injection Hrun as <- _.
  destruct Hloop as (_ & Hun & Hev7 & Hopened).
  destruct (setup_loop_spec Open _ _ _ _ _ _ _ (Forall_seq_lt _) Hsz Hloop_eq)
    as (_ & (Hm & Hf & Hd & _) & _).
  assert (Hdt7 : decode_type_ (self w7) = selected_decode_type (self w)).
  { unfold setup_untouched, setup_config in Hun.
    inversion Hun. congruence. }
  assert (Hop : forall j, (j < length (tl_samples (ws_input ws)))%nat ->
                  sample_opened Open (ws_input ws) w7 j).
  { intros j Hj. apply Hopened. left. apply elem_of_seq. lia. }
  split; [exact Hun|]. split; [by rewrite Hev7, Hev|].
  split; [|split].
  - apply (list_eq_same_length _ _ (length (tl_samples (ws_input ws))));
      [by rewrite length_fmap | exact Hd |].
    intros j x y Hj Hx Hy. destruct (Hop j Hj) as (Hdj & _).
    rewrite list_lookup_fmap, (list_lookup_lookup_total_lt _ j Hj) in Hy.
    cbn in Hy. rewrite Hdt7 in Hdj. congruence.
  - apply (list_eq_same_length _ _ (length (tl_samples (ws_input ws))));
      [by rewrite length_fmap | exact Hf |].
    intros j x y Hj Hx Hy. destruct (Hop j Hj) as (_ & _ & Hfj & _).
    rewrite list_lookup_fmap, (list_lookup_lookup_total_lt _ j Hj) in Hy.
    cbn in Hy. congruence.
  - apply Forall2_same_length_lookup_2; [by rewrite Hm|].
    intros j s meta Hs Hmeta.
    assert (Hj : (j < length (tl_samples (ws_input ws)))%nat)
      by (by apply lookup_lt_Some in Hs).
    destruct (Hop j Hj) as (_ & _ & _ & HOpen).
    rewrite (list_lookup_total_correct _ _ _ Hs) in HOpen.
    rewrite (list_lookup_total_correct _ _ _ Hmeta) in HOpen.
    by rewrite Hdt7 in HOpen.
Qed.

(** X4. A successful [SetupImpl] calls [Open] once per sample, in batch
    order, and does nothing else to its collaborators; it leaves the scratch
    vectors and both outputs of the workspace as they were. *)
Theorem SetupImpl_opens_each_sample_once (ws : Workspace) (w w' : World)
    (descs : list OutputDesc) :
  SetupImpl Open type_to_string ws w = (w', Returned descs) ->
  events w' = events w ++ (EvOpen <$> seq 0 (length (tl_samples (ws_input ws)))) /\
  scratch_decoder_ (self w') = scratch_decoder_ (self w) /\
  scratch_resampler_ (self w') = scratch_resampler_ (self w) /\
  decoded_output w' = decoded_output w /\
  sample_rate_output w' = sample_rate_output w.
Proof.
  intros Hrun.
  destruct (SetupImpl_success_state ws w w' descs Hrun) as (Hun & Hev & _).
  destruct (setup_decoders_created_spec ws w)
    as (_ & _ & _ & _ & _ & _ & Hsd & Hsr & Hout0 & Hout1 & _).
  unfold setup_untouched in Hun. injection Hun as _ Hsd' Hsr' Ho0 Ho1.
  split; [exact Hev|]. split_and!; congruence.
Qed.

(** X5. After a successful [SetupImpl] the three per-sample vectors are
    exactly those of the batch, whatever they held before: decoder [i] has
    the decode type of the batch and was opened on the first
    [num_elements()] bytes of sample [i], [files_names_[i]] is the sample's
    source label and [sample_meta_[i]] is what [Open] returned for it. *)
Theorem SetupImpl_plan_of_batch (ws : Workspace) (w w' : World)
    (descs : list OutputDesc) :
  SetupImpl Open type_to_string ws w = (w', Returned descs) ->
  let samples := tl_samples (ws_input ws) in
  let dt := selected_decode_type (self w) in
  decoders_ (self w')
    = (fun s => Some (mkDecoder dt (sample_span s))) <$> samples /\
  files_names_ (self w') = source_info <$> samples /\
  Forall2 (fun s meta => Open dt (sample_span s) = Returned meta)
          samples (sample_meta_ (self w')).
Proof.
  intros Hrun.
  by destruct (SetupImpl_success_state ws w w' descs Hrun) as (_ & _ & H).
Qed.

(** X6. [SetupImpl] takes nothing from an earlier batch: run on two
    operators of the same configuration (output type, downmix, resampling),
    whatever their vectors hold, it returns the same output descriptions and
    leaves the same plan and the same decode type. *)
Theorem SetupImpl_ignores_stale_state (ws : Workspace) (w1 w2 w1' : World)
    (descs : list OutputDesc) :
  output_type_ (self w1) = output_type_ (self w2) ->
  downmix_ (self w1) = downmix_ (self w2) ->
  use_resampling_ (self w1) = use_resampling_ (self w2) ->
  SetupImpl Open type_to_string ws w1 = (w1', Returned descs) ->
  exists w2',
    SetupImpl Open type_to_string ws w2 = (w2', Returned descs) /\
    plan_of (self w2') = plan_of (self w1') /\
    decode_type_ (self w2') = decode_type_ (self w1').
Proof.
  intros Hot Hdm Hur Hrun1.
  assert (Hsel : selected_decode_type (self w2) = selected_decode_type (self w1))
    by (unfold selected_decode_type; by rewrite Hot, Hdm, Hur).
  assert (Hret : exists w2' d2,
            SetupImpl Open type_to_string ws w2 = (w2', Returned d2)).
  { apply SetupImpl_returns_exactly_when. rewrite Hsel.
    apply SetupImpl_returns_exactly_when. eauto. }
  destruct Hret as (w2' & d2 & Hrun2). exists w2'.
  destruct (SetupImpl_success_state ws w1 w1' descs Hrun1)
    as (_ & _ & Hd1 & Hf1 & Hm1).
  destruct (SetupImpl_success_state ws w2 w2' d2 Hrun2)
    as (_ & _ & Hd2 & Hf2 & Hm2).
  rewrite Hsel in Hd2, Hm2.
  pose proof (opened_metadata_unique Open _ _ _ _ Hm1 Hm2) as Hmeta.
  destruct (SetupImpl_returns Open type_to_string ws w1 w1' descs Hrun1)
    as (sd1 & sr1 & -> & Ho1 & Hdm1 & Hu1 & Ht1 & Hdt1 & _ & Hdim1 & Hrd1
        & Hsz1 & Hp1).
  destruct (SetupImpl_returns Open type_to_string ws w2 w2' d2 Hrun2)
    as (sd2 & sr2 & -> & Ho2 & Hdm2 & Hu2 & Ht2 & Hdt2 & _ & Hdim2 & Hrd2
        & Hsz2 & Hp2).
  assert (Hplan : plan_of (self w2') = plan_of (self w1')).
  { unfold plan_of. rewrite Ho1, Ho2, Hdm1, Hdm2, Hu1, Hu2, Ht1, Ht2.
    rewrite Hd1, Hd2, Hf1, Hf2, Hmeta, Hot, Hdm, Hur. reflexivity. }
  assert (Hdt : decode_type_ (self w2') = decode_type_ (self w1'))
    by (rewrite Hdt1, Hdt2, Hot, Hdm, Hur; reflexivity).
  split; [|split; [exact Hplan | exact Hdt]].
  destruct Hsz1 as (_ & _ & _ & Hn1 & Hr1 & _).
  destruct Hsz2 as (_ & _ & _ & Hn2 & Hr2 & _).
  destruct sd1 as [dim1 l1], sd2 as [dim2 l2], sr1 as [rdim1 r1], sr2 as [rdim2 r2].
  cbn in *. rewrite Hrun2.
  assert (dim2 = dim1) as -> by (rewrite Hdim1, Hdim2, Hdm; reflexivity).
  assert (rdim2 = rdim1) as -> by congruence.
  assert (l2 = l1) as ->.
  { apply (list_eq_same_length _ _ _ Hn1 Hn2). intros j x y Hj Hx Hy.
    destruct (Hp1 j Hj) as (_ & Hs1 & _). destruct (Hp2 j Hj) as (_ & Hs2 & _).
    cbn in Hs1, Hs2. rewrite (planned_shape_plan _ _ j Hplan) in Hs2. congruence. }
  assert (r2 = r1) as ->.
  { apply (list_eq_same_length _ _ _ Hr1 Hr2). intros j x y Hj Hx Hy.
    destruct (Hp1 j Hj) as (_ & _ & Hs1 & _).
    destruct (Hp2 j Hj) as (_ & _ & Hs2 & _).
    cbn in Hs1, Hs2. congruence. }
  by rewrite Hot.
Qed.

(** X7. On an empty batch of bytes [SetupImpl] opens nothing and returns two
    output descriptions without samples; the three per-sample vectors are
    emptied.  The decode type is still checked. *)
Theorem SetupImpl_empty_batch (ws : Workspace) (w : World) :
  tl_samples (ws_input ws) = [] ->
  tl_type (ws_input ws) = DALI_UINT8 ->
  type_switch_supported (selected_decode_type (self w)) = true ->
  exists w',
    SetupImpl Open type_to_string ws w
    = (w', Returned
             [ mkDesc (mkTLS (if downmix_ (self w) then 1 else 2)%nat [])
                      (output_type_ (self w));
               mkDesc (mkTLS 1 []) DALI_FLOAT ]) /\
    decoders_ (self w') = [] /\
    sample_meta_ (self w') = [] /\
    files_names_ (self w') = [] /\
    events w' = events w.
Proof.
  intros Hempty Htype Hsup.
  rewrite SetupImpl_unfold.
  unfold input_valid, input_is_uint8. rewrite Hempty, Htype, Hsup. cbn.
  exists (setup_decoders_created ws w).
  unfold initial_shapes, setup_decoders_created, setup_prepared.
  rewrite Hempty. destruct w as [[] ? ? ?]. cbn. rewrite !resize_0.
  by split_and!.
Qed.

End SetupRuns.

(** ** Runs of the pool *)

Section BatchRuns.

Variable allocates : Z -> bool.
Variable DecodeAudio : DecodeAudioArgs -> outcome (list Q).
Variables OutputType DecoderOutputType : DALIDataType.

Local Abbreviation outcome_of :=
  (unit_outcome allocates DecodeAudio OutputType DecoderOutputType).
Local Abbreviation step :=
  (unit_step allocates DecodeAudio OutputType DecoderOutputType).
Local Abbreviation stage := (scratch_stage allocates OutputType DecoderOutputType).

Lemma run_scheduled_world (qo : AudioDecoderCpu) (n : nat) (sched : Schedule) :
  forall w : World,
  (run_scheduled (decode_queue allocates DecodeAudio OutputType
                               DecoderOutputType qo n)
                 sched w).1
  = foldl (step n) w sched.
Proof.
  induction sched as [|[k t] rest IH]; intros w; [reflexivity|].
  cbn [run_scheduled foldl]. unfold bind at 1.
  rewrite decode_queue_lookup. unfold unit_step at 2. cbn [fst snd].
  destruct (k <? n)%nat.
  - unfold try_catch, bind at 1. cbn [work].
    destruct (decode_unit _ _ _ _ k t w) as [w1 [[]|e]]; cbn [fst].
    + unfold ret at 1. rewrite <- IH. unfold bind, ret.
      by destruct (run_scheduled _ rest w1) as [w' [errs|e]].
    + unfold ret at 1. rewrite <- IH. unfold bind, ret.
      by destruct (run_scheduled _ rest w1) as [w' [errs|e']].
  - unfold ret at 1. rewrite <- IH. unfold bind, ret.
    by destruct (run_scheduled _ rest w) as [w' [errs|e]].
Qed.

Lemma DecodeBatch_world (ws : Workspace) (sched : Schedule) (w : World) :
  (DecodeBatch allocates DecodeAudio OutputType DecoderOutputType ws sched w).1
  = foldl (step (length (decoded_output w))) (scratch_resized ws w) sched.
Proof.
  unfold DecodeBatch.
  unfold bind at 1; unfold gets at 1; cbv beta iota zeta.
  do 2 (unfold bind at 1; unfold modify at 1; cbv beta iota zeta).
  unfold bind at 1; unfold gets at 1; cbv beta iota zeta.
  unfold RunAll, bind.
  match goal with |- context [run_scheduled ?q sched ?w0] =>
    pose proof (run_scheduled_world (self w0) (length (decoded_output w)) sched w0)
      as Hworld;
    destruct (run_scheduled q sched w0) as [w' [errs|e]]
  end.
  - cbn [fst] in Hworld. subst w'.
    unfold rethrow_first. destruct w as [[] ? ? ?].
    by destruct errs.
  - cbn [fst] in *. subst w'. by destruct w as [[] ? ? ?].
Qed.

Lemma unit_step_run (n : nat) (w : World) (k t : nat) :
  step n w (k, t)
  = if (k <? n)%nat then
      match outcome_of (self w) k with
      | Returned pcm =>
          log_event (EvRateWrite k (reported_rate (self w) k))
            (with_rates (<[k := reported_rate (self w) k]>)
               (with_decoded (<[k := pcm]>) (stage t k w)))
      | Thrown _ => stage t k w
      end
    else w.
Proof.
  unfold unit_step. cbn [fst snd]. destruct (k <? n)%nat; [|reflexivity].
  rewrite decode_unit_run. by destruct (unit_outcome _ _ _ _ _ _).
Qed.

Lemma unit_step_keeps (n : nat) (w : World) (kt : nat * nat) :
  plan_of (self (step n w kt)) = plan_of (self w) /\
  batch_sizes (step n w kt) = batch_sizes w.
Proof.
  destruct kt as [k t]. rewrite unit_step_run.
  destruct (k <? n)%nat; [|done].
  destruct (stage_keeps allocates OutputType DecoderOutputType t k w)
    as (Hplan & Hsizes & _).
  destruct (outcome_of (self w) k); [|done].
  split; [exact Hplan|]. rewrite <- Hsizes.
  unfold batch_sizes.
  cbn [self decoded_output sample_rate_output log_event with_rates with_decoded].
  by rewrite !length_insert.
Qed.

Lemma run_keeps (n : nat) (sched : Schedule) :
  forall w : World,
  plan_of (self (foldl (step n) w sched)) = plan_of (self w) /\
  batch_sizes (foldl (step n) w sched) = batch_sizes w.
Proof.
  induction sched as [|kt rest IH]; intros w; [done|].
  cbn [foldl]. destruct (IH (step n w kt)) as [Hp Hs].
  destruct (unit_step_keeps n w kt) as [Hp1 Hs1].
  split; congruence.
Qed.

(** X8. [DecodeBatch] only reads the plan: whatever the schedule and
    whichever samples fail, the configuration, the target rates, the
    decoders, the metadata, the file names and the decode type are the same
    afterwards.  Both scratch vectors have one slot per worker of the pool,
    and the two outputs keep their sizes. *)
Theorem DecodeBatch_keeps_plan (ws : Workspace) (sched : Schedule) (w : World) :
  let w' := (DecodeBatch allocates DecodeAudio OutputType DecoderOutputType
               ws sched w).1 in
  plan_of (self w') = plan_of (self w) /\
  decode_type_ (self w') = decode_type_ (self w) /\
  length (scratch_decoder_ (self w')) = ws_tp_size ws /\
  length (scratch_resampler_ (self w')) = ws_tp_size ws /\
  length (decoded_output w') = length (decoded_output w) /\
  length (sample_rate_output w') = length (sample_rate_output w).
Proof.
  intros w'. subst w'. rewrite DecodeBatch_world.
  destruct (run_keeps (length (decoded_output w)) sched (scratch_resized ws w))
    as [Hp Hs].
  unfold batch_sizes in Hs. injection Hs as Hdt Hsd Hsr Ho0 Ho1.
  rewrite Hp, Hdt, Hsd, Hsr, Ho0, Ho1.
  destruct w as [[] ? ? ?]; cbn. rewrite !length_resize. done.
Qed.

Lemma decoded_after_success (o : AudioDecoderCpu) (n i : nat) (pcm : list Q)
    (sched : Schedule) :
  (i < n)%nat ->
  outcome_of o i = Returned pcm ->
  forall w : World,
  plan_of (self w) = plan_of o ->
  (i < length (decoded_output w))%nat ->
  (exists t, (i, t) ∈ sched) \/ decoded_output w !! i = Some pcm ->
  decoded_output (foldl (step n) w sched) !! i = Some pcm.
Proof.
  intros Hi Hok. induction sched as [|[k t] rest IH]; intros w Hplan Hlen Hcase.
  - destruct Hcase as [[t Ht]|Hdone]; [by apply elem_of_nil in Ht | exact Hdone].
  - cbn [foldl].
    destruct (unit_step_keeps n w (k, t))
      as [Hp1 Hs1].
    apply IH.
    + congruence.
    + unfold batch_sizes in Hs1. injection Hs1 as _ _ _ Ho0 _. by rewrite Ho0.
    + rewrite unit_step_run.
      destruct (stage_keeps allocates OutputType DecoderOutputType t k w)
        as (_ & _ & Hout & _).
      destruct (decide (k = i)) as [->|Hne].
      * right. apply Nat.ltb_lt in Hi. rewrite Hi.
        rewrite (unit_outcome_plan allocates _ _ DecodeAudio _ _ i Hplan), Hok.
        cbn [decoded_output log_event with_rates with_decoded].
        rewrite Hout. by apply list_lookup_insert_eq.
      * destruct Hcase as [[t' Ht']|Hdone].
        -- left. exists t'. apply elem_of_cons in Ht' as [Heq|Hin]; [|exact Hin].
           congruence.
        -- right. destruct (k <? n)%nat; [|exact Hdone].
           destruct (outcome_of (self w) k);
             cbn [decoded_output log_event with_rates with_decoded];
             rewrite Hout; [|exact Hdone].
           rewrite <- Hdone. by apply list_lookup_insert_ne.
Qed.

(** X9. Under a valid schedule [DecodeBatch] returns normally exactly when
    the decode pipeline of every sample of the batch succeeds: the two
    [resize] calls of [DecodeSample] deliver the scratch buffers and
    [DecodeAudio] returns. *)
Theorem DecodeBatch_returns_iff (ws : Workspace) (sched : Schedule) (w : World) :
  let o := self w in
  let n := length (decoded_output w) in
  valid_schedule n (ws_tp_size ws) sched ->
  (DecodeBatch allocates DecodeAudio OutputType DecoderOutputType ws sched w).2
  = Returned tt
  <-> forall i, (i < n)%nat ->
        scratch_outcome allocates OutputType DecoderOutputType o i = Returned tt /\
        exists pcm,
          DecodeAudio (DecodeSample_args OutputType DecoderOutputType o i)
          = Returned pcm.
Proof.
  intros o n Hsched.
  destruct (DecodeBatch_run allocates DecodeAudio OutputType DecoderOutputType
              ws sched w)
    as (w' & Hrun & _).
  fold o n in Hrun. rewrite Hrun. cbn [snd].
  split.
  - intros Hret i Hi.
    destruct (outcome_of o i) as [pcm|cause] eqn:Hout.
    + pose proof (unit_outcome_scratch allocates _ _ DecodeAudio o i pcm Hout)
        as Hscratch.
      split; [exact Hscratch|]. exists pcm.
      unfold unit_outcome in Hout. by rewrite Hscratch in Hout.
    + destruct (valid_schedule_runs _ _ _ i Hsched Hi) as [t Ht].
      pose proof (collected_error_of_failure allocates DecodeAudio OutputType
                    DecoderOutputType o n i t cause sched Hi Ht Hout) as Hin.
      destruct (flat_map _ sched); [by apply elem_of_nil in Hin | discriminate].
  - intros Hall.
    destruct (flat_map _ sched) as [|e errs] eqn:Herrs; [reflexivity|].
    destruct (collected_error_inv allocates DecodeAudio OutputType
                DecoderOutputType o n e sched) as (j & cause & Hj & Hfail & _).
    { rewrite Herrs. by left. }
    destruct (Hall j Hj) as [Hscratch [pcm Hok]].
    unfold unit_outcome in Hfail. rewrite Hscratch in Hfail. congruence.
Qed.

(** X10. For a sample of the batch whose decode pipeline succeeds, the
    sample's slot of the decoded output holds, after [DecodeBatch], what
    [DecodeAudio] produced for it, whatever the schedule and whatever
    happens to the other samples. *)
Theorem DecodeBatch_writes_decoded_output (ws : Workspace) (sched : Schedule)
    (w : World) (i : nat) (pcm : list Q) :
  let o := self w in
  let n := length (decoded_output w) in
  valid_schedule n (ws_tp_size ws) sched ->
  (i < n)%nat ->
  outcome_of o i = Returned pcm ->
  decoded_output
    (DecodeBatch allocates DecodeAudio OutputType DecoderOutputType
                 ws sched w).1 !! i
  = Some pcm.
Proof.
  intros o n Hsched Hi Hok. rewrite DecodeBatch_world.
  apply (decoded_after_success o n i pcm sched Hi Hok).
  - by destruct w as [[] ? ? ?].
  - by destruct w as [[] ? ? ?].
  - left. by apply (valid_schedule_runs _ _ _ i Hsched Hi).
Qed.

Lemma rates_outside_batch (o : AudioDecoderCpu) (n j : nat) (sched : Schedule) :
  ~ (j < n)%nat ->
  forall rates : list Q,
  foldl (unit_rates allocates DecodeAudio OutputType DecoderOutputType o n)
        rates sched !! j
  = rates !! j.
Proof.
  intros Hj. induction sched as [|[k t] rest IH]; intros rates; [reflexivity|].
  cbn [foldl]. rewrite IH. unfold unit_rates; cbn [fst].
  destruct (Nat.ltb_spec k n) as [Hk|Hk]; [|reflexivity].
  destruct (outcome_of o k); [|reflexivity].
  apply list_lookup_insert_ne. lia.
Qed.

Lemma rates_length (o : AudioDecoderCpu) (n : nat) (sched : Schedule) :
  forall rates : list Q,
  length (foldl (unit_rates allocates DecodeAudio OutputType DecoderOutputType
                            o n)
                rates sched)
  = length rates.
Proof.
  induction sched as [|[k t] rest IH]; intros rates; [reflexivity|].
  cbn [foldl]. rewrite IH. unfold unit_rates; cbn [fst].
  destruct (k <? n)%nat; [|reflexivity].
  destruct (outcome_of o k); [by rewrite length_insert | reflexivity].
Qed.

(** X11. Under a valid schedule the sampling-rate output after
    [DecodeBatch] does not depend on the schedule: every slot of a sample
    whose pipeline succeeds holds the sample's reported rate, every other
    slot holds what it held before. *)
Theorem DecodeBatch_rates_of_batch (ws : Workspace) (sched : Schedule) (w : World) :
  let o := self w in
  let n := length (decoded_output w) in
  valid_schedule n (ws_tp_size ws) sched ->
  sample_rate_output
    (DecodeBatch allocates DecodeAudio OutputType DecoderOutputType ws sched w).1
  = batch_rates allocates DecodeAudio OutputType DecoderOutputType o n
                (sample_rate_output w).
Proof.
  intros o n Hsched.
  destruct (DecodeBatch_run allocates DecodeAudio OutputType DecoderOutputType
              ws sched w)
    as (w' & Hrun & _ & _ & Hrates).
  fold o n in Hrun, Hrates. rewrite Hrun. cbn [fst]. rewrite Hrates.
  apply list_eq. intros j. unfold batch_rates. rewrite list_lookup_imap.
  destruct (decide (j < length (sample_rate_output w))%nat) as [Hlen|Hlen].
  - rewrite (list_lookup_lookup_total_lt (sample_rate_output w) j Hlen).
    destruct (Nat.ltb_spec j n) as [Hj|Hj].
    + destruct (outcome_of o j) as [pcm|cause] eqn:Hout; cbn.
      * destruct (valid_schedule_runs _ _ _ j Hsched Hj) as [t Ht].
        eapply rates_after_success; eauto.
      * rewrite (rates_after_failure allocates DecodeAudio OutputType
                   DecoderOutputType o n j cause sched Hout).
        by apply list_lookup_lookup_total_lt.
    + cbn. rewrite rates_outside_batch by lia.
      by apply list_lookup_lookup_total_lt.
  - rewrite (lookup_ge_None_2 (sample_rate_output w)) by lia. cbn.
    apply lookup_ge_None_2. rewrite rates_length. lia.
Qed.

(** X17. [DecodeBatch] calls [DecodeAudio] for a sample exactly when the
    pool runs the sample's unit and the two [resize] calls of [DecodeSample]
    deliver its scratch buffers, and it does so on the worker the unit runs
    on: a unit whose scratch is not delivered never reaches [DecodeAudio]. *)
Theorem DecodeBatch_calls_DecodeAudio (ws : Workspace) (sched : Schedule)
    (w : World) :
  let o := self w in
  let n := length (decoded_output w) in
  let w' := (DecodeBatch allocates DecodeAudio OutputType DecoderOutputType
               ws sched w).1 in
  exists new_events,
    events w' = events w ++ new_events /\
    forall i t,
      EvDecodeAudio i t ∈ new_events
      <-> (i, t) ∈ sched /\ (i < n)%nat /\
          scratch_outcome allocates OutputType DecoderOutputType o i
          = Returned tt.
Proof.
  intros o n w'.
  destruct (DecodeBatch_run allocates DecodeAudio OutputType DecoderOutputType
              ws sched w)
    as (w1 & Hrun & _ & Hev & _).
  subst w'. rewrite Hrun. cbn [fst]. fold o n in Hev.
  eexists. split; [exact Hev|]. intros i t.
  rewrite list_elem_of_In, in_flat_map. split.
  - intros ([k t'] & Hin & Hev'). apply list_elem_of_In in Hin.
    unfold unit_events in Hev'. cbn [fst snd] in Hev'.
    destruct (Nat.ltb_spec k n) as [Hk|Hk]; [|destruct Hev'].
    apply in_app_or in Hev' as [Hev'|Hev'].
    + destruct (scratch_outcome _ _ _ o k) as [[]|e] eqn:Hscratch;
        [|destruct Hev'].
      destruct Hev' as [Heq|[]]. injection Heq as <- <-. done.
    + destruct (outcome_of o k); [|destruct Hev'].
      destruct Hev' as [Heq|[]]. discriminate.
  - intros (Hin & Hi & Hscratch). exists (i, t).
    split; [by apply list_elem_of_In|].
    unfold unit_events. cbn [fst snd].
    rewrite (proj2 (Nat.ltb_lt i n) Hi), Hscratch.
    apply in_or_app. left. by left.
Qed.

Lemma idle_worker_scratch (n t : nat) (sched : Schedule) :
  (forall k, (k, t) ∉ sched) ->
  forall w : World,
  scratch_decoder_ (self (foldl (step n) w sched)) !! t
  = scratch_decoder_ (self w) !! t /\
  scratch_resampler_ (self (foldl (step n) w sched)) !! t
  = scratch_resampler_ (self w) !! t.
Proof.
  induction sched as [|[k t'] rest IH]; intros Hidle w; [done|].
  cbn [foldl].
  assert (Hne : t <> t').
  { intros ->. apply (Hidle k). by left. }
  destruct (IH (fun k' Hin => Hidle k' (list_elem_of_further _ _ _ Hin))
               (step n w (k, t'))) as [Hd Hr].
  rewrite Hd, Hr. rewrite unit_step_run.
  destruct (k <? n)%nat; [|done].
  pose proof (stage_other_worker allocates OutputType DecoderOutputType
                t' t k w Hne) as Hother.
  by destruct (outcome_of (self w) k).
Qed.

(** X12. A worker that runs no unit of the batch keeps its scratch: after
    [DecodeBatch] its two slots hold what they held before, or are empty if
    the worker had no slot yet.  A unit resizes only the scratch of the
    worker it runs on. *)
Theorem DecodeBatch_idle_worker_scratch (ws : Workspace) (sched : Schedule)
    (w : World) (t : nat) :
  let w' := (DecodeBatch allocates DecodeAudio OutputType DecoderOutputType
               ws sched w).1 in
  (forall k, (k, t) ∉ sched) ->
  scratch_decoder_ (self w') !! t
  = resize (ws_tp_size ws) 0 (scratch_decoder_ (self w)) !! t /\
  scratch_resampler_ (self w') !! t
  = resize (ws_tp_size ws) 0 (scratch_resampler_ (self w)) !! t.
Proof.
  intros w' Hidle. subst w'. rewrite DecodeBatch_world.
  destruct (idle_worker_scratch (length (decoded_output w)) t sched Hidle
              (scratch_resized ws w)) as [Hd Hr].
  rewrite Hd, Hr. by destruct w as [[] ? ? ?].
Qed.

End BatchRuns.

(** ** [SetupImpl] followed by [RunImpl] *)

Lemma DALIDataType_eqb_refl (t : DALIDataType) : DALIDataType_eqb t t = true.
Proof. by apply DALIDataType_eqb_eq. Qed.

Section RunFacts.

Variable Open : DALIDataType -> list byte -> outcome AudioMetadata.
Variable allocates : Z -> bool.
Variable DecodeAudio : DecodeAudioArgs -> outcome (list Q).
Variable type_to_string : DALIDataType -> string.

Lemma RunImpl_after_setup (ws : Workspace) (w w' : World)
    (descs : list OutputDesc) (sched : Schedule) (w1 : World) :
  SetupImpl Open type_to_string ws w = (w', Returned descs) ->
  self w1 = self w' ->
  RunImpl allocates DecodeAudio type_to_string ws sched w1
  = if type_switch_supported (output_type_ (self w))
    then DecodeBatch allocates DecodeAudio (output_type_ (self w))
                     (selected_decode_type (self w)) ws sched w1
    else (w1, Thrown (mkExn ("Unsupported output type: "
                             +:+ type_to_string (output_type_ (self w))))).
Proof.
  intros Hrun Hself.
  destruct (SetupImpl_returns Open type_to_string ws w w' descs Hrun)
    as (_ & _ & _ & Hot & _ & _ & _ & Hdt & Hsup & _).
  unfold RunImpl, bind, gets. rewrite Hself, Hot.
  destruct (type_switch_supported (output_type_ (self w))); [|reflexivity].
  rewrite Hsup. by rewrite Hdt.
Qed.

(** X13. After a successful [SetupImpl] whose output type is int16, int32 or
    float, [RunImpl] is [DecodeBatch] at the output type and the decode type
    of the batch: the "Unsupported decoder output type" failure cannot
    occur. *)
Theorem RunImpl_dispatches_after_setup (ws : Workspace) (w w' : World)
    (descs : list OutputDesc) (sched : Schedule) (w1 : World) :
  SetupImpl Open type_to_string ws w = (w', Returned descs) ->
  type_switch_supported (output_type_ (self w)) = true ->
  self w1 = self w' ->
  RunImpl allocates DecodeAudio type_to_string ws sched w1
  = DecodeBatch allocates DecodeAudio (output_type_ (self w))
                (selected_decode_type (self w)) ws sched w1.
Proof.
  intros Hrun Hsup Hself.
  rewrite (RunImpl_after_setup ws w w' descs sched w1 Hrun Hself).
  by rewrite Hsup.
Qed.

(** X14. [SetupImpl] checks the decode type, not the output type: it can
    succeed with an output type outside int16, int32 and float only when the
    operator resamples without downmix (the decode type is then float), and
    [RunImpl] then throws "Unsupported output type" without running any
    unit. *)
Theorem RunImpl_rejects_unchecked_output_type (ws : Workspace) (w w' : World)
    (descs : list OutputDesc) (sched : Schedule) (w1 : World) :
  SetupImpl Open type_to_string ws w = (w', Returned descs) ->
  type_switch_supported (output_type_ (self w)) = false ->
  self w1 = self w' ->
  use_resampling_ (self w) = true /\
  downmix_ (self w) = false /\
  decode_type_ (self w') = DALI_FLOAT /\
  RunImpl allocates DecodeAudio type_to_string ws sched w1
  = (w1, Thrown (mkExn ("Unsupported output type: "
                        +:+ type_to_string (output_type_ (self w))))).
Proof.
  intros Hrun Hsup Hself.
  rewrite (RunImpl_after_setup ws w w' descs sched w1 Hrun Hself), Hsup.
  destruct (SetupImpl_returns Open type_to_string ws w w' descs Hrun)
    as (_ & _ & _ & _ & _ & _ & _ & Hdt & Hsup' & _).
  rewrite Hdt in Hsup'. rewrite Hdt.
  destruct (use_resampling_ (self w)), (downmix_ (self w)); cbn in *;
    try congruence; done.
Qed.

(** X15. The error of a decode failure: after a successful [SetupImpl], if
    the decode pipeline of a sample fails, [RunImpl] throws the error of a
    sample [j] of the batch whose pipeline failed.  When that failure is a
    [DALIException] the error is "Error decoding file L. Error: C", where [L]
    is the source label of input sample [j] and [C] the message of the
    failure; when it is an exception of another type, as a [resize] of the
    scratch buffers throws, the error is that exception and names no
    file. *)
Theorem RunImpl_error_names_source (ws : Workspace) (w w' : World)
    (descs : list OutputDesc) (sched : Schedule) (w1 : World)
    (i : nat) (cause : exception) :
  let n := length (tl_samples (ws_input ws)) in
  let OutputType := output_type_ (self w) in
  let DecoderOutputType := selected_decode_type (self w) in
  SetupImpl Open type_to_string ws w = (w', Returned descs) ->
  type_switch_supported OutputType = true ->
  self w1 = self w' ->
  length (decoded_output w1) = n ->
  valid_schedule n (ws_tp_size ws) sched ->
  (i < n)%nat ->
  unit_outcome allocates DecodeAudio OutputType DecoderOutputType (self w') i
  = Thrown cause ->
  exists w2 j cause_j,
    (j < n)%nat /\
    unit_outcome allocates DecodeAudio OutputType DecoderOutputType (self w') j
    = Thrown cause_j /\
    RunImpl allocates DecodeAudio type_to_string ws sched w1
    = (w2, Thrown
             match cause_j with
             | ExDALI e =>
                 ExDALI (mkExn ("Error decoding file "
                                +:+ source_info (tl_samples (ws_input ws) !!! j)
                                +:+ ". Error: " +:+ what e))
             | ExStd type_name => ExStd type_name
             end).
Proof.
  intros n OutputType DecoderOutputType Hrun Hsup Hself Hlen Hsched Hi Hfail.
  subst n OutputType DecoderOutputType.
  rewrite (RunImpl_after_setup ws w w' descs sched w1 Hrun Hself), Hsup.
  destruct (DecodeBatch_run allocates DecodeAudio (output_type_ (self w))
              (selected_decode_type (self w)) ws sched w1)
    as (w2 & Hbatch & _).
  rewrite Hlen, Hself in Hbatch. rewrite Hbatch.
  destruct (valid_schedule_runs _ _ _ i Hsched Hi) as [t Ht].
  pose proof (collected_error_of_failure allocates DecodeAudio _ _ (self w') _
                i t cause sched Hi Ht Hfail) as Hin.
  destruct (flat_map _ sched) as [|e errs] eqn:Herrs.
  { by apply elem_of_nil in Hin. }
  destruct (collected_error_inv allocates DecodeAudio (output_type_ (self w))
              (selected_decode_type (self w)) (self w')
              (length (tl_samples (ws_input ws))) e sched)
    as (j & cause_j & Hj & Hfj & ->).
  { rewrite Herrs. by left. }
  exists w2, j, cause_j. split; [exact Hj|]. split; [exact Hfj|].
  destruct cause_j as [e|type_name]; [|reflexivity].
  cbn [unit_error]. unfold wrapped_error.
  by rewrite (SetupImpl_records_source_info Open type_to_string ws w w' descs j
                Hrun Hj).
Qed.

(** X16. After a successful [SetupImpl], with the types [RunImpl] dispatches
    on, a sample needs a type conversion exactly when the operator resamples
    without downmix and the output type is not float.  So an operator that
    does not resample hands [DecodeAudio] an empty resample scratch for
    every sample, and an empty decode scratch for every sample it does not
    downmix. *)
Theorem setup_decides_conversion (ws : Workspace) (w w' : World)
    (descs : list OutputDesc) (i : nat) :
  let o := self w' in
  let a := DecodeSample_args (output_type_ o) (decode_type_ o) o i in
  SetupImpl Open type_to_string ws w = (w', Returned descs) ->
  needs_convert a
  = use_resampling_ o && negb (downmix_ o)
    && negb (DALIDataType_eqb (output_type_ o) DALI_FLOAT) /\
  should_convert (output_type_ o) (decode_type_ o) = needs_convert a /\
  (use_resampling_ o = false ->
   da_resample_scratch_sz a = 0 /\
   da_decode_scratch_sz a
   = if (1 <? channels (sample_meta_ o !!! i)) && downmix_ o
     then mul_int64 (length_ (sample_meta_ o !!! i))
                    (channels (sample_meta_ o !!! i))
     else 0).
Proof.
  intros o a Hrun.
  destruct (SetupImpl_returns Open type_to_string ws w w' descs Hrun)
    as (_ & _ & _ & Hot & Hdm & Hur & _ & Hdt & _).
  fold o in Hot, Hdm, Hur, Hdt. rewrite <- Hot, <- Hdm, <- Hur in Hdt.
  destruct (needs_agree (output_type_ o) (decode_type_ o) o i)
    as (_ & _ & Hc). fold a in Hc.
  assert (Hconv : needs_convert a
                  = use_resampling_ o && negb (downmix_ o)
                    && negb (DALIDataType_eqb (output_type_ o) DALI_FLOAT)).
  { unfold needs_convert; cbn. rewrite Hdt.
    destruct (use_resampling_ o && negb (downmix_ o)); cbn.
    - by rewrite DALIDataType_eqb_sym.
    - by rewrite DALIDataType_eqb_refl. }
  split; [exact Hconv|]. split; [by rewrite Hc|].
  intros Hoff.
  assert (Hres : should_resample o i = false).
  { unfold should_resample, target_sr. rewrite Hoff.
    apply negb_false_iff, Qeq_bool_iff, Qeq_refl. }
  split.
  - cbn. unfold resample_scratch_sz. by rewrite Hres.
  - cbn. unfold decode_scratch_sz. rewrite Hres, <- Hc, Hconv, Hoff. cbn.
    unfold should_downmix, meta_of.
    by destruct ((1 <? channels (sample_meta_ o !!! i)) && downmix_ o).
Qed.

End RunFacts.

(** * The further properties, checked on the batches *)

Lemma ws_unreadable_first_opens :
  forall i, (i < 1)%nat ->
  opens open_ex (selected_decode_type (self w_ex)) (ws_input ws_unreadable) i.
Proof.
  intros i Hi. assert (i = 0)%nat as -> by lia.
  eexists. vm_compute. reflexivity.
Qed.

Lemma SetupImpl_stops_at_first_open_failure_witness :
  input_valid (ws_input ws_unreadable) = true /\
  type_switch_supported (selected_decode_type (self w_ex)) = true /\
  (1 < length (tl_samples (ws_input ws_unreadable)))%nat /\
  open_ex (selected_decode_type (self w_ex))
          (sample_span (tl_samples (ws_input ws_unreadable) !!! 1%nat))
  = Thrown (mkExn "unrecognized header") /\
  exists w',
    SetupImpl open_ex type_name_ex ws_unreadable w_ex
    = (w', Thrown (mkExn "unrecognized header")) /\
    events w' = [EvOpen 0; EvOpen 1].
Proof.
  assert (H1 : (1 < length (tl_samples (ws_input ws_unreadable)))%nat)
    by (vm_compute; lia).
  split; [by vm_compute|]. split; [by vm_compute|]. split; [exact H1|].
  split; [by vm_compute|].
  destruct (SetupImpl_stops_at_first_open_failure open_ex type_name_ex
              ws_unreadable w_ex 1 (mkExn "unrecognized header")
              ltac:(by vm_compute) ltac:(by vm_compute) H1
              ws_unreadable_first_opens ltac:(by vm_compute))
    as (w' & Hrun & Hev & _).
  exists w'. split; [exact Hrun|]. rewrite Hev. reflexivity.
Defined.

Lemma SetupImpl_unsupported_decode_type_witness :
  input_valid (ws_input ws_ex) = true /\
  type_switch_supported (selected_decode_type (self w_uint8)) = false /\
  exists w',
    SetupImpl open_ex type_name_ex ws_ex w_uint8
    = (w', Thrown (mkExn "Unsupported output type: uint8")) /\
    decoders_ (self w') = [None; None] /\
    events w' = [].
Proof.
  split; [by vm_compute|]. split; [by vm_compute|].
  destruct (SetupImpl_unsupported_decode_type open_ex type_name_ex ws_ex w_uint8
              ltac:(by vm_compute) ltac:(by vm_compute))
    as (w' & Hrun & Hd & _ & _ & _ & Hev).
  exists w'. split; [exact Hrun|]. split; [rewrite Hd; reflexivity | exact Hev].
Defined.

Lemma SetupImpl_opens_each_sample_once_witness :
  SetupImpl open_ex type_name_ex ws_ex w_ex = (planned_ex, Returned descs_ex) /\
  events planned_ex = [EvOpen 0; EvOpen 1].
Proof.
  split; [exact setup_ex_returns|].
  destruct (SetupImpl_opens_each_sample_once open_ex type_name_ex ws_ex w_ex
              planned_ex descs_ex setup_ex_returns) as (Hev & _).
  rewrite Hev. reflexivity.
Defined.

Lemma SetupImpl_plan_of_batch_witness :
  SetupImpl open_ex type_name_ex ws_ex w_ex = (planned_ex, Returned descs_ex) /\
  decoders_ (self planned_ex)
  = [ Some (mkDecoder DALI_FLOAT [x01; x10]); Some (mkDecoder DALI_FLOAT [x02]) ] /\
  files_names_ (self planned_ex) = ["a.wav"; "b.wav"].
Proof.
  split; [exact setup_ex_returns|].
  destruct (SetupImpl_plan_of_batch open_ex type_name_ex ws_ex w_ex
              planned_ex descs_ex setup_ex_returns) as (Hd & Hf & _).
  split; [rewrite Hd | rewrite Hf]; reflexivity.
Defined.

Lemma SetupImpl_ignores_stale_state_witness :
  output_type_ (self w_ex) = output_type_ (self w_stale) /\
  downmix_ (self w_ex) = downmix_ (self w_stale) /\
  use_resampling_ (self w_ex) = use_resampling_ (self w_stale) /\
  SetupImpl open_ex type_name_ex ws_ex w_ex = (planned_ex, Returned descs_ex) /\
  exists w2',
    SetupImpl open_ex type_name_ex ws_ex w_stale = (w2', Returned descs_ex) /\
    plan_of (self w2') = plan_of (self planned_ex) /\
    decode_type_ (self w2') = decode_type_ (self planned_ex).
Proof.
  split; [reflexivity|]. split; [reflexivity|]. split; [reflexivity|].
  split; [exact setup_ex_returns|].
  exact (SetupImpl_ignores_stale_state open_ex type_name_ex ws_ex w_ex w_stale
           planned_ex descs_ex eq_refl eq_refl eq_refl setup_ex_returns).
Defined.

Lemma SetupImpl_empty_batch_witness :
  tl_samples (ws_input ws_empty) = [] /\
  tl_type (ws_input ws_empty) = DALI_UINT8 /\
  type_switch_supported (selected_decode_type (self w_stale)) = true /\
  exists w',
    SetupImpl open_ex type_name_ex ws_empty w_stale
    = (w', Returned [ mkDesc (mkTLS 2 []) DALI_FLOAT;
                      mkDesc (mkTLS 1 []) DALI_FLOAT ]) /\
    sample_meta_ (self w') = [] /\
    events w' = [EvOpen 7].
Proof.
  split; [reflexivity|]. split; [reflexivity|]. split; [reflexivity|].
  destruct (SetupImpl_empty_batch open_ex type_name_ex ws_empty w_stale
              eq_refl eq_refl eq_refl) as (w' & Hrun & _ & Hm & _ & Hev).
  exists w'. split; [exact Hrun|]. split; [exact Hm | exact Hev].
Defined.

Lemma DecodeBatch_returns_iff_witness :
  valid_schedule (length (decoded_output run_ex)) (ws_tp_size ws_ex) sched_ex /\
  ((DecodeBatch alloc_ex decode_ex DALI_FLOAT DALI_FLOAT ws_ex sched_ex run_ex).2
   = Returned tt
   <-> forall i, (i < length (decoded_output run_ex))%nat ->
         scratch_outcome alloc_ex DALI_FLOAT DALI_FLOAT (self run_ex) i
         = Returned tt /\
         exists pcm,
           decode_ex (DecodeSample_args DALI_FLOAT DALI_FLOAT (self run_ex) i)
           = Returned pcm).
Proof.
  split; [exact run_ex_schedule|].
  exact (DecodeBatch_returns_iff alloc_ex decode_ex DALI_FLOAT DALI_FLOAT ws_ex sched_ex
           run_ex run_ex_schedule).
Defined.

Lemma DecodeBatch_writes_decoded_output_witness :
  valid_schedule (length (decoded_output run_ex)) (ws_tp_size ws_ex) sched_ex /\
  (0 < length (decoded_output run_ex))%nat /\
  unit_outcome alloc_ex decode_ex DALI_FLOAT DALI_FLOAT (self run_ex) 0 = Returned [] /\
  decoded_output
    (DecodeBatch alloc_ex decode_ex DALI_FLOAT DALI_FLOAT ws_ex sched_ex run_ex).1 !! 0%nat
  = Some [].
Proof.
  assert (H0 : (0 < length (decoded_output run_ex))%nat) by (vm_compute; lia).
  split; [exact run_ex_schedule|]. split; [exact H0|].
  split; [exact run_ex_first_decodes|].
  exact (DecodeBatch_writes_decoded_output alloc_ex decode_ex DALI_FLOAT DALI_FLOAT ws_ex
           sched_ex run_ex 0 [] run_ex_schedule H0 run_ex_first_decodes).
Defined.

Lemma DecodeBatch_rates_of_batch_witness :
  valid_schedule (length (decoded_output run_ex)) (ws_tp_size ws_ex) sched_ex /\
  sample_rate_output
    (DecodeBatch alloc_ex decode_ex DALI_FLOAT DALI_FLOAT ws_ex sched_ex run_ex).1
  = [8000 # 1; 0]%Q.
Proof.
  split; [exact run_ex_schedule|].
  rewrite (DecodeBatch_rates_of_batch alloc_ex decode_ex DALI_FLOAT DALI_FLOAT ws_ex
             sched_ex run_ex run_ex_schedule).
  by vm_compute.
Defined.

Lemma sched_one_worker_idle : forall k : nat, (k, 1%nat) ∉ sched_one_worker.
Proof.
  intros k Hin. unfold sched_one_worker in Hin.
  repeat (apply elem_of_cons in Hin as [Hin|Hin]; [congruence|]).
  by apply elem_of_nil in Hin.
Qed.

Lemma DecodeBatch_idle_worker_scratch_witness :
  (forall k : nat, (k, 1%nat) ∉ sched_one_worker) /\
  scratch_decoder_
    (self (DecodeBatch alloc_ex decode_ex DALI_FLOAT DALI_FLOAT ws_ex sched_one_worker
             run_ex).1) !! 1%nat = Some 0 /\
  scratch_resampler_
    (self (DecodeBatch alloc_ex decode_ex DALI_FLOAT DALI_FLOAT ws_ex sched_one_worker
             run_ex).1) !! 1%nat = Some 0.
Proof.
  split; [exact sched_one_worker_idle|].
  destruct (DecodeBatch_idle_worker_scratch alloc_ex decode_ex DALI_FLOAT DALI_FLOAT ws_ex
              sched_one_worker run_ex 1 sched_one_worker_idle) as [Hd Hr].
  split; [rewrite Hd | rewrite Hr]; by vm_compute.
Defined.

Lemma run_ex_self : self run_ex = self planned_ex.
Proof. vm_compute. reflexivity. Qed.

Lemma RunImpl_dispatches_after_setup_witness :
  SetupImpl open_ex type_name_ex ws_ex w_ex = (planned_ex, Returned descs_ex) /\
  type_switch_supported (output_type_ (self w_ex)) = true /\
  self run_ex = self planned_ex /\
  RunImpl alloc_ex decode_ex type_name_ex ws_ex sched_ex run_ex
  = DecodeBatch alloc_ex decode_ex DALI_FLOAT DALI_FLOAT ws_ex sched_ex run_ex.
Proof.
  split; [exact setup_ex_returns|]. split; [reflexivity|].
  split; [exact run_ex_self|].
  exact (RunImpl_dispatches_after_setup open_ex alloc_ex decode_ex type_name_ex ws_ex w_ex
           planned_ex descs_ex sched_ex run_ex setup_ex_returns eq_refl
           run_ex_self).
Defined.

Lemma setup_uint8_returns :
  SetupImpl open_ex type_name_ex ws_ex w_uint8_resampled
  = (planned_uint8,
     Returned (returned_descs
                 (SetupImpl open_ex type_name_ex ws_ex w_uint8_resampled))).
Proof. vm_compute. reflexivity. Qed.

Lemma run_uint8_self : self run_uint8 = self planned_uint8.
Proof. vm_compute. reflexivity. Qed.

Lemma RunImpl_rejects_unchecked_output_type_witness :
  SetupImpl open_ex type_name_ex ws_ex w_uint8_resampled
  = (planned_uint8,
     Returned (returned_descs
                 (SetupImpl open_ex type_name_ex ws_ex w_uint8_resampled))) /\
  type_switch_supported (output_type_ (self w_uint8_resampled)) = false /\
  self run_uint8 = self planned_uint8 /\
  RunImpl alloc_ex decode_ex type_name_ex ws_ex sched_ex run_uint8
  = (run_uint8, Thrown (mkExn "Unsupported output type: uint8")).
Proof.
  split; [exact setup_uint8_returns|]. split; [reflexivity|].
  split; [exact run_uint8_self|].
  exact (proj2 (proj2 (proj2
    (RunImpl_rejects_unchecked_output_type open_ex alloc_ex decode_ex type_name_ex ws_ex
       w_uint8_resampled planned_uint8 _ sched_ex run_uint8
       setup_uint8_returns eq_refl run_uint8_self)))).
Defined.

Lemma planned_ex_second_fails :
  unit_outcome alloc_ex decode_ex (output_type_ (self w_ex))
               (selected_decode_type (self w_ex)) (self planned_ex) 1
  = Thrown (mkExn "deficient length").
Proof. vm_compute. reflexivity. Qed.

Lemma planned_ex_first_decodes :
  unit_outcome alloc_ex decode_ex (output_type_ (self w_ex))
               (selected_decode_type (self w_ex)) (self planned_ex) 0
  = Returned [].
Proof. vm_compute. reflexivity. Qed.

Lemma RunImpl_error_names_source_witness :
  SetupImpl open_ex type_name_ex ws_ex w_ex = (planned_ex, Returned descs_ex) /\
  type_switch_supported (output_type_ (self w_ex)) = true /\
  self run_ex = self planned_ex /\
  length (decoded_output run_ex) = length (tl_samples (ws_input ws_ex)) /\
  valid_schedule (length (tl_samples (ws_input ws_ex))) (ws_tp_size ws_ex)
                 sched_ex /\
  (1 < length (tl_samples (ws_input ws_ex)))%nat /\
  (RunImpl alloc_ex decode_ex type_name_ex ws_ex sched_ex run_ex).2
  = Thrown (mkExn "Error decoding file b.wav. Error: deficient length").
Proof.
  assert (H1 : (1 < length (tl_samples (ws_input ws_ex)))%nat) by (cbn; lia).
  split; [exact setup_ex_returns|]. split; [reflexivity|].
  split; [exact run_ex_self|]. split; [reflexivity|].
  split; [exact sched_ex_valid|]. split; [exact H1|].
  destruct (RunImpl_error_names_source open_ex alloc_ex decode_ex type_name_ex
              ws_ex w_ex planned_ex descs_ex sched_ex run_ex 1
              (mkExn "deficient length")
              setup_ex_returns eq_refl run_ex_self eq_refl sched_ex_valid H1
              planned_ex_second_fails)
    as (w2 & j & cause_j & Hj & Hfail & Hrun).
  rewrite Hrun. cbn [snd].
  assert (Hj1 : j = 1%nat).
  { destruct j as [|[|j]]; [|reflexivity|].
    - rewrite planned_ex_first_decodes in Hfail. discriminate.
    - cbn in Hj. lia. }
  subst j. rewrite planned_ex_second_fails in Hfail. injection Hfail as <-.
  reflexivity.
Defined.

Lemma setup_downmix_returns :
  SetupImpl open_ex type_name_ex ws_ex w_downmix_int16
  = (planned_downmix,
     Returned (returned_descs
                 (SetupImpl open_ex type_name_ex ws_ex w_downmix_int16))).
Proof. vm_compute. reflexivity. Qed.

Lemma setup_decides_conversion_witness :
  let o := self planned_downmix in
  SetupImpl open_ex type_name_ex ws_ex w_downmix_int16
  = (planned_downmix,
     Returned (returned_descs
                 (SetupImpl open_ex type_name_ex ws_ex w_downmix_int16))) /\
  use_resampling_ o = false /\
  da_decode_scratch_sz (DecodeSample_args (output_type_ o) (decode_type_ o) o 0)
  = 0 /\
  da_decode_scratch_sz (DecodeSample_args (output_type_ o) (decode_type_ o) o 1)
  = 2000.
Proof.
  intros o. split; [exact setup_downmix_returns|].
  assert (Hoff : use_resampling_ o = false) by (by vm_compute).
  split; [exact Hoff|].
  destruct (setup_decides_conversion open_ex type_name_ex ws_ex
              w_downmix_int16 planned_downmix _ 0 setup_downmix_returns)
    as (_ & _ & H0).
  destruct (setup_decides_conversion open_ex type_name_ex ws_ex
              w_downmix_int16 planned_downmix _ 1 setup_downmix_returns)
    as (_ & _ & H1).
  destruct (H0 Hoff) as (_ & Ht0). destruct (H1 Hoff) as (_ & Ht1).
  fold o in Ht0, Ht1.
  split; [rewrite Ht0 | rewrite Ht1]; by vm_compute.
Defined.
